(** * api_fetchers.py: a shallow embedding and its verified properties

    The gateway of [api_fetchers.py] is embedded function by function:
    the TTL cache, the sliding-window rate limiter, the LeetCode schema
    normaliser and statistics extractor, the strategy cascade
    [fetch_leetcode_live], and the HTTP handlers with the unified
    dispatcher.

    Python values are an inductive type; dictionaries are finite maps with
    string keys (every dictionary handled here comes out of a JSON decoder
    or is built from string literals), so that Rocq equality of two
    dictionaries is Python's [==].  Operations that can raise return in
    the error monad [res]; [try ... except Exception] is [try_except]. *)

From Stdlib Require Import ZArith QArith Lqa String Ascii.
From Stdlib Require Import Floats.SpecFloat Sorting.Sorted.
From stdpp Require Import gmap strings list fin_maps pretty.

#[local] Set Warnings "-register-all".
#[local] Open Scope string_scope.
#[local] Open Scope Z_scope.

(** ** Python values, exceptions and built-ins *)

Module Py.

(** JSON-shaped Python values.  Floats are IEEE-754 values
    ([spec_float]); strings are ASCII text. *)
Inductive pyval : Type :=
| PNone
| PBool (b : bool)
| PInt (z : Z)
| PFloat (f : spec_float)
| PStr (s : string)
| PList (l : list pyval)
| PDict (d : gmap string pyval).

(** The exceptions the modelled code can meet; all are subclasses of
    [Exception].  [UpstreamError] stands for whatever a network or
    browser call raises (timeouts, transport errors, HTTP errors). *)
Inductive pyexc : Type :=
| KeyError
| TypeError
| AttributeError
| ValueError
| OverflowError
| UpstreamError
| HTTPException (status_code : Z) (detail : string).

Inductive res (A : Type) : Type :=
| Ok (a : A)
| Raise (e : pyexc).
Arguments Ok {A} a.
Arguments Raise {A} e.

Definition bind {A B} (m : res A) (f : A -> res B) : res B :=
  match m with
  | Ok a => f a
  | Raise e => Raise e
  end.

Definition fmap_res {A B} (f : A -> B) (m : res A) : res B :=
  bind m (fun a => Ok (f a)).

Notation "x <- m ;; k" := (bind m (fun x => k))
  (at level 100, m at next level, right associativity).

(** [try: c  except Exception: h] *)
Definition try_except {A} (c : res A) (h : res A) : res A :=
  match c with
  | Ok a => Ok a
  | Raise _ => h
  end.

Definition returns {A} (c : res A) : Prop := exists a, c = Ok a.

(** *** Truth value testing *)

Definition truthy (v : pyval) : bool :=
  match v with
  | PNone => false
  | PBool b => b
  | PInt z => negb (z =? 0)
  | PFloat (S754_zero _) => false
  | PFloat _ => true
  | PStr EmptyString => false
  | PStr _ => true
  | PList [] => false
  | PList _ => true
  | PDict d => match map_to_list d with [] => false | _ => true end
  end.

(** [a or b]: [b] is evaluated only when [a] is falsy. *)
Definition py_or (a b : res pyval) : res pyval :=
  x <- a;; if truthy x then Ok x else b.

(** [a and b] *)
Definition py_and (a b : res pyval) : res pyval :=
  x <- a;; if truthy x then b else Ok x.

Definition isinstance_dict (v : pyval) : bool :=
  match v with PDict _ => true | _ => false end.

Definition isinstance_str (v : pyval) : bool :=
  match v with PStr _ => true | _ => false end.

(** *** Strings *)

Definition ascii_lower (c : ascii) : ascii :=
  let n := N_of_ascii c in
  if ((65 <=? n) && (n <=? 90))%N then ascii_of_N (n + 32) else c.

(** [s.lower()] *)
Fixpoint str_lower (s : string) : string :=
  match s with
  | EmptyString => EmptyString
  | String c s' => String (ascii_lower c) (str_lower s')
  end.

(** [needle in hay] on strings: substring test. *)
Fixpoint str_contains (needle hay : string) : bool :=
  String.prefix needle hay ||
  match hay with
  | EmptyString => false
  | String _ hay' => str_contains needle hay'
  end.

(** *** Dictionaries *)

(** [k in x] *)
Definition py_in (k : string) (x : pyval) : res bool :=
  match x with
  | PDict d => Ok (bool_decide (is_Some (d !! k)))
  | PStr s => Ok (str_contains k s)
  | PList l =>
      Ok (existsb (fun v => match v with PStr s => String.eqb s k | _ => false end) l)
  | _ => Raise TypeError
  end.

(** [x[k]] for a string subscript [k] *)
Definition py_getitem (x : pyval) (k : string) : res pyval :=
  match x with
  | PDict d => match d !! k with Some v => Ok v | None => Raise KeyError end
  | _ => Raise TypeError
  end.

(** [x.get(k, dflt)]; only dictionaries have a [get] attribute. *)
Definition py_get_default (x : pyval) (k : string) (dflt : pyval) : res pyval :=
  match x with
  | PDict d => Ok (default dflt (d !! k))
  | _ => Raise AttributeError
  end.

(** [x.get(k)] *)
Definition py_get (x : pyval) (k : string) : res pyval :=
  py_get_default x k PNone.

(** [x[k] = v], giving the updated object. *)
Definition py_setitem (x : pyval) (k : string) (v : pyval) : res pyval :=
  match x with
  | PDict d => Ok (PDict (<[k := v]> d))
  | _ => Raise TypeError
  end.

(** [x.setdefault(k, v)]: the updated object and the value now under [k]. *)
Definition py_setdefault (x : pyval) (k : string) (v : pyval) : res (pyval * pyval) :=
  match x with
  | PDict d =>
      match d !! k with
      | Some w => Ok (x, w)
      | None => Ok (PDict (<[k := v]> d), v)
      end
  | _ => Raise AttributeError
  end.

(** [x.update(y)] for two dictionaries *)
Definition py_update (x y : pyval) : res pyval :=
  match x, y with
  | PDict d, PDict e => Ok (PDict (e ∪ d))
  | PDict _, _ => Raise TypeError
  | _, _ => Raise AttributeError
  end.

(** [for row in x]: the items the loop visits. *)
Definition py_iter (x : pyval) : res (list pyval) :=
  match x with
  | PList l => Ok l
  | PDict d => Ok (PStr <$> (map_to_list d).*1)
  | PStr s => Ok ((fun c => PStr (String c EmptyString)) <$> list_ascii_of_string s)
  | _ => Raise TypeError
  end.

(** *** [int(x)] *)

Definition is_space (c : ascii) : bool :=
  let n := N_of_ascii c in
  (((9 <=? n) && (n <=? 13)) || ((28 <=? n) && (n <=? 32)))%N.

Definition is_digit (c : ascii) : bool :=
  let n := N_of_ascii c in ((48 <=? n) && (n <=? 57))%N.

Definition digit_val (c : ascii) : Z := Z.of_N (N_of_ascii c) - 48.

Fixpoint drop_space (l : list ascii) : list ascii :=
  match l with
  | c :: l' => if is_space c then drop_space l' else l
  | [] => []
  end.

Definition strip (l : list ascii) : list ascii :=
  rev (drop_space (rev (drop_space l))).

(** Decimal digits, single underscores allowed between digits. *)
Fixpoint parse_digits (acc : Z) (after_digit : bool) (l : list ascii) : option Z :=
  match l with
  | [] => if after_digit then Some acc else None
  | c :: l' =>
      if is_digit c then parse_digits (10 * acc + digit_val c) true l'
      else if Ascii.eqb c "_"%char then
        if after_digit then parse_digits acc false l' else None
      else None
  end.

Definition int_of_str (s : string) : res Z :=
  let l := strip (list_ascii_of_string s) in
  let r := match l with
           | "+"%char :: l' => parse_digits 0 false l'
           | "-"%char :: l' => Z.opp <$> parse_digits 0 false l'
           | _ => parse_digits 0 false l
           end in
  match r with Some z => Ok z | None => Raise ValueError end.

(** Truncation towards zero; infinities and NaN raise. *)
Definition int_of_float (f : spec_float) : res Z :=
  match f with
  | S754_zero _ => Ok 0
  | S754_infinity _ => Raise OverflowError
  | S754_nan => Raise ValueError
  | S754_finite s m e =>
      let a := if 0 <=? e then Z.pos m * 2 ^ e else Z.pos m / 2 ^ (- e) in
      Ok (if s then - a else a)
  end.

Definition py_int (v : pyval) : res Z :=
  match v with
  | PBool b => Ok (if b then 1 else 0)
  | PInt z => Ok z
  | PFloat f => int_of_float f
  | PStr s => int_of_str s
  | PNone | PList _ | PDict _ => Raise TypeError
  end.

(** [v > 0] *)
Definition py_gt0 (v : pyval) : res bool :=
  match v with
  | PBool b => Ok b
  | PInt z => Ok (0 <? z)
  | PFloat (S754_finite false _ _) | PFloat (S754_infinity false) => Ok true
  | PFloat _ => Ok false
  | _ => Raise TypeError
  end.

(** [v == 0] *)
Definition py_eq0 (v : pyval) : bool :=
  match v with
  | PBool b => negb b
  | PInt z => z =? 0
  | PFloat (S754_zero _) => true
  | _ => false
  end.

(** Dictionary literals. *)
Definition dict (l : list (string * pyval)) : pyval := PDict (list_to_map l).

End Py.
Import Py.

(** ** Configuration constants *)

Definition CACHE_TTL : Z := 60.
Definition RATE_LIMIT : Z := 30.
Definition RATE_PERIOD : Z := 60.

(** Wall-clock readings ([time.time()]) are rationals. *)
Definition py_time_gt (a b : Q) : bool := negb (Qle_bool a b).

(** ** TTL cache *)

Module TTLCache.

(** [self._data]: key to [(val, exp)]. *)
Definition init : gmap string (pyval * Q) := ∅.

(** [get] when [time.time()] reads [now]: the returned value and the
    store afterwards. *)
Definition get (data : gmap string (pyval * Q)) (key : string) (now : Q)
  : pyval * gmap string (pyval * Q) :=
  match data !! key with
  | None => (PNone, data)
  | Some (val, exp) =>
      if py_time_gt now exp then (PNone, delete key data) else (val, data)
  end.

(** [set] when [time.time()] reads [now]. *)
Definition set (data : gmap string (pyval * Q)) (key : string) (val : pyval)
    (ttl : Z) (now : Q) : gmap string (pyval * Q) :=
  <[key := (val, (now + inject_Z ttl)%Q)]> data.

Definition clear (data : gmap string (pyval * Q)) : gmap string (pyval * Q) := ∅.

End TTLCache.

(** ** Rate limiter *)

Section RateLimiter.

(** The two module constants, kept abstract so that other configurations
    can be examined. *)
Variable RATE_LIMIT : Z.
Variable RATE_PERIOD : Z.

(** [while dq and dq[0] <= now - RATE_PERIOD: dq.popleft()] *)
Fixpoint popleft_expired (now : Q) (dq : list Q) : list Q :=
  match dq with
  | t :: dq' =>
      if Qle_bool t (now - inject_Z RATE_PERIOD) then popleft_expired now dq' else dq
  | [] => []
  end.

Definition rate_limit_detail : string :=
  "Rate limit exceeded (" +:+ pretty RATE_LIMIT +:+ " req / "
    +:+ pretty RATE_PERIOD +:+ "s)".

(** [check_rate_limit] for the client address [ip] when [time.time()]
    reads [now].  [_rate_buckets] is a [defaultdict]: a missing bucket is
    created empty.  The pops persist when the call is rejected. *)
Definition check_rate_limit (buckets : gmap string (list Q)) (ip : string) (now : Q)
  : res bool * gmap string (list Q) :=
  let dq := default [] (buckets !! ip) in
  let dq := popleft_expired now dq in
  if Z.of_nat (List.length dq) >=? RATE_LIMIT
  then (Raise (HTTPException 429 rate_limit_detail), <[ip := dq]> buckets)
  else (Ok true, <[ip := (dq ++ [now])%list]> buckets).

(** A sequence of calls, each with its client and its clock reading. *)
Fixpoint check_rate_limit_calls (buckets : gmap string (list Q))
    (calls : list (string * Q)) : list (res bool) * gmap string (list Q) :=
  match calls with
  | [] => ([], buckets)
  | (ip, now) :: calls' =>
      let '(r, buckets') := check_rate_limit buckets ip now in
      let '(rs, buckets'') := check_rate_limit_calls buckets' calls' in
      (r :: rs, buckets'')
  end.

(** The admission rule in the words of the specification: drop every
    timestamp older than the trailing window, accept (and record) when
    fewer than the limit remain, reject otherwise. *)
Definition in_window (now t : Q) : bool :=
  negb (Qle_bool t (now - inject_Z RATE_PERIOD)).

Definition sliding_window_spec (buckets : gmap string (list Q)) (ip : string) (now : Q)
  : res bool * gmap string (list Q) :=
  let recent := List.filter (in_window now) (default [] (buckets !! ip)) in
  if Z.of_nat (List.length recent) <? RATE_LIMIT
  then (Ok true, <[ip := (recent ++ [now])%list]> buckets)
  else (Raise (HTTPException 429 rate_limit_detail), <[ip := recent]> buckets).

Fixpoint sliding_window_spec_calls (buckets : gmap string (list Q))
    (calls : list (string * Q)) : list (res bool) * gmap string (list Q) :=
  match calls with
  | [] => ([], buckets)
  | (ip, now) :: calls' =>
      let '(r, buckets') := sliding_window_spec buckets ip now in
      let '(rs, buckets'') := sliding_window_spec_calls buckets' calls' in
      (r :: rs, buckets'')
  end.

End RateLimiter.

(** Clock readings that never go back, starting from [t0]. *)
Fixpoint nondecreasing_from (t0 : Q) (calls : list (string * Q)) : Prop :=
  match calls with
  | [] => True
  | (_, t) :: calls' => (t0 <= t)%Q /\ nondecreasing_from t calls'
  end.

(** Every recorded timestamp is at most [now] and each bucket is in
    arrival order. *)
Definition bucket_ok (now : Q) (dq : list Q) : Prop :=
  StronglySorted Qle dq /\ Forall (fun t => (t <= now)%Q) dq.

Definition buckets_ok (now : Q) (buckets : gmap string (list Q)) : Prop :=
  forall ip dq, buckets !! ip = Some dq -> bucket_ok now dq.

(** ** Nested writes and loops *)

(** [x[k1][k2] = v]: the write goes through the object held under [k1]. *)
Definition py_setitem_in (x : pyval) (k1 k2 : string) (v : pyval) : res pyval :=
  inner <- py_getitem x k1;;
  inner <- py_setitem inner k2 v;;
  py_setitem x k1 inner.

(** [x.setdefault(k1, {})[k2] = v] *)
Definition py_setdefault_setitem (x : pyval) (k1 k2 : string) (v : pyval) : res pyval :=
  p <- py_setdefault x k1 (dict []);;
  let '(x, inner) := p in
  inner <- py_setitem inner k2 v;;
  py_setitem x k1 inner.

(** [x.setdefault(k1, {}).setdefault(k2, v)] *)
Definition py_setdefault_setdefault (x : pyval) (k1 k2 : string) (v : pyval) : res pyval :=
  p <- py_setdefault x k1 (dict []);;
  let '(x, inner) := p in
  p <- py_setdefault inner k2 v;;
  let '(inner, _) := p in
  py_setitem x k1 inner.

(** [for a in l: st = body(st, a)], stopping at the first exception. *)
Fixpoint for_each {A B} (l : list A) (st : B) (body : B -> A -> res B) : res B :=
  match l with
  | [] => Ok st
  | a :: l' => st' <- body st a;; for_each l' st' body
  end.

(** [s.lower()]; among JSON values only strings have the method. *)
Definition py_lower (v : pyval) : res string :=
  match v with
  | PStr s => Ok (str_lower s)
  | _ => Raise AttributeError
  end.

(** ** Response template *)

Definition template_message : string :=
  "Detailed problem statistics not available from public APIs. Profile data retrieved successfully.".

Definition leetcode_template (username : string) : pyval :=
  dict [("message", PStr "LeetCode report fetched successfully");
        ("report", dict [
           ("error", PBool true);
           ("errorMessage", PStr template_message);
           ("username", PStr username);
           ("totalSolved", PInt 0);
           ("easySolved", PInt 0);
           ("mediumSolved", PInt 0);
           ("hardSolved", PInt 0);
           ("acceptanceRate", PInt 0);
           ("ranking", PNone);
           ("reputation", PInt 0);
           ("contributionPoints", PInt 0);
           ("streak", PInt 0);
           ("totalActiveDays", PInt 0);
           ("submissionCalendar", dict [])])].

(** ** Schema normaliser *)

(** ["data" in j and isinstance(j["data"], dict)] *)
Definition has_data_dict (j : pyval) : res bool :=
  c <- py_in "data" j;;
  if c then fmap_res isinstance_dict (py_getitem j "data") else Ok false.

(** One round of the loop copying loose top-level fields. *)
Definition copy_key (j : pyval) (out : pyval) (k : string) : res pyval :=
  c <- py_in k j;;
  if c then v <- py_getitem j k;; py_setitem out k v else Ok out.

(** [_normalize_leetcode_json(j)].  [mu] and [out["matchedUser"]] are one
    object: the writes below go through [out], and so change the value
    the caller's [j] holds under the key [mu] came from; nothing read
    later in the function sits under that key. *)
Definition _normalize_leetcode_json (j : pyval) : res pyval :=
  let out := dict [] in
  if negb (isinstance_dict j) then Ok out else
  let mu := PNone in
  c <- has_data_dict j;;
  mu <- (if c
        then py_or (d <- py_getitem j "data";; py_get d "matchedUser")
                   (d <- py_getitem j "data";; py_get d "user")
        else Ok mu);;
  mu <- (if negb (truthy mu)
        then py_or (py_or (py_get j "matchedUser") (py_get j "user")) (py_get j "profile")
        else Ok mu);;
  out <- (if truthy mu && isinstance_dict mu then
           out <- py_setitem out "matchedUser" mu;;
           c <- py_in "submitStatsGlobal" mu;;
           out <- (if c then v <- py_getitem mu "submitStatsGlobal";;
                            py_setitem_in out "matchedUser" "submitStatsGlobal" v
                  else Ok out);;
           c <- py_in "submitStats" mu;;
           if c then v <- py_getitem mu "submitStats";;
                     py_setitem_in out "matchedUser" "submitStats" v
           else Ok out
         else Ok out);;
  c <- py_in "submitStatsGlobal" j;;
  out <- (if c then v <- py_get j "submitStatsGlobal";;
                   py_setdefault_setitem out "matchedUser" "submitStatsGlobal" v
         else Ok out);;
  c <- py_in "submitStats" j;;
  out <- (if c then v <- py_get j "submitStats";;
                   py_setdefault_setitem out "matchedUser" "submitStats" v
         else Ok out);;
  let ucr := PNone in
  c <- has_data_dict j;;
  ucr <- (if c then d <- py_getitem j "data";; py_get d "userContestRanking" else Ok ucr);;
  ucr <- (if negb (truthy ucr)
         then py_or (py_get j "userContestRanking") (py_get j "userContestRankingHistory")
         else Ok ucr);;
  out <- (if truthy ucr then py_setitem out "userContestRanking" ucr else Ok out);;
  c <- py_in "submissionCalendar" j;;
  out <- (if c then v <- py_get j "submissionCalendar";;
                   py_setdefault_setdefault out "matchedUser" "submissionCalendar" v
         else Ok out);;
  for_each ["acceptanceRate"; "streak"; "activeDays"; "submissionCalendar"] out (copy_key j).

(** ** Statistics extractor *)

Record counts : Type := Counts { total : Z; easy : Z; medium : Z; hard : Z }.

(** [int(row.get("count") or row.get("submissions") or 0)] under
    [try ... except Exception: c = 0] *)
Definition row_count (row : pyval) : res Z :=
  try_except
    (v <- py_or (py_or (py_get row "count") (py_get row "submissions")) (Ok (PInt 0));;
     py_int v)
    (Ok 0).

(** One round of [for row in ac]. *)
Definition count_row (st : counts) (row : pyval) : res counts :=
  if negb (isinstance_dict row) then Ok st else
  d <- py_or (py_get row "difficulty") (Ok (PStr ""));;
  diff <- py_lower d;;
  c <- row_count row;;
  if str_contains "all" diff || String.eqb diff "" then
    Ok (Counts c (easy st) (medium st) (hard st))
  else if str_contains "easy" diff then
    Ok (Counts (total st) c (medium st) (hard st))
  else if str_contains "medium" diff then
    Ok (Counts (total st) (easy st) c (hard st))
  else if str_contains "hard" diff then
    Ok (Counts (total st) (easy st) (medium st) c)
  else Ok st.

Definition msg_stats_unavailable : string :=
  "Profile data retrieved, but detailed problem statistics (totalSolved, easySolved, etc.) are not available from public APIs. LeetCode's GraphQL API requires authentication.".

Definition msg_profile_not_found : string :=
  "Unable to retrieve LeetCode profile data. User may not exist or profile may be private.".

Section LeetCode.

(** [json.loads] and the rounding of a float to [n] decimals, whatever
    the decoder and the float arithmetic are. *)
Variable json_loads : string -> res pyval.
Variable float_round : spec_float -> Z -> spec_float.

(** The three places searched for the statistics array. *)
Definition find_ac (mu : pyval) : res pyval :=
  ssg <- py_or (py_or (py_get mu "submitStatsGlobal") (py_get mu "submitStats")) (Ok (dict []));;
  ac <- py_or (py_get ssg "acSubmissionNum") (Ok (PList []));;
  c <- py_in "submitStats" mu;;
  ac <- (if negb (truthy ac) && c
        then ssg <- py_or (py_get mu "submitStats") (Ok (dict []));;
             py_or (py_get ssg "acSubmissionNum") (Ok (PList []))
        else Ok ac);;
  if negb (truthy ac)
  then ssg <- py_or (py_get mu "submitStatsGlobal") (Ok (dict []));;
       py_or (py_get ssg "acSubmissionNum") (Ok (PList []))
  else Ok ac.

Definition decode_calendar (cal_data : pyval) : pyval :=
  if truthy cal_data then
    match cal_data with
    | PStr s => match json_loads s with Ok v => v | Raise _ => dict [] end
    | PDict _ => cal_data
    | _ => dict []
    end
  else dict [].

Definition _extract_stats_from_normalized (nj : pyval) (username : string) : res pyval :=
  let tpl := leetcode_template username in
  tpl <- py_setitem_in tpl "report" "error" (PBool true);;
  mu <- (if truthy nj then py_get nj "matchedUser" else Ok PNone);;
  if negb (truthy mu) then Ok tpl else
  prof <- py_or (py_get mu "profile") (Ok (dict []));;
  ac <- find_ac mu;;
  rows <- py_iter ac;;
  st <- for_each rows (Counts 0 0 0 0) count_row;;
  cal_data <- py_or (py_get mu "submissionCalendar") (py_get nj "submissionCalendar");;
  let submission_cal := decode_calendar cal_data in
  user_cal <- py_or (py_get mu "userCalendar") (Ok (dict []));;
  streak <- (if truthy user_cal
            then py_or (py_get user_cal "streak") (Ok (PInt 0)) else Ok (PInt 0));;
  total_active_days <- (if truthy user_cal
            then py_or (py_get user_cal "totalActiveDays") (Ok (PInt 0)) else Ok (PInt 0));;
  streak <- (if negb (truthy streak)
            then py_or (py_or (py_get nj "streak") (py_get mu "streak")) (Ok (PInt 0))
            else Ok streak);;
  total_active_days <- (if negb (truthy total_active_days)
            then py_or (py_or (py_get nj "activeDays") (py_get mu "activeDays")) (Ok (PInt 0))
            else Ok total_active_days);;
  let has_stats := (0 <? total st) || (0 <? easy st) || (0 <? medium st) || (0 <? hard st) in
  error_msg <- (if negb has_stats then
                 signal <- py_or (Ok submission_cal) (py_get prof "ranking");;
                 if truthy signal then Ok (PStr msg_stats_unavailable)
                 else Ok (PStr msg_profile_not_found)
               else Ok PNone);;
  acceptance <- py_or (py_or (py_get nj "acceptanceRate") (py_get mu "acceptanceRate")) (Ok (PInt 0));;
  ranking <- (if truthy prof then py_get prof "ranking" else Ok PNone);;
  reputation <- (if truthy prof then py_get_default prof "reputation" (PInt 0) else Ok (PInt 0));;
  contribution <- (if truthy prof then py_get_default prof "postViewCount" (PInt 0) else Ok (PInt 0));;
  report <- py_getitem tpl "report";;
  report <- py_update report (dict [
     ("error", PBool (if has_stats then false else true));
     ("errorMessage", if truthy error_msg then error_msg else PNone);
     ("username", PStr username);
     ("totalSolved", PInt (total st));
     ("easySolved", PInt (easy st));
     ("mediumSolved", PInt (medium st));
     ("hardSolved", PInt (hard st));
     ("acceptanceRate", acceptance);
     ("ranking", ranking);
     ("reputation", reputation);
     ("contributionPoints", contribution);
     ("streak", streak);
     ("totalActiveDays", total_active_days);
     ("submissionCalendar", submission_cal)]);;
  py_setitem tpl "report" report.

(** ** Strategy cascade *)

(** A block either returns from the function or falls through. *)
Inductive flow : Type :=
| Return (v : pyval)
| Continue.

(** Run [k] when [r] fell through. *)
Definition and_then (r : res flow) (k : res flow) : res flow :=
  f <- r;; match f with Return v => Ok (Return v) | Continue => k end.

(** A loop whose body can return from the function. *)
Fixpoint for_flow {A} (l : list A) (body : A -> res flow) : res flow :=
  match l with
  | [] => Ok Continue
  | a :: l' => and_then (body a) (for_flow l' body)
  end.

(** The same with a loop-carried variable. *)
Fixpoint for_flow_st {A} (l : list A) (st : pyval)
    (body : pyval -> A -> res (flow * pyval)) : res (flow * pyval) :=
  match l with
  | [] => Ok (Continue, st)
  | a :: l' =>
      p <- body st a;;
      match p with
      | (Return v, st') => Ok (Return v, st')
      | (Continue, st') => for_flow_st l' st' body
      end
  end.

(** An HTTP response: its status and what [.json()] gives. *)
Record http_response : Type := HttpResponse {
  status_code : Z;
  json : res pyval
}.

(** A mirror's response, with its body text for the fallback parse. *)
Record mirror_response : Type := MirrorResponse {
  m_status_code : Z;
  m_json : res pyval;
  m_text : string
}.

(** A profile page, as far as [_scrape_leetcode_html] is concerned: the
    six entries of its [stats] dictionary that it ever assigns (the four
    counts come out of [int(...)]). *)
Record page : Type := Page {
  pg_totalSolved : Z;
  pg_easySolved : Z;
  pg_mediumSolved : Z;
  pg_hardSolved : Z;
  pg_ranking : pyval;
  pg_reputation : pyval
}.

(** One run of the headless browser. *)
Record browser_run : Type := BrowserRun {
  pw_setup : res unit;             (* launch, new_page, goto, wait_for_timeout *)
  pw_graphql_data : gmap string pyval;  (* gathered by [handle_response] *)
  pw_close : res unit;             (* [browser.close()] *)
  pw_page_data : res pyval;        (* first [page.evaluate] *)
  pw_graphql_result : res pyval;   (* second [page.evaluate] *)
  pw_content : res page;           (* [page.content()], parsed *)
  pw_exit : res unit               (* leaving the [with] block *)
}.

(** Everything outside the process that one call of
    [fetch_leetcode_live] consults. *)
Record upstream : Type := Upstream {
  PLAYWRIGHT_AVAILABLE : bool;
  browser : browser_run;
  graphql_post : nat -> res http_response;
  stats_api_get : res http_response;
  profile_get : res (Z * page);
  mirror_get : string -> res mirror_response;
  graphql_retry_post : res http_response
}.

Definition LEETCODE_MIRRORS : list string :=
  ["https://alfa-leetcode-api.onrender.com";
   "https://leetcode-api-faisalshohag.vercel.app";
   "https://leetcode-api.faisal.sh";
   "https://leetcode-stats-api.herokuapp.com"].

(** [_scrape_leetcode_html(soup, username)]; it swallows its own
    exceptions and always returns its [stats] dictionary. *)
Definition _scrape_leetcode_html (soup : page) (username : string) : pyval :=
  dict [("username", PStr username);
        ("totalSolved", PInt (pg_totalSolved soup));
        ("easySolved", PInt (pg_easySolved soup));
        ("mediumSolved", PInt (pg_mediumSolved soup));
        ("hardSolved", PInt (pg_hardSolved soup));
        ("acceptanceRate", PInt 0);
        ("ranking", pg_ranking soup);
        ("reputation", pg_reputation soup);
        ("contributionPoints", PInt 0);
        ("streak", PInt 0);
        ("totalActiveDays", PInt 0);
        ("submissionCalendar", dict [])].

(** [x.get("totalSolved", 0) > 0] *)
Definition total_solved_positive (x : pyval) : res bool :=
  t <- py_get_default x "totalSolved" (PInt 0);; py_gt0 t.

(** [result["report"].get("totalSolved", 0) > 0] *)
Definition report_has_total (result : pyval) : res bool :=
  rep <- py_getitem result "report";; total_solved_positive rep.

(** [tpl["report"].update(stats); tpl["report"]["error"] = False; return tpl] *)
Definition return_scraped (tpl stats : pyval) : res flow :=
  rep <- py_getitem tpl "report";;
  rep <- py_update rep stats;;
  tpl <- py_setitem tpl "report" rep;;
  tpl <- py_setitem_in tpl "report" "error" (PBool false);;
  Ok (Return tpl).

(** [if normalized.get("matchedUser"): browser.close(); return _extract...] *)
Definition browser_accept (b : browser_run) (normalized : pyval) (username : string)
  : res flow :=
  m <- py_get normalized "matchedUser";;
  if truthy m then
    _ <- pw_close b;;
    v <- _extract_stats_from_normalized normalized username;;
    Ok (Return v)
  else Ok Continue.

(** The inner [try] block of strategy 1. *)
Definition browser_inner (b : browser_run) (username : string) (tpl : pyval) : res flow :=
  and_then
    (if truthy (PDict (pw_graphql_data b)) then
       normalized <- _normalize_leetcode_json (dict [("data", PDict (pw_graphql_data b))]);;
       browser_accept b normalized username
     else Ok Continue)
  (page_data <- pw_page_data b;;
   and_then
    (if truthy page_data then
       normalized <- _normalize_leetcode_json page_data;;
       browser_accept b normalized username
     else Ok Continue)
  (graphql_result <- pw_graphql_result b;;
   and_then
    (if truthy graphql_result && isinstance_dict graphql_result then
       normalized <- _normalize_leetcode_json graphql_result;;
       browser_accept b normalized username
     else Ok Continue)
  (soup <- pw_content b;;
   let stats := _scrape_leetcode_html soup username in
   c <- (if truthy stats then total_solved_positive stats else Ok false);;
   if c then _ <- pw_close b;; return_scraped tpl stats else Ok Continue))).

(** Strategy 1: the browser, when Playwright is installed.  An exception
    raised while leaving the [with] block replaces a pending [return]. *)
Definition strategy_browser (o : upstream) (username : string) (tpl : pyval) : res flow :=
  if PLAYWRIGHT_AVAILABLE o then
    try_except
      (let b := browser o in
       _ <- pw_setup b;;
       r <- try_except (browser_inner b username tpl) (Ok Continue);;
       r <- match r with
            | Return v => Ok (Return v)
            | Continue => _ <- pw_close b;; Ok Continue
            end;;
       _ <- pw_exit b;;
       Ok r)
      (Ok Continue)
  else Ok Continue.

(** Strategy 2: one round of the loop over the GraphQL queries. *)
Definition graphql_attempt (o : upstream) (username : string) (i : nat) : res flow :=
  try_except
    (response <- graphql_post o i;;
     if status_code response =? 200 then
       data <- json response;;
       errors <- py_get data "errors";;
       if truthy errors then Ok Continue else
       normalized <- _normalize_leetcode_json data;;
       m <- py_get normalized "matchedUser";;
       if truthy m then
         result <- _extract_stats_from_normalized normalized username;;
         c <- report_has_total result;;
         if c then Ok (Return result) else Ok Continue
       else Ok Continue
     else Ok Continue)
    (Ok Continue).

Definition strategy_graphql (o : upstream) (username : string) : res flow :=
  for_flow [0%nat; 1%nat] (graphql_attempt o username).

(** [v == s] for a string literal [s] *)
Definition py_eq_str (v : pyval) (s : string) : bool :=
  match v with PStr s' => String.eqb s' s | _ => false end.

(** [round(v, n)] *)
Definition py_round (v : pyval) (n : Z) : res pyval :=
  match v with
  | PInt z => Ok (PInt z)
  | PBool b => Ok (PInt (if b then 1 else 0))
  | PFloat f => Ok (PFloat (float_round f n))
  | _ => Raise TypeError
  end.

(** Strategy 3: the alternative statistics API. *)
Definition stats_api_body (j : pyval) (username : string) (tpl : pyval) : res flow :=
  status <- py_get j "status";;
  c <- (if py_eq_str status "success" then total_solved_positive j else Ok false);;
  if c then
    submission_cal <- py_get_default j "submissionCalendar" (dict []);;
    let submission_cal :=
      match submission_cal with
      | PStr s => match json_loads s with Ok v => v | Raise _ => dict [] end
      | _ => submission_cal
      end in
    totalSolved <- py_get_default j "totalSolved" (PInt 0);;
    easySolved <- py_get_default j "easySolved" (PInt 0);;
    mediumSolved <- py_get_default j "mediumSolved" (PInt 0);;
    hardSolved <- py_get_default j "hardSolved" (PInt 0);;
    rate <- py_get_default j "acceptanceRate" (PInt 0);;
    acceptanceRate <- py_round rate 2;;
    ranking <- py_get j "ranking";;
    reputation <- py_get_default j "reputation" (PInt 0);;
    contributionPoints <- py_get_default j "contributionPoints" (PInt 0);;
    let result := dict [
      ("error", PBool false);
      ("username", PStr username);
      ("totalSolved", totalSolved);
      ("easySolved", easySolved);
      ("mediumSolved", mediumSolved);
      ("hardSolved", hardSolved);
      ("acceptanceRate", acceptanceRate);
      ("ranking", ranking);
      ("reputation", reputation);
      ("contributionPoints", contributionPoints);
      ("streak", PInt 0);
      ("totalActiveDays", PInt 0);
      ("submissionCalendar", submission_cal)] in
    rep <- py_getitem tpl "report";;
    rep <- py_update rep result;;
    tpl <- py_setitem tpl "report" rep;;
    Ok (Return tpl)
  else Ok Continue.

Definition strategy_stats_api (o : upstream) (username : string) (tpl : pyval) : res flow :=
  try_except
    (r <- stats_api_get o;;
     if status_code r =? 200 then
       try_except (j <- json r;; stats_api_body j username tpl) (Ok Continue)
     else Ok Continue)
    (Ok Continue).

(** Strategy 4: the profile page fetched with [requests]. *)
Definition strategy_html (o : upstream) (username : string) (tpl : pyval) : res flow :=
  try_except
    (response <- profile_get o;;
     let '(status, soup) := response in
     if status =? 200 then
       let stats := _scrape_leetcode_html soup username in
       c <- (if truthy stats then total_solved_positive stats else Ok false);;
       if c then return_scraped tpl stats else Ok Continue
     else Ok Continue)
    (Ok Continue).

(** [re.search(r'\{.*\}', text, flags=re.S)]: from the first opening
    brace to the last closing brace after it. *)
Fixpoint drop_until (c : ascii) (l : list ascii) : option (list ascii) :=
  match l with
  | [] => None
  | x :: l' => if Ascii.eqb x c then Some l else drop_until c l'
  end.

Definition brace_span (text : string) : option string :=
  match drop_until "{"%char (list_ascii_of_string text) with
  | Some (_ :: rest) =>
      match drop_until "}"%char (rev rest) with
      | Some r => Some (string_of_list_ascii ("{"%char :: rev r))
      | None => None
      end
  | _ => None
  end.

(** The body of a mirror response: [r.json()], else the brace span of
    its text, else [None]. *)
Definition mirror_json (r : mirror_response) : pyval :=
  match m_json r with
  | Ok j => j
  | Raise _ =>
      match brace_span (m_text r) with
      | Some s => match json_loads s with Ok j => j | Raise _ => PNone end
      | None => PNone
      end
  end.

(** [r.raise_for_status()] *)
Definition raise_for_status (status : Z) : res unit :=
  if (400 <=? status) && (status <? 600) then Raise UpstreamError else Ok tt.

(** ["data" in j and isinstance(j["data"], dict) and ("matchedUser" in j["data"])] *)
Definition has_data_matched_user (j : pyval) : res bool :=
  c <- has_data_dict j;;
  if c then d <- py_getitem j "data";; py_in "matchedUser" d else Ok false.

(** Strategy 5: one round of the loop over the mirrors; [mirror_result]
    is carried from round to round. *)
Definition mirror_attempt (o : upstream) (username : string) (mirror_result : pyval)
    (base : string) : res (flow * pyval) :=
  try_except
    (r <- mirror_get o base;;
     if m_status_code r =? 404 then Ok (Continue, mirror_result) else
     _ <- raise_for_status (m_status_code r);;
     let j := mirror_json r in
     if negb (truthy j) then Ok (Continue, mirror_result) else
     c <- has_data_matched_user j;;
     normalized <- (if c then d <- py_getitem j "data";; _normalize_leetcode_json d
                    else _normalize_leetcode_json j);;
     m <- py_get normalized "matchedUser";;
     if truthy m then
       result <- _extract_stats_from_normalized normalized username;;
       c <- report_has_total result;;
       if c then Ok (Return result, mirror_result)
       else if negb (truthy mirror_result) then Ok (Continue, result)
       else Ok (Continue, mirror_result)
     else Ok (Continue, mirror_result))
    (Ok (Continue, mirror_result)).

Definition strategy_mirrors (o : upstream) (username : string) : res (flow * pyval) :=
  for_flow_st LEETCODE_MIRRORS PNone (mirror_attempt o username).

(** One round of the merge loop: a field the retry lacks is taken from
    the mirror result. *)
Definition merge_key (mirror_result : pyval) (result : pyval) (key : string) : res pyval :=
  mrep <- py_getitem mirror_result "report";;
  mv <- py_get mrep key;;
  c <- (if truthy mv then rep <- py_getitem result "report";;
                          v <- py_get rep key;; Ok (negb (truthy v))
        else Ok false);;
  if c then
    mrep <- py_getitem mirror_result "report";;
    v <- py_getitem mrep key;;
    py_setitem_in result "report" key v
  else Ok result.

(** The GraphQL retry made when the mirrors gave a result without
    statistics. *)
Definition graphql_retry (o : upstream) (username : string) (mirror_result : pyval)
  : res flow :=
  try_except
    (response <- graphql_retry_post o;;
     if status_code response =? 200 then
       data <- json response;;
       c <- py_and (py_get data "data")
                   (d <- py_getitem data "data";; py_get d "matchedUser");;
       if truthy c then
         normalized <- _normalize_leetcode_json data;;
         m <- py_get normalized "matchedUser";;
         if truthy m then
           result <- _extract_stats_from_normalized normalized username;;
           c <- report_has_total result;;
           if c then Ok (Return result) else
           if truthy mirror_result then
             result <- for_each ["ranking"; "reputation"; "contributionPoints"] result
                         (merge_key mirror_result);;
             Ok (Return result)
           else Ok Continue
         else Ok Continue
       else Ok Continue
     else Ok Continue)
    (Ok Continue).

(** [mirror_result and mirror_result["report"].get("totalSolved", 0) == 0] *)
Definition mirror_without_total (mirror_result : pyval) : res bool :=
  if truthy mirror_result then
    rep <- py_getitem mirror_result "report";;
    t <- py_get_default rep "totalSolved" (PInt 0);;
    Ok (py_eq0 t)
  else Ok false.

(** Leave the function with the value a block returned, else go on. *)
Definition or_return (r : res flow) (k : res pyval) : res pyval :=
  f <- r;; match f with Return v => Ok v | Continue => k end.

Definition fetch_leetcode_live (o : upstream) (username : string) : res pyval :=
  let tpl := leetcode_template username in
  or_return (strategy_browser o username tpl)
  (or_return (strategy_graphql o username)
  (or_return (strategy_stats_api o username tpl)
  (or_return (strategy_html o username tpl)
  (p <- strategy_mirrors o username;;
   let '(r, mirror_result) := p in
   or_return (Ok r)
   (c <- mirror_without_total mirror_result;;
    or_return (if c then graphql_retry o username mirror_result else Ok Continue)
    (if truthy mirror_result then Ok mirror_result else
     tpl <- py_setitem_in tpl "report" "error" (PBool true);;
     Ok tpl)))))).

End LeetCode.

(** ** HTTP handlers *)

Module Api.

Section Handlers.

(** The world outside the process: the wall clock and the five upstream
    fetchers, each a function of the world it runs in. *)
Variable World : Type.
Variable time_time : World -> Q * World.
Variable fetch_leetcode_live : string -> World -> res pyval * World.
Variable fetch_codechef_live : string -> World -> res pyval * World.
Variable fetch_duolingo_live : string -> World -> res pyval * World.
Variable fetch_codeforces_live : string -> World -> res pyval * World.
Variable fetch_hackerrank_live : string -> World -> res pyval * World.

(** Process-wide state: [cache._data], [_rate_buckets], and the world. *)
Record server : Type := Server {
  cache : gmap string (pyval * Q);
  rate_buckets : gmap string (list Q);
  world : World
}.

(** [cache.get(key)]; the clock is read only when an entry is found. *)
Definition cache_get (key : string) (s : server) : pyval * server :=
  match cache s !! key with
  | None => (PNone, s)
  | Some _ =>
      let '(now, w) := time_time (world s) in
      let '(val, data) := TTLCache.get (cache s) key now in
      (val, Server data (rate_buckets s) w)
  end.

(** [cache.set(key, val)] with the default [ttl]. *)
Definition cache_set (key : string) (val : pyval) (s : server) : server :=
  let '(now, w) := time_time (world s) in
  Server (TTLCache.set (cache s) key val CACHE_TTL now) (rate_buckets s) w.

Definition is_not_none (v : pyval) : bool :=
  match v with PNone => false | _ => true end.

Definition get_cached_or_fetch (key : string)
    (fn : string -> World -> res pyval * World) (arg : string) (s : server)
  : res pyval * server :=
  let '(val, s) := cache_get key s in
  if is_not_none val then (Ok val, s) else
  let '(r, w) := fn arg (world s) in
  let s := Server (cache s) (rate_buckets s) w in
  match r with
  | Raise e => (Raise e, s)
  | Ok data => (Ok data, cache_set key data s)
  end.

Definition api_leetcode (username : string) (s : server) : res pyval * server :=
  get_cached_or_fetch ("lc:" +:+ username) fetch_leetcode_live username s.

Definition api_codechef (username : string) (s : server) : res pyval * server :=
  get_cached_or_fetch ("cc:" +:+ username) fetch_codechef_live username s.

Definition api_duolingo (username : string) (s : server) : res pyval * server :=
  get_cached_or_fetch ("duo:" +:+ username) fetch_duolingo_live username s.

Definition api_cf (username : string) (s : server) : res pyval * server :=
  get_cached_or_fetch ("cf:" +:+ username) fetch_codeforces_live username s.

Definition api_hr (username : string) (s : server) : res pyval * server :=
  get_cached_or_fetch ("hr:" +:+ username) fetch_hackerrank_live username s.

(** [p in (a, b)] *)
Definition in_pair (p a b : string) : bool := String.eqb p a || String.eqb p b.

(** The body of [api_unified]; the per-source handlers are called as
    plain functions, so their [_rl] dependency is not run again. *)
Definition api_unified (platform username : string) (s : server) : res pyval * server :=
  let p := str_lower platform in
  if in_pair p "leetcode" "lc" then api_leetcode username s
  else if in_pair p "codechef" "cc" then api_codechef username s
  else if in_pair p "duolingo" "duo" then api_duolingo username s
  else if in_pair p "codeforces" "cf" then api_cf username s
  else if in_pair p "hackerrank" "hr" then api_hr username s
  else (Raise (HTTPException 404 "Unknown platform."), s).

(** A route: the framework resolves [Depends(check_rate_limit)] for the
    client address [ip], then calls the handler. *)
Definition route (handler : server -> res pyval * server) (ip : string) (s : server)
  : res pyval * server :=
  let '(now, w) := time_time (world s) in
  let '(r, b) := check_rate_limit RATE_LIMIT RATE_PERIOD (rate_buckets s) ip now in
  let s := Server (cache s) b w in
  match r with
  | Raise e => (Raise e, s)
  | Ok _ => handler s
  end.

(** [GET /v1/codeforces/{username}] and its siblings *)
Definition get_leetcode (username : string) := route (api_leetcode username).
Definition get_codechef (username : string) := route (api_codechef username).
Definition get_duolingo (username : string) := route (api_duolingo username).
Definition get_codeforces (username : string) := route (api_cf username).
Definition get_hackerrank (username : string) := route (api_hr username).

(** [GET /v1/report/{platform}/{username}] *)
Definition get_report (platform username : string) := route (api_unified platform username).

End Handlers.

End Api.

(** ** Definitions used to state the properties *)

(** The platform names [api_unified] knows, after lower-casing. *)
Definition platform_aliases : list string :=
  ["leetcode"; "lc"; "codechef"; "cc"; "duolingo"; "duo";
   "codeforces"; "cf"; "hackerrank"; "hr"].

(** The four classes of a statistics row. *)
Inductive difficulty : Type := All | Easy | Medium | Hard.

(** The class of a lower-cased label: the first test that passes, in the
    order all-or-empty, easy, medium, hard. *)
Definition label_class (diff : string) : option difficulty :=
  if str_contains "all" diff || String.eqb diff "" then Some All
  else if str_contains "easy" diff then Some Easy
  else if str_contains "medium" diff then Some Medium
  else if str_contains "hard" diff then Some Hard
  else None.

(** The label of a row: its ["difficulty"] text; a missing or falsy
    entry reads as the empty text; a truthy entry that is not text has no
    [lower] method. *)
Definition row_label (row : pyval) : option string :=
  match row with
  | PDict d =>
      match default PNone (d !! "difficulty") with
      | PStr s => Some s
      | v => if truthy v then None else Some ""
      end
  | _ => None
  end.

Definition row_class (row : pyval) : option difficulty :=
  match row_label row with
  | Some s => label_class (str_lower s)
  | None => None
  end.

(** Rows on which the loop body cannot raise. *)
Definition well_labelled (row : pyval) : bool :=
  negb (isinstance_dict row) || bool_decide (is_Some (row_label row)).

Definition has_class (c : difficulty) (row : pyval) : bool :=
  match row_class row, c with
  | Some All, All | Some Easy, Easy | Some Medium, Medium | Some Hard, Hard => true
  | _, _ => false
  end.

(** The count a row carries; zero when [int] raises. *)
Definition row_value (row : pyval) : Z :=
  match row_count row with Ok z => z | Raise _ => 0 end.

(** The count of the last row of class [c]; zero when there is none. *)
Definition last_count (c : difficulty) (rows : list pyval) : Z :=
  match last (List.filter (has_class c) rows) with
  | Some row => row_value row
  | None => 0
  end.

(** The counts as the specification words them: the rows of each class
    summed, a row whose label is missing or unrecognised left out. *)
Definition claimed_class (row : pyval) : option difficulty :=
  match row with
  | PDict d =>
      match d !! "difficulty" with
      | Some (PStr s) => label_class (str_lower s)
      | _ => None
      end
  | _ => None
  end.

Definition claimed_sum (c : difficulty) (rows : list pyval) : Z :=
  foldr Z.add 0
    (row_value <$> List.filter
       (fun row => match claimed_class row, c with
                   | Some All, All | Some Easy, Easy
                   | Some Medium, Medium | Some Hard, Hard => true
                   | _, _ => false
                   end) rows).

Definition claimed_counts (rows : list pyval) : counts :=
  Counts (claimed_sum All rows) (claimed_sum Easy rows)
         (claimed_sum Medium rows) (claimed_sum Hard rows).

(** A payload holding the statistics array [rows] in the first of the
    three places searched. *)
Definition payload_of_rows (rows : list pyval) : pyval :=
  dict [("matchedUser",
         dict [("submitStatsGlobal", dict [("acSubmissionNum", PList rows)])])].

(** [result["report"][k]] *)
Definition report_field (result : pyval) (k : string) : res pyval :=
  rep <- py_getitem result "report";; py_getitem rep k.

(** Whether any of the four counts is positive. *)
Definition has_stats (st : counts) : bool :=
  (0 <? total st) || (0 <? easy st) || (0 <? medium st) || (0 <? hard st).

(** The message the extractor attaches to counts, calendar and ranking. *)
Definition error_message (st : counts) (cal ranking : pyval) : pyval :=
  if has_stats st then PNone
  else if truthy cal || truthy ranking then PStr msg_stats_unavailable
  else PStr msg_profile_not_found.

(** The envelope the extractor builds once a matched user was found. *)
Definition extract_result (username : string) (st : counts)
    (acceptance ranking reputation contribution streak total_active_days cal : pyval)
  : pyval :=
  dict [("message", PStr "LeetCode report fetched successfully");
        ("report", dict [
           ("error", PBool (negb (has_stats st)));
           ("errorMessage", error_message st cal ranking);
           ("username", PStr username);
           ("totalSolved", PInt (total st));
           ("easySolved", PInt (easy st));
           ("mediumSolved", PInt (medium st));
           ("hardSolved", PInt (hard st));
           ("acceptanceRate", acceptance);
           ("ranking", ranking);
           ("reputation", reputation);
           ("contributionPoints", contribution);
           ("streak", streak);
           ("totalActiveDays", total_active_days);
           ("submissionCalendar", cal)])].

(** The scenario payload: no statistics rows, a profile ranking of 4821. *)
Definition payload_ranking_only : pyval :=
  dict [("matchedUser", dict [("profile", dict [("ranking", PInt 4821)])])].

(** A decoder that rejects every text; used where a concrete one is
    needed and no text is decoded. *)
Definition no_json : string -> res pyval := fun _ => Raise ValueError.

(** [a or b] on values. *)
Definition or_val (a b : pyval) : pyval := if truthy a then a else b.

(** [d.get(k)] on a dictionary. *)
Definition get_val (d : gmap string pyval) (k : string) : pyval :=
  default PNone (d !! k).

(** The value a row hands to [int]: [count], else [submissions], else 0. *)
Definition count_source (d : gmap string pyval) : pyval :=
  or_val (or_val (get_val d "count") (get_val d "submissions")) (PInt 0).

(** Writing the count [v] into the field of class [c]. *)
Definition set_count (c : option difficulty) (v : Z) (st : counts) : counts :=
  match c with
  | Some All => Counts v (easy st) (medium st) (hard st)
  | Some Easy => Counts (total st) v (medium st) (hard st)
  | Some Medium => Counts (total st) (easy st) v (hard st)
  | Some Hard => Counts (total st) (easy st) (medium st) v
  | None => st
  end.

Definition row_medium_12 : pyval :=
  dict [("difficulty", PStr "Medium"); ("count", PStr "12")].

Definition easy_row (c : Z) : pyval :=
  dict [("difficulty", PStr "Easy"); ("count", PInt c)].

(** The report field that holds the count of a class. *)
Definition field_name (c : difficulty) : string :=
  match c with
  | All => "totalSolved"
  | Easy => "easySolved"
  | Medium => "mediumSolved"
  | Hard => "hardSolved"
  end.

(** *** The normaliser's output, field by field *)

(** [j["data"]] when it is a dictionary. *)
Definition data_dict (jd : gmap string pyval) : option (gmap string pyval) :=
  match jd !! "data" with
  | Some (PDict d) => Some d
  | _ => None
  end.

(** The value bound to [mu] before it is tested. *)
Definition found_user (jd : gmap string pyval) : pyval :=
  let mu := match data_dict jd with
            | Some d => or_val (get_val d "matchedUser") (get_val d "user")
            | None => PNone
            end in
  if truthy mu then mu
  else or_val (or_val (get_val jd "matchedUser") (get_val jd "user")) (get_val jd "profile").

(** The user record taken over into the output, if any. *)
Definition user_record (jd : gmap string pyval) : option (gmap string pyval) :=
  match found_user jd with
  | PDict m => if truthy (PDict m) then Some m else None
  | _ => None
  end.

(** [rec.setdefault({})[k] = v] when the top level has [k]. *)
Definition overwrite (k : string) (o : option pyval)
    (m : option (gmap string pyval)) : option (gmap string pyval) :=
  match o with
  | Some v => Some (<[k := v]> (default ∅ m))
  | None => m
  end.

(** [rec.setdefault({}).setdefault(k, v)] when the top level has [k]. *)
Definition fill (k : string) (o : option pyval)
    (m : option (gmap string pyval)) : option (gmap string pyval) :=
  match o with
  | Some v =>
      let m' := default ∅ m in
      Some (match m' !! k with Some _ => m' | None => <[k := v]> m' end)
  | None => m
  end.

Definition norm_user (jd : gmap string pyval) : option (gmap string pyval) :=
  fill "submissionCalendar" (jd !! "submissionCalendar")
    (overwrite "submitStats" (jd !! "submitStats")
       (overwrite "submitStatsGlobal" (jd !! "submitStatsGlobal") (user_record jd))).

Definition norm_ranking (jd : gmap string pyval) : pyval :=
  let ucr := match data_dict jd with
             | Some d => get_val d "userContestRanking"
             | None => PNone
             end in
  if truthy ucr then ucr
  else or_val (get_val jd "userContestRanking") (get_val jd "userContestRankingHistory").

Definition opt_insert (k : string) (o : option pyval) (m : gmap string pyval)
  : gmap string pyval :=
  match o with
  | Some v => <[k := v]> m
  | None => m
  end.

Definition truthy_opt (v : pyval) : option pyval :=
  if truthy v then Some v else None.

(** The normaliser's output for the dictionary [jd]. *)
Definition norm_map (jd : gmap string pyval) : gmap string pyval :=
  opt_insert "submissionCalendar" (jd !! "submissionCalendar")
    (opt_insert "activeDays" (jd !! "activeDays")
       (opt_insert "streak" (jd !! "streak")
          (opt_insert "acceptanceRate" (jd !! "acceptanceRate")
             (opt_insert "matchedUser" (PDict <$> norm_user jd)
                (opt_insert "userContestRanking" (truthy_opt (norm_ranking jd)) ∅))))).

(** The keys a normalised payload can have. *)
Definition payload_keys : list string :=
  ["matchedUser"; "userContestRanking"; "acceptanceRate"; "streak"; "activeDays";
   "submissionCalendar"].

(** The loose top-level fields copied through. *)
Definition loose_keys : list string :=
  ["acceptanceRate"; "streak"; "activeDays"; "submissionCalendar"].

(** The raw keys that can give rise to a matched-user record. *)
Definition user_keys : list string :=
  ["data"; "matchedUser"; "user"; "profile"; "submitStatsGlobal"; "submitStats";
   "submissionCalendar"].

(** The raw keys that can give rise to a contest ranking. *)
Definition ranking_keys : list string :=
  ["data"; "userContestRanking"; "userContestRankingHistory"].

(** A populated statistics record, and a raw input that has it at the
    user level and an empty one at top level. *)
Definition stats_all_10 : pyval :=
  dict [("acSubmissionNum",
         PList [dict [("difficulty", PStr "All"); ("count", PInt 10)]])].

Definition raw_both_levels : pyval :=
  dict [("matchedUser", dict [("submitStatsGlobal", stats_all_10)]);
        ("submitStatsGlobal", dict [])].

Definition raw_user_level : pyval :=
  dict [("matchedUser", dict [("submitStatsGlobal", stats_all_10)])].

(** *** Canonical envelopes *)

(** The fields of a canonical report. *)
Definition report_keys : list string :=
  ["error"; "errorMessage"; "username"; "totalSolved"; "easySolved"; "mediumSolved";
   "hardSolved"; "acceptanceRate"; "ranking"; "reputation"; "contributionPoints";
   "streak"; "totalActiveDays"; "submissionCalendar"].

Definition has_key (d : gmap string pyval) (k : string) : bool :=
  match d !! k with Some _ => true | None => false end.

(** A dictionary with a message and a report that has every canonical
    field. *)
Definition is_canonical (v : pyval) : bool :=
  match v with
  | PDict top =>
      has_key top "message" &&
      match top !! "report" with
      | Some (PDict rep) => forallb (has_key rep) report_keys
      | _ => false
      end
  | _ => false
  end.

(** The loop-carried [mirror_result]: still [None], or a canonical
    envelope. *)
Definition none_or_canonical (v : pyval) : bool :=
  match v with PNone => true | _ => is_canonical v end.

(** What a block of the cascade can hand to [return]. *)
Definition returns_only (P : pyval -> Prop) (c : res flow) : Prop :=
  forall v, c = Ok (Return v) -> P v.

(** *** Upstream outcomes used as examples *)

Definition dead_browser : browser_run :=
  BrowserRun (Raise UpstreamError) ∅ (Raise UpstreamError) (Raise UpstreamError)
    (Raise UpstreamError) (Raise UpstreamError) (Raise UpstreamError).

(** Every upstream call fails. *)
Definition all_down : upstream :=
  Upstream true dead_browser (fun _ => Raise UpstreamError) (Raise UpstreamError)
    (Raise UpstreamError) (fun _ => Raise UpstreamError) (Raise UpstreamError).

(** A mirror answers with profile data only (ranking 4821, streak 7);
    the GraphQL retry then finds the user, again without statistics. *)
Definition mirror_profile_json : pyval :=
  dict [("matchedUser",
         dict [("profile", dict [("ranking", PInt 4821)]);
               ("userCalendar", dict [("streak", PInt 7)])])].

Definition retry_user_json : pyval :=
  dict [("data", dict [("matchedUser", dict [("username", PStr "alice")])])].

Definition mirror_then_retry : upstream :=
  Upstream false dead_browser (fun _ => Raise UpstreamError) (Raise UpstreamError)
    (Raise UpstreamError)
    (fun base => if String.eqb base "https://alfa-leetcode-api.onrender.com"
                 then Ok (MirrorResponse 200 (Ok mirror_profile_json) "")
                 else Raise UpstreamError)
    (Ok (HttpResponse 200 (Ok retry_user_json))).

(** The mirror candidate of that run, and what the run returns. *)
Definition mirror_candidate : pyval :=
  extract_result "alice" (Counts 0 0 0 0) (PInt 0) (PInt 4821) (PInt 0) (PInt 0)
    (PInt 7) (PInt 0) (dict []).

Definition retry_merged : pyval :=
  dict [("message", PStr "LeetCode report fetched successfully");
        ("report", dict [
           ("error", PBool true);
           ("errorMessage", PStr msg_profile_not_found);
           ("username", PStr "alice");
           ("totalSolved", PInt 0);
           ("easySolved", PInt 0);
           ("mediumSolved", PInt 0);
           ("hardSolved", PInt 0);
           ("acceptanceRate", PInt 0);
           ("ranking", PInt 4821);
           ("reputation", PInt 0);
           ("contributionPoints", PInt 0);
           ("streak", PInt 0);
           ("totalActiveDays", PInt 0);
           ("submissionCalendar", dict [])])].

(** No rounding at all; used where a concrete one is needed. *)
Definition no_round : spec_float -> Z -> spec_float := fun f _ => f.

Definition canonical (v : pyval) : Prop := is_canonical v = true.

(** A report that passes the test [totalSolved > 0]. *)
Definition validated (v : pyval) : Prop := report_has_total v = Ok true.

(** What a loop round of the mirror strategy can return ([P]) and carry
    on to the next round ([Q]). *)
Definition carries (P Q : pyval -> Prop) (c : res (flow * pyval)) : Prop :=
  forall f st, c = Ok (f, st) -> (forall v, f = Return v -> P v) /\ Q st.

(** The numeric fields of a report. *)
Definition numeric_keys : list string :=
  ["totalSolved"; "easySolved"; "mediumSolved"; "hardSolved"; "acceptanceRate";
   "reputation"; "contributionPoints"; "streak"; "totalActiveDays"].

(** The fields the merge loop after the GraphQL retry goes through, and
    the value it leaves in one of them. *)
Definition merge_keys : list string := ["ranking"; "reputation"; "contributionPoints"].

Definition merged_value (mv rv : pyval) : pyval :=
  if truthy mv && negb (truthy rv) then mv else rv.

(** The browser intercepts a GraphQL answer that has the user and no
    statistics. *)
Definition browser_profile_only : upstream :=
  Upstream true
    (BrowserRun (Ok tt) {["matchedUser" := dict [("username", PStr "alice")]]}
       (Ok tt) (Raise UpstreamError) (Raise UpstreamError) (Raise UpstreamError) (Ok tt))
    (fun _ => Raise UpstreamError) (Raise UpstreamError) (Raise UpstreamError)
    (fun _ => Raise UpstreamError) (Raise UpstreamError).

(** ** Further definitions: rate limiter history *)

(** The clock readings of the calls of [ip] that were let in. *)
Fixpoint accepted_stamps (ip : string) (calls : list (string * Q))
    (results : list (res bool)) : list Q :=
  match calls, results with
  | (ip', t) :: calls', r :: results' =>
      match r with
      | Ok _ => if String.eqb ip' ip then t :: accepted_stamps ip calls' results'
                else accepted_stamps ip calls' results'
      | Raise _ => accepted_stamps ip calls' results'
      end
  | _, _ => []
  end.

(** The clock reading of the last call, [t0] when there is none. *)
Fixpoint last_time (t0 : Q) (calls : list (string * Q)) : Q :=
  match calls with
  | [] => t0
  | (_, t) :: calls' => last_time t calls'
  end.

(** No bucket holds more than [limit] timestamps. *)
Definition buckets_bounded (limit : Z) (buckets : gmap string (list Q)) : Prop :=
  forall ip dq, buckets !! ip = Some dq -> Z.of_nat (List.length dq) <= limit.

(** What the buckets have to do with the record [hist] of each client's
    accepted calls: a bucket is the tail of the record, and whatever it
    lacks was already outside the window at time [t]. *)
Definition tracks (period : Z) (t : Q) (buckets : gmap string (list Q))
    (hist : string -> list Q) : Prop :=
  forall ip, exists dropped,
    hist ip = (dropped ++ default [] (buckets !! ip))%list
    /\ Forall (fun d => (d <= t - inject_Z period)%Q) dropped.

(** The calls made by [ip], in order. *)
Definition calls_of (ip : string) (calls : list (string * Q)) : list (string * Q) :=
  List.filter (fun c => String.eqb (fst c) ip) calls.

(** ** Further definitions: cache histories *)

(** One call on the cache object. *)
Inductive cache_op : Type :=
| CGet (key : string)
| CSet (key : string) (val : pyval) (ttl : Z)
| CClear.

(** The store after the call [op] made when [time.time()] reads [now]. *)
Definition cache_step (data : gmap string (pyval * Q)) (op : cache_op) (now : Q)
  : gmap string (pyval * Q) :=
  match op with
  | CGet key => snd (TTLCache.get data key now)
  | CSet key val ttl => TTLCache.set data key val ttl now
  | CClear => TTLCache.clear data
  end.

Fixpoint cache_run (data : gmap string (pyval * Q)) (ops : list (cache_op * Q))
  : gmap string (pyval * Q) :=
  match ops with
  | [] => data
  | (op, now) :: ops' => cache_run (cache_step data op now) ops'
  end.

(** What the calls [ops] wrote last under [key]: the value and expiry of
    the latest [set] that no [clear] followed, [acc] when there is neither
    in [ops]. *)
Fixpoint last_write (key : string) (acc : option (pyval * Q))
    (ops : list (cache_op * Q)) : option (pyval * Q) :=
  match ops with
  | [] => acc
  | (CSet k v ttl, t) :: ops' =>
      last_write key (if String.eqb k key then Some (v, (t + inject_Z ttl)%Q) else acc) ops'
  | (CClear, _) :: ops' => last_write key None ops'
  | (CGet _, _) :: ops' => last_write key acc ops'
  end.

(** Clock readings that never go back, for cache calls. *)
Fixpoint readings_from (t0 : Q) (ops : list (cache_op * Q)) : Prop :=
  match ops with
  | [] => True
  | (_, t) :: ops' => (t0 <= t)%Q /\ readings_from t ops'
  end.

Fixpoint last_reading (t0 : Q) (ops : list (cache_op * Q)) : Q :=
  match ops with
  | [] => t0
  | (_, t) :: ops' => last_reading t ops'
  end.

(** The store holds what was written last, except for entries already
    expired at time [t], which may be gone. *)
Definition holds_writes (t : Q) (data : gmap string (pyval * Q))
    (written : string -> option (pyval * Q)) : Prop :=
  forall key,
    data !! key = written key
    \/ (data !! key = None
        /\ exists v exp, written key = Some (v, exp) /\ (exp < t)%Q).

(** ** Cache administration *)

(** [POST /admin/clear_cache]; the route has no rate-limit dependency. *)
Definition _clear {World : Type} (s : Api.server World) : res pyval * Api.server World :=
  (Ok PNone,
   Api.Server World (TTLCache.clear (Api.cache World s)) (Api.rate_buckets World s)
     (Api.world World s)).


(** The five sources, each with the prefix its handler puts before the
    user name to form the cache key. *)
Inductive source : Type := LeetCode | CodeChef | Duolingo | Codeforces | HackerRank.

Definition key_prefix (p : source) : string :=
  match p with
  | LeetCode => "lc:"
  | CodeChef => "cc:"
  | Duolingo => "duo:"
  | Codeforces => "cf:"
  | HackerRank => "hr:"
  end.

Section SourceHandlers.

Variable World : Type.
Variable time_time : World -> Q * World.
Variables fetch_lc fetch_cc fetch_duo fetch_cf fetch_hr
  : string -> World -> res pyval * World.

(** The handler of a source, as the routes name them. *)
Definition handler_of (p : source) (username : string) (s : Api.server World)
  : res pyval * Api.server World :=
  match p with
  | LeetCode => Api.api_leetcode World time_time fetch_lc username s
  | CodeChef => Api.api_codechef World time_time fetch_cc username s
  | Duolingo => Api.api_duolingo World time_time fetch_duo username s
  | Codeforces => Api.api_cf World time_time fetch_cf username s
  | HackerRank => Api.api_hr World time_time fetch_hr username s
  end.

Definition fetcher_of (p : source) : string -> World -> res pyval * World :=
  match p with
  | LeetCode => fetch_lc
  | CodeChef => fetch_cc
  | Duolingo => fetch_duo
  | Codeforces => fetch_cf
  | HackerRank => fetch_hr
  end.

End SourceHandlers.

(** ** Further definitions: what every LeetCode report has *)

Definition count_keys : list string :=
  ["totalSolved"; "easySolved"; "mediumSolved"; "hardSolved"].

(** The field [k] of the report passes the test [> 0]. *)
Definition field_positive (result : pyval) (k : string) : bool :=
  match (v <- report_field result k;; py_gt0 v) with
  | Ok true => true
  | _ => false
  end.

Definition some_count_positive (result : pyval) : bool :=
  existsb (field_positive result) count_keys.

(** An envelope for the user [u]: the fixed message, the requested name,
    every canonical field, and an error flag that is off exactly when a
    solved count is positive. *)
Definition report_for (u : string) (v : pyval) : Prop :=
  is_canonical v = true
  /\ py_getitem v "message" = Ok (PStr "LeetCode report fetched successfully")
  /\ report_field v "username" = Ok (PStr u)
  /\ report_field v "error" = Ok (PBool (negb (some_count_positive v))).

(** A report with the error flag off that still carries the template's
    message and has no streak data. *)
Definition flag_off_message_kept (v : pyval) : Prop :=
  report_field v "error" = Ok (PBool false)
  /\ report_field v "errorMessage" = Ok (PStr template_message)
  /\ report_field v "streak" = Ok (PInt 0)
  /\ report_field v "totalActiveDays" = Ok (PInt 0).

(** The statistics API answers with five solved problems; every other
    source is down. *)
Definition stats_api_up : upstream :=
  Upstream false dead_browser (fun _ => Raise UpstreamError)
    (Ok (HttpResponse 200
           (Ok (dict [("status", PStr "success"); ("totalSolved", PInt 5)]))))
    (Raise UpstreamError) (fun _ => Raise UpstreamError) (Raise UpstreamError).


(** The first mirror is down, the second and the third answer with
    profile data only, with rankings 4821 and 17. *)
Definition two_mirrors_up : upstream :=
  Upstream false dead_browser (fun _ => Raise UpstreamError) (Raise UpstreamError)
    (Raise UpstreamError)
    (fun base =>
       if String.eqb base "https://leetcode-api-faisalshohag.vercel.app"
       then Ok (MirrorResponse 200 (Ok mirror_profile_json) "")
       else if String.eqb base "https://leetcode-api.faisal.sh"
       then Ok (MirrorResponse 200
                  (Ok (dict [("matchedUser",
                              dict [("profile", dict [("ranking", PInt 17)])])])) "")
       else Raise UpstreamError)
    (Raise UpstreamError).

(** ** Further definitions: normaliser *)

(** The keys of a user record the normaliser can write to. *)
Definition stat_keys : list string :=
  ["submitStatsGlobal"; "submitStats"; "submissionCalendar"].

(** The top-level keys read only when the [data] envelope names no user. *)
Definition drop_top_user (jd : gmap string pyval) : gmap string pyval :=
  delete "matchedUser" (delete "user" (delete "profile" jd)).

(** ** Further definitions: extractor *)

(** The dictionary under [k]; empty when the value there is none. *)
Definition section_of (m : gmap string pyval) (k : string) : gmap string pyval :=
  match get_val m k with PDict d => d | _ => ∅ end.

(** A dictionary or a falsy value: what [x or {}] turns into a
    dictionary. *)
Definition dict_or_falsy (v : pyval) : bool := isinstance_dict v || negb (truthy v).

(** [a or b or ... or dflt] *)
Definition first_truthy (l : list pyval) (dflt : pyval) : pyval :=
  fold_right or_val dflt l.

(** ** Filling a report

    The three fetchers below fill [tpl["report"]] statement by statement
    inside [try] blocks, so what was written before an exception stays
    written.  A statement maps the report to an outcome and the report
    after it. *)

Module Report.

Definition step (A : Type) : Type := gmap string pyval -> res A * gmap string pyval.

Definition sret {A} (a : A) : step A := fun r => (Ok a, r).

Definition sbind {A B} (m : step A) (f : A -> step B) : step B :=
  fun r =>
    match m r with
    | (Ok a, r') => f a r'
    | (Raise e, r') => (Raise e, r')
    end.

(** An expression that does not touch the report. *)
Definition lift {A} (c : res A) : step A := fun r => (c, r).

(** [tpl["report"][k] = v] *)
Definition assign (k : string) (v : pyval) : step unit :=
  fun r => (Ok tt, <[k := v]> r).

(** [tpl["report"][k]] *)
Definition current (k : string) : step pyval :=
  fun r => (py_getitem (PDict r) k, r).

(** [try: c  except: pass] *)
Definition suppress (c : step unit) : step unit :=
  fun r => (Ok tt, snd (c r)).

(** A statement that writes no field outside [W], and removes none. *)
Definition writes {A} (W : list string) (m : step A) : Prop :=
  forall r,
    (forall k, ~ In k W -> snd (m r) !! k = r !! k)
    /\ (forall k, is_Some (r !! k) -> is_Some (snd (m r) !! k))
    /\ (forall k, is_Some (snd (m r) !! k) -> is_Some (r !! k) \/ In k W).

End Report.

Notation "x <~ m ;; k" := (Report.sbind m (fun x => k))
  (at level 100, m at next level, right associativity).

(** ** Codeforces fetcher *)

Module Codeforces.

Import Report.

(** [tpl["report"]] of [codeforces_template(username)] *)
Definition report_template (username : string) : gmap string pyval :=
  list_to_map [
    ("username", PStr username);
    ("rating", PInt 0);
    ("maxRating", PInt 0);
    ("rank", PStr "unrated");
    ("maxRank", PStr "unrated");
    ("organization", PStr "N/A");
    ("contribution", PInt 0);
    ("friendOfCount", PInt 0);
    ("totalContests", PInt 0);
    ("avgChange", PInt 0);
    ("lastContest", PNone);
    ("problemsSolved", PInt 0);
    ("firstName", PNone);
    ("lastName", PNone);
    ("country", PNone);
    ("city", PNone);
    ("registrationTimeSeconds", PNone);
    ("lastOnlineTimeSeconds", PNone);
    ("profileUrl", PStr ("https://codeforces.com/profile/" +:+ username));
    ("avatar", PStr "https://userpic.codeforces.org/no-avatar.jpg")].

(** The envelope around a report. *)
Definition envelope (report : gmap string pyval) : pyval :=
  dict [("message", PStr "Codeforces report generated successfully");
        ("report", PDict report)].

Definition codeforces_template (username : string) : pyval :=
  envelope (report_template username).

(** The three API calls one run makes. *)
Record upstream : Type := Upstream {
  user_info_get : res http_response;
  user_rating_get : res http_response;
  user_status_get : res http_response
}.

(** *** Built-ins *)

(** [x[0]] and [x[-1]].  An index out of range raises [IndexError],
    which [pyexc] does not have; it is raised here as [KeyError], the
    other subclass of [LookupError]: the function's bare [except] clauses
    treat all exceptions alike. *)
Definition py_first (x : pyval) : res pyval :=
  match x with
  | PList (a :: _) => Ok a
  | PStr (String c _) => Ok (PStr (String c EmptyString))
  | PList [] | PStr EmptyString | PDict _ => Raise KeyError
  | _ => Raise TypeError
  end.

Definition py_last (x : pyval) : res pyval :=
  match x with
  | PList l => match List.last (Some <$> l) None with
               | Some a => Ok a
               | None => Raise KeyError
               end
  | PStr s => match List.last (Some <$> list_ascii_of_string s) None with
              | Some c => Ok (PStr (String c EmptyString))
              | None => Raise KeyError
              end
  | PDict _ => Raise KeyError
  | _ => Raise TypeError
  end.

(** [len(x)] *)
Definition py_len (x : pyval) : res Z :=
  match x with
  | PList l => Ok (Z.of_nat (List.length l))
  | PStr s => Ok (Z.of_nat (String.length s))
  | PDict d => Ok (Z.of_nat (size d))
  | _ => Raise TypeError
  end.

Definition as_int (v : pyval) : option Z :=
  match v with
  | PInt z => Some z
  | PBool b => Some (if b then 1 else 0)
  | _ => None
  end.

Definition is_number (v : pyval) : bool :=
  match v with PInt _ | PBool _ | PFloat _ => true | _ => false end.

Section Fetcher.

(** Arithmetic on floats, the rounded mean and the text of floats and
    containers are left to the interpreter. *)
Variable float_sub : pyval -> pyval -> res pyval.
Variable round_mean : list pyval -> res pyval.
Variable repr_other : pyval -> string.

(** [a - b] *)
Definition py_sub (a b : pyval) : res pyval :=
  match as_int a, as_int b with
  | Some x, Some y => Ok (PInt (x - y))
  | _, _ => if is_number a && is_number b then float_sub a b else Raise TypeError
  end.

(** [f"{v}"] *)
Definition py_format (v : pyval) : string :=
  match v with
  | PStr s => s
  | PInt z => pretty z
  | PNone => "None"
  | PBool true => "True"
  | PBool false => "False"
  | _ => repr_other v
  end.

(** [tpl["report"][dst] = u.get(src, dflt)] *)
Definition copy_field (u : pyval) (src dst : string) (dflt : pyval) : step unit :=
  v <~ lift (py_get_default u src dflt);;
  assign dst v.

(** The first block: [user.info]. *)
Definition user_info_block (o : upstream) : step unit :=
  r <~ lift (user_info_get o);;
  _ <~ lift (raise_for_status (status_code r));;
  j <~ lift (json r);;
  status <~ lift (py_get j "status");;
  if py_eq_str status "OK" then
    result <~ lift (py_getitem j "result");;
    u <~ lift (py_first result);;
    _ <~ copy_field u "rating" "rating" (PInt 0);;
    _ <~ copy_field u "maxRating" "maxRating" (PInt 0);;
    _ <~ copy_field u "rank" "rank" (PStr "unrated");;
    _ <~ copy_field u "maxRank" "maxRank" (PStr "unrated");;
    _ <~ copy_field u "organization" "organization" (PStr "N/A");;
    _ <~ copy_field u "contribution" "contribution" (PInt 0);;
    _ <~ copy_field u "friendOfCount" "friendOfCount" (PInt 0);;
    _ <~ (avatar <~ current "avatar";; copy_field u "titlePhoto" "avatar" avatar);;
    _ <~ copy_field u "firstName" "firstName" PNone;;
    _ <~ copy_field u "lastName" "lastName" PNone;;
    _ <~ copy_field u "country" "country" PNone;;
    _ <~ copy_field u "city" "city" PNone;;
    _ <~ copy_field u "registrationTimeSeconds" "registrationTimeSeconds" PNone;;
    copy_field u "lastOnlineTimeSeconds" "lastOnlineTimeSeconds" PNone
  else sret tt.

(** [[c.get("newRating", 0) - c.get("oldRating", 0) for c in contests
      if c.get("oldRating")]] *)
Fixpoint rating_changes (contests : list pyval) : res (list pyval) :=
  match contests with
  | [] => Ok []
  | c :: rest =>
      old <- py_get c "oldRating";;
      if truthy old then
        a <- py_get_default c "newRating" (PInt 0);;
        b <- py_get_default c "oldRating" (PInt 0);;
        d <- py_sub a b;;
        tl <- rating_changes rest;;
        Ok (d :: tl)
      else rating_changes rest
  end.

(** The dictionary stored under [lastContest]. *)
Definition last_contest_entry (last_contest : pyval) : res pyval :=
  contestId <- py_get last_contest "contestId";;
  contestName <- py_get last_contest "contestName";;
  rank <- py_get last_contest "rank";;
  a <- py_get_default last_contest "newRating" (PInt 0);;
  b <- py_get_default last_contest "oldRating" (PInt 0);;
  ratingChange <- py_sub a b;;
  newRating <- py_get last_contest "newRating";;
  oldRating <- py_get last_contest "oldRating";;
  Ok (dict [("contestId", contestId);
            ("contestName", contestName);
            ("rank", rank);
            ("ratingChange", ratingChange);
            ("newRating", newRating);
            ("oldRating", oldRating)]).

(** [j2.get("status") == "OK" and j2.get("result")], as a truth value *)
Definition has_result (j2 : pyval) : res bool :=
  status <- py_get j2 "status";;
  if py_eq_str status "OK" then fmap_res truthy (py_get j2 "result") else Ok false.

(** The body of [if contests:]: the average change and the last
    contest. *)
Definition contest_details (contests : pyval) : step unit :=
  items <~ lift (py_iter contests);;
  changes <~ lift (rating_changes items);;
  _ <~ (if truthy (PList changes)
        then v <~ lift (round_mean changes);; assign "avgChange" v
        else sret tt);;
  last_contest <~ lift (py_last contests);;
  entry <~ lift (last_contest_entry last_contest);;
  assign "lastContest" entry.

(** The second block: [user.rating], in a [try] of its own. *)
Definition rating_block (o : upstream) : step unit :=
  suppress
    (r2 <~ lift (user_rating_get o);;
     if status_code r2 =? 200 then
       j2 <~ lift (json r2);;
       c <~ lift (has_result j2);;
       if c then
         contests <~ lift (py_getitem j2 "result");;
         n <~ lift (py_len contests);;
         _ <~ assign "totalContests" (PInt n);;
         if truthy contests then contest_details contests else sret tt
       else sret tt
     else sret tt).

(** One round of [for sub in submissions]. *)
Definition add_solved (solved : gset string) (sub : pyval) : res (gset string) :=
  verdict <- py_get sub "verdict";;
  if py_eq_str verdict "OK" then
    problem <- py_get_default sub "problem" (dict []);;
    contestId <- py_get_default problem "contestId" (PStr "");;
    index <- py_get_default problem "index" (PStr "");;
    let problem_id := py_format contestId +:+ py_format index in
    if negb (String.eqb problem_id "") then Ok ({[problem_id]} ∪ solved) else Ok solved
  else Ok solved.

(** The third block: [user.status], in a [try] of its own. *)
Definition status_block (o : upstream) : step unit :=
  suppress
    (r3 <~ lift (user_status_get o);;
     if status_code r3 =? 200 then
       j3 <~ lift (json r3);;
       status <~ lift (py_get j3 "status");;
       if py_eq_str status "OK" then
         submissions <~ lift (py_get_default j3 "result" (PList []));;
         subs <~ lift (py_iter submissions);;
         solved_problems <~ lift (for_each subs ∅ add_solved);;
         assign "problemsSolved" (PInt (Z.of_nat (size solved_problems)))
       else sret tt
     else sret tt).

(** [fetch_codeforces_live(username)]: the second and third block run
    only when the first did not raise. *)
Definition fetch_codeforces_live (o : upstream) (username : string) : pyval :=
  let body :=
    suppress (_ <~ user_info_block o;; _ <~ rating_block o;; status_block o) in
  envelope (snd (body (report_template username))).

End Fetcher.

(** The fields of a Codeforces report. *)
Definition report_keys : list string :=
  ["username"; "rating"; "maxRating"; "rank"; "maxRank"; "organization";
   "contribution"; "friendOfCount"; "totalContests"; "avgChange"; "lastContest";
   "problemsSolved"; "firstName"; "lastName"; "country"; "city";
   "registrationTimeSeconds"; "lastOnlineTimeSeconds"; "profileUrl"; "avatar"].

(** The two fields no statement writes. *)
Definition fixed_keys : list string := ["username"; "profileUrl"].

(** A report with exactly the template's fields that agrees with the
    template on the fixed ones. *)
Definition shaped (username : string) (r : gmap string pyval) : Prop :=
  (forall k, is_Some (r !! k) <-> In k report_keys)
  /\ (forall k, In k fixed_keys -> r !! k = report_template username !! k).

(** [user.info] gives nothing usable: the request raises, the status is
    an HTTP error, or the body is no JSON dictionary. *)
Definition user_info_unusable (o : upstream) : bool :=
  match user_info_get o with
  | Raise _ => true
  | Ok r =>
      (400 <=? status_code r) && (status_code r <? 600)
      || match json r with
         | Ok (PDict _) => false
         | _ => true
         end
  end.

(** A submission whose verdict is "OK". *)
Definition accepted (sub : pyval) : bool :=
  match py_get sub "verdict" with
  | Ok v => py_eq_str v "OK"
  | Raise _ => false
  end.

(** The fields each of the three blocks writes. *)
Definition profile_keys : list string :=
  ["rating"; "maxRating"; "rank"; "maxRank"; "organization"; "contribution";
   "friendOfCount"; "avatar"; "firstName"; "lastName"; "country"; "city";
   "registrationTimeSeconds"; "lastOnlineTimeSeconds"].

Definition contest_keys : list string := ["totalContests"; "avgChange"; "lastContest"].

Definition solved_keys : list string := ["problemsSolved"].

End Codeforces.

(** ** Duolingo fetcher *)

Module Duolingo.

Import Report.

(** [tpl["report"]] of [duolingo_template(username)] *)
Definition report_template (username : string) : gmap string pyval :=
  list_to_map [
    ("username", PStr username);
    ("name", PNone);
    ("streak", PInt 0);
    ("totalXp", PInt 0);
    ("languages", PList []);
    ("avatarUrl", PNone);
    ("country", PNone);
    ("bio", PNone);
    ("creationDate", PNone);
    ("learningLanguage", PNone);
    ("fromLanguage", PNone)].

Definition envelope (report : gmap string pyval) : pyval :=
  dict [("message", PStr "Duolingo report generated successfully");
        ("report", PDict report)].

Definition duolingo_template (username : string) : pyval :=
  envelope (report_template username).

(** The profile page, as far as the fallback reads it: what
    [og.get("content")] gives when the page has an [og:image] meta tag,
    and the stripped text of the first [h1], else of the first [h2],
    when there is one. *)
Record profile_page : Type := ProfilePage {
  og_image : option pyval;
  heading : option string
}.

(** The two requests one run can make. *)
Record upstream : Type := Upstream {
  users_get : res http_response;
  profile_get : res (Z * profile_page)
}.

Section Fetcher.

(** The order in which the interpreter goes through a dictionary is the
    order of insertion, which the finite map does not record. *)
Variable dict_items : gmap string pyval -> list (string * pyval).

(** [j.get(k1) or j.get(k2) or ... or last] *)
Definition get_or_else (j : pyval) (keys : list string) (last : res pyval) : res pyval :=
  fold_right (fun k rest => py_or (py_get j k) rest) last keys.

Definition get_or (j : pyval) (keys : list string) (dflt : pyval) : res pyval :=
  get_or_else j keys (Ok dflt).

(** One round of [for code, info in language_data.items()] *)
Definition add_language (langs : list pyval) (item : string * pyval) : res (list pyval) :=
  let '(code, info) := item in
  if isinstance_dict info then
    language <- get_or info ["language_name"; "language"] (PStr code);;
    level <- get_or info ["level"] (PInt 0);;
    xp <- get_or info ["points"; "xp"] (PInt 0);;
    crowns <- get_or info ["crowns"] (PInt 0);;
    fluency_score <- get_or info ["fluency_score"] (PInt 0);;
    Ok (langs ++ [dict [("language", language);
                        ("level", level);
                        ("xp", xp);
                        ("crowns", crowns);
                        ("fluency_score", fluency_score)]])%list
  else Ok langs.

(** The list stored under [languages]. *)
Definition languages_of (j : pyval) : res (list pyval) :=
  language_data <- get_or j ["language_data"; "languages"] (PList []);;
  match language_data with
  | PDict d => for_each (dict_items d) [] add_language
  | _ => Ok []
  end.

(** [tpl["report"][dst] = j.get(k1) or j.get(k2) ... or dflt] *)
Definition fill_field (j : pyval) (dst : string) (keys : list string) (dflt : pyval)
  : step unit :=
  v <~ lift (get_or j keys dflt);;
  assign dst v.

(** [j.get("avatar") or j.get("picture") or j.get("avatar_url")
     or tpl["report"]["avatarUrl"]] *)
Definition avatar_of (j : pyval) : step pyval :=
  fun r =>
    (get_or_else j ["avatar"; "picture"; "avatar_url"] (py_getitem (PDict r) "avatarUrl"),
     r).

(** The branch taken when the users API answers 200; it ends in
    [return tpl]. *)
Definition json_path (j : pyval) (username : string) : step unit :=
  v <~ lift (py_get_default j "username" (PStr username));;
  _ <~ assign "username" v;;
  _ <~ fill_field j "streak" ["site_streak"; "streak"] (PInt 0);;
  _ <~ fill_field j "totalXp" ["totalXp"; "total_xp"] (PInt 0);;
  _ <~ fill_field j "name" ["name"; "fullname"] PNone;;
  _ <~ fill_field j "country" ["country"] PNone;;
  _ <~ fill_field j "bio" ["bio"] PNone;;
  langs <~ lift (languages_of j);;
  _ <~ assign "languages" (PList langs);;
  v <~ avatar_of j;;
  _ <~ assign "avatarUrl" v;;
  _ <~ fill_field j "creationDate" ["creationDate"] PNone;;
  _ <~ fill_field j "learningLanguage" ["learningLanguage"] PNone;;
  fill_field j "fromLanguage" ["fromLanguage"] PNone.

(** The fallback: the profile page. *)
Definition profile_path (o : upstream) : step unit :=
  r2 <~ lift (profile_get o);;
  let '(status, soup) := r2 in
  if status =? 200 then
    _ <~ match og_image soup with
         | Some content => assign "avatarUrl" content
         | None => sret tt
         end;;
    match heading soup with
    | Some text => if negb (String.eqb text "") then assign "name" (PStr text) else sret tt
    | None => sret tt
    end
  else sret tt.

(** [fetch_duolingo_live(username)] *)
Definition fetch_duolingo_live (o : upstream) (username : string) : pyval :=
  let body :=
    suppress
      (r <~ lift (users_get o);;
       if status_code r =? 200 then
         j <~ lift (json r);;
         json_path j username
       else profile_path o) in
  envelope (snd (body (report_template username))).

End Fetcher.

(** The fields of a Duolingo report. *)
Definition report_keys : list string :=
  ["username"; "name"; "streak"; "totalXp"; "languages"; "avatarUrl"; "country";
   "bio"; "creationDate"; "learningLanguage"; "fromLanguage"].

(** The fields of one entry of [languages]. *)
Definition language_keys : list string :=
  ["language"; "level"; "xp"; "crowns"; "fluency_score"].

(** A value that is truthy, or else the default [dflt]. *)
Definition truthy_or (dflt : pyval) (v : pyval) : Prop :=
  truthy v = true \/ v = dflt.

(** An entry of [languages]: a dictionary with the five fields, the four
    numbers truthy or 0. *)
Definition language_entry (v : pyval) : Prop :=
  exists d : gmap string pyval,
    v = PDict d
    /\ (forall k, is_Some (d !! k) <-> In k language_keys)
    /\ (forall k x, In k ["level"; "xp"; "crowns"; "fluency_score"] ->
          d !! k = Some x -> truthy_or (PInt 0) x).

End Duolingo.

(** ** CodeChef fetcher: the rating section *)

Module CodeChef.

Import Report.

(** The [if]/[elif] chain on [rating_num]. *)
Definition star_label (rating_num : Z) : string :=
  if rating_num >=? 3000 then "7★"
  else if rating_num >=? 2500 then "6★"
  else if rating_num >=? 2200 then "5★"
  else if rating_num >=? 2000 then "4★"
  else if rating_num >=? 1800 then "3★"
  else if rating_num >=? 1600 then "2★"
  else if rating_num >=? 1400 then "1★"
  else "Unrated".

(** What the fetcher does with the stripped text [val] of the rating
    element, when that text is not empty: the text is stored as the
    rating, and the stars follow from [int(val)], or are the text itself
    when [int] raises. *)
Definition rating_section (val : string) : step unit :=
  _ <~ assign "rating" (PStr val);;
  match int_of_str val with
  | Ok rating_num => assign "stars" (PStr (star_label rating_num))
  | Raise _ => assign "stars" (PStr val)
  end.

(** The ratings at which a star is gained, and the labels in order. *)
Definition star_thresholds : list Z := [1400; 1600; 1800; 2000; 2200; 2500; 3000].

Definition star_labels : list string :=
  ["Unrated"; "1★"; "2★"; "3★"; "4★"; "5★"; "6★"; "7★"].

(** How many thresholds the rating [n] has reached. *)
Definition stars_reached (n : Z) : nat :=
  List.length (List.filter (fun t => t <=? n) star_thresholds).

End CodeChef.

(** * Properties *)

(** ** Built-ins on sample inputs *)

Example int_of_str_12 : int_of_str "12" = Ok 12.
Proof. reflexivity. Qed.

Example int_of_str_spaces_sign : int_of_str "  -1_000 " = Ok (-1000).
Proof. reflexivity. Qed.

Example int_of_str_bad : int_of_str "1__2" = Raise ValueError /\ int_of_str "" = Raise ValueError.
Proof. split; reflexivity. Qed.

Example str_lower_medium : str_lower "MeDiUm" = "medium".
Proof. reflexivity. Qed.

(** ** TTL cache *)

Lemma py_time_gt_false (a b : Q) : (a <= b)%Q -> py_time_gt a b = false.
Proof.
  intros H. unfold py_time_gt. apply Qle_bool_iff in H. now rewrite H.
Qed.

Lemma py_time_gt_true (a b : Q) : (b < a)%Q -> py_time_gt a b = true.
Proof.
  intros H. unfold py_time_gt.
  destruct (Qle_bool a b) eqn:E; [|reflexivity].
  apply Qle_bool_iff in E. lra.
Qed.

Lemma ttl_get_fresh (data : gmap string (pyval * Q)) k v exp now :
  data !! k = Some (v, exp) -> (now <= exp)%Q ->
  TTLCache.get data k now = (v, data).
Proof.
  intros Hk Hle. unfold TTLCache.get. rewrite Hk.
  now rewrite py_time_gt_false.
Qed.

Lemma ttl_get_expired (data : gmap string (pyval * Q)) k v exp now :
  data !! k = Some (v, exp) -> (exp < now)%Q ->
  TTLCache.get data k now = (PNone, delete k data).
Proof.
  intros Hk Hlt. unfold TTLCache.get. rewrite Hk.
  now rewrite py_time_gt_true.
Qed.



(** ** Rate limiter *)

Section RateLimiterFacts.

Variables (L P : Z).

Lemma filter_all_in_window now t dq :
  Qle_bool t (now - inject_Z P) = false ->
  Forall (Qle t) dq ->
  List.filter (in_window P now) dq = dq.
Proof.
  intros Ht Hall. induction Hall as [|x dq Hx _ IH]; [reflexivity|].
  simpl. rewrite IH. unfold in_window.
  destruct (Qle_bool x (now - inject_Z P)) eqn:Ex; [|reflexivity].
  apply Qle_bool_iff in Ex.
  assert (Qle_bool t (now - inject_Z P) = true) as Hc
    by (apply Qle_bool_iff; eapply Qle_trans; eassumption).
  congruence.
Qed.

(** On a bucket in arrival order, popping expired stamps off the front
    removes every expired stamp. *)
Lemma popleft_expired_filter now dq :
  StronglySorted Qle dq ->
  popleft_expired P now dq = List.filter (in_window P now) dq.
Proof.
  induction 1 as [|t dq Hs IH Hall]; [reflexivity|].
  simpl. unfold in_window at 1.
  destruct (Qle_bool t (now - inject_Z P)) eqn:Et; simpl.
  - exact IH.
  - f_equal. symmetry. now apply filter_all_in_window with (t := t).
Qed.

Lemma popleft_expired_ok t now dq :
  bucket_ok t dq -> bucket_ok t (popleft_expired P now dq).
Proof.
  intros [Hs Hb]. induction Hs as [|x dq Hs IH Hall]; [split; constructor|].
  simpl. destruct (Qle_bool x (now - inject_Z P)).
  - apply IH. now inversion Hb.
  - split; [now constructor | exact Hb].
Qed.

Lemma bucket_ok_mono t t' dq : (t <= t')%Q -> bucket_ok t dq -> bucket_ok t' dq.
Proof.
  intros Hle [Hs Hb]. split; [exact Hs|].
  eapply Forall_impl; [exact Hb|]. intros x Hx. simpl in Hx. lra.
Qed.

Lemma bucket_ok_append now dq : bucket_ok now dq -> bucket_ok now (dq ++ [now])%list.
Proof.
  intros [Hs Hb]. split.
  - induction Hs as [|x dq Hs IH Hall]; simpl.
    + repeat constructor.
    + inversion Hb; subst. constructor; [now apply IH|].
      apply Forall_app. split; [exact Hall|]. now repeat constructor.
  - apply Forall_app. split; [exact Hb|]. repeat constructor. lra.
Qed.

Lemma check_rate_limit_sliding_window_spec (buckets : gmap string (list Q)) ip t now :
  buckets_ok t buckets ->
  check_rate_limit L P buckets ip now = sliding_window_spec L P buckets ip now.
Proof.
  intros Hok. unfold check_rate_limit, sliding_window_spec.
  assert (StronglySorted Qle (default [] (buckets !! ip))) as Hs.
  { destruct (buckets !! ip) as [dq|] eqn:E; simpl; [|constructor].
    now destruct (Hok ip dq E). }
  rewrite (popleft_expired_filter now _ Hs).
  rewrite Z.geb_leb, Z.ltb_antisym.
  now destruct (_ <=? _).
Qed.

Lemma check_rate_limit_ok (buckets : gmap string (list Q)) ip t now :
  (t <= now)%Q -> buckets_ok t buckets ->
  buckets_ok now (snd (check_rate_limit L P buckets ip now)).
Proof.
  intros Hle Hok.
  assert (bucket_ok now (popleft_expired P now (default [] (buckets !! ip)))) as Hdq.
  { apply popleft_expired_ok, bucket_ok_mono with (t := t); [exact Hle|].
    destruct (buckets !! ip) as [dq|] eqn:E; simpl; [now apply (Hok ip)|].
    split; constructor. }
  unfold check_rate_limit.
  destruct (_ >=? _); simpl; intros ip' dq'; rewrite lookup_insert;
    case_decide; intros Heq; simplify_eq;
    try (apply bucket_ok_mono with (t := t); [exact Hle|]; now apply (Hok ip'));
    [exact Hdq | now apply bucket_ok_append].
Qed.

Lemma check_rate_limit_calls_sliding_window_spec calls :
  forall (buckets : gmap string (list Q)) t0,
    buckets_ok t0 buckets -> nondecreasing_from t0 calls ->
    check_rate_limit_calls L P buckets calls = sliding_window_spec_calls L P buckets calls.
Proof.
  induction calls as [|[ip now] calls IH]; intros buckets t0 Hok Hnd; [reflexivity|].
  destruct Hnd as [Hle Hnd]. simpl.
  rewrite <- (check_rate_limit_sliding_window_spec buckets ip t0 now Hok).
  pose proof (check_rate_limit_ok buckets ip t0 now Hle Hok) as Hok'.
  destruct (check_rate_limit L P buckets ip now) as [r buckets'].
  simpl in Hok'. now rewrite (IH buckets' now Hok' Hnd).
Qed.

(** One call, from what the bucket looks like after the pops. *)
Lemma check_rate_limit_accepts (buckets : gmap string (list Q)) ip now dq :
  popleft_expired P now (default [] (buckets !! ip)) = dq ->
  Z.of_nat (List.length dq) < L ->
  check_rate_limit L P buckets ip now = (Ok true, <[ip := (dq ++ [now])%list]> buckets).
Proof.
  intros Hdq Hlt. unfold check_rate_limit. rewrite Hdq.
  destruct (_ >=? _) eqn:E; [|reflexivity].
  rewrite Z.geb_leb in E. apply Z.leb_le in E. lia.
Qed.

Lemma check_rate_limit_rejects (buckets : gmap string (list Q)) ip now dq :
  popleft_expired P now (default [] (buckets !! ip)) = dq ->
  L <= Z.of_nat (List.length dq) ->
  check_rate_limit L P buckets ip now
  = (Raise (HTTPException 429 (rate_limit_detail L P)), <[ip := dq]> buckets).
Proof.
  intros Hdq Hle. unfold check_rate_limit. rewrite Hdq.
  destruct (_ >=? _) eqn:E; [reflexivity|].
  rewrite Z.geb_leb in E. apply Z.leb_gt in E. lia.
Qed.

Lemma popleft_expired_keep now t dq :
  (now - inject_Z P < t)%Q -> popleft_expired P now (t :: dq) = t :: dq.
Proof.
  intros Hlt. simpl. destruct (Qle_bool _ _) eqn:E; [|reflexivity].
  apply Qle_bool_iff in E. lra.
Qed.

Lemma popleft_expired_all now dq :
  Forall (fun t => (t <= now - inject_Z P)%Q) dq -> popleft_expired P now dq = [].
Proof.
  induction 1 as [|t dq Ht _ IH]; [reflexivity|].
  simpl. apply Qle_bool_iff in Ht. now rewrite Ht.
Qed.

End RateLimiterFacts.

Lemma rate_limit_scenario ip (a b c d e : Q) :
  (a <= b)%Q -> (b <= c)%Q -> (c <= d)%Q -> (d < a + 60)%Q -> (c + 60 <= e)%Q ->
  fst (check_rate_limit_calls 3 60 ∅ [(ip, a); (ip, b); (ip, c); (ip, d); (ip, e)])
  = [Ok true; Ok true; Ok true;
     Raise (HTTPException 429 "Rate limit exceeded (3 req / 60s)"); Ok true].
Proof.
  intros Hab Hbc Hcd Hda Hce.
  assert (inject_Z 60 == 60)%Q as H60 by reflexivity.
  unfold check_rate_limit_calls.
  rewrite (check_rate_limit_accepts 3 60 ∅ ip a []);
    [|now rewrite lookup_empty|simpl; lia].
  rewrite (check_rate_limit_accepts 3 60 _ ip b [a]);
    [|rewrite lookup_insert_eq; apply popleft_expired_keep; lra|simpl; lia].
  rewrite (check_rate_limit_accepts 3 60 _ ip c [a; b]);
    [|rewrite lookup_insert_eq; apply popleft_expired_keep; lra|simpl; lia].
  rewrite (check_rate_limit_rejects 3 60 _ ip d [a; b; c]);
    [|rewrite lookup_insert_eq; apply popleft_expired_keep; lra|simpl; lia].
  rewrite (check_rate_limit_accepts 3 60 _ ip e []);
    [|rewrite lookup_insert_eq; apply popleft_expired_all;
      repeat constructor; lra|simpl; lia].
  reflexivity.
Qed.

(** C8: on buckets in arrival order and for calls whose clock readings
    never go back, [check_rate_limit] is the sliding-window rule: the pops
    off the front remove exactly the stamps outside the window
    [(now - period, now]], the call is let in and [now] recorded exactly
    when fewer than the limit remain, and is rejected with a 429 naming
    limit and window otherwise.  With limit 3 and window 60 s, three calls
    in a row pass, a fourth within the window is rejected, and a call made
    once the window has passed is let in. *)
Theorem check_rate_limit_sliding_window :
  (forall L P (buckets : gmap string (list Q)) calls t0,
     buckets_ok t0 buckets -> nondecreasing_from t0 calls ->
     check_rate_limit_calls L P buckets calls = sliding_window_spec_calls L P buckets calls)
  /\ (forall L P (buckets : gmap string (list Q)) ip now t0,
        buckets_ok t0 buckets -> (t0 <= now)%Q ->
        let recent := List.filter (in_window P now) (default [] (buckets !! ip)) in
        check_rate_limit L P buckets ip now
        = (if Z.of_nat (List.length recent) <? L
           then (Ok true, <[ip := (recent ++ [now])%list]> buckets)
           else (Raise (HTTPException 429 (rate_limit_detail L P)),
                 <[ip := recent]> buckets))
        /\ buckets_ok now (snd (check_rate_limit L P buckets ip now)))
  /\ rate_limit_detail RATE_LIMIT RATE_PERIOD = "Rate limit exceeded (30 req / 60s)"
  /\ (forall ip (a b c d e : Q),
        (a <= b)%Q -> (b <= c)%Q -> (c <= d)%Q -> (d < a + 60)%Q -> (c + 60 <= e)%Q ->
        fst (check_rate_limit_calls 3 60 ∅ [(ip, a); (ip, b); (ip, c); (ip, d); (ip, e)])
        = [Ok true; Ok true; Ok true;
           Raise (HTTPException 429 "Rate limit exceeded (3 req / 60s)"); Ok true]).
Proof.
  split; [intros; now apply check_rate_limit_calls_sliding_window_spec with (t0 := t0)|].
  split.
  { intros L P buckets ip now t0 Hok Hle recent. split.
    - now rewrite (check_rate_limit_sliding_window_spec L P buckets ip t0 now Hok).
    - now apply check_rate_limit_ok with (t := t0). }
  split; [reflexivity|].
  exact rate_limit_scenario.
Qed.

Lemma buckets_ok_empty t : buckets_ok t ∅.
Proof. intros ip dq H. now rewrite lookup_empty in H. Qed.

Lemma check_rate_limit_sliding_window_witness :
  check_rate_limit_calls 3 60 ∅ [("10.0.0.1", 0%Q); ("10.0.0.2", 1%Q); ("10.0.0.1", 61%Q)]
  = sliding_window_spec_calls 3 60 ∅ [("10.0.0.1", 0%Q); ("10.0.0.2", 1%Q); ("10.0.0.1", 61%Q)]
  /\ fst (check_rate_limit_calls 3 60 ∅
            [("10.0.0.1", 0%Q); ("10.0.0.1", 0%Q); ("10.0.0.1", 0%Q);
             ("10.0.0.1", 0%Q); ("10.0.0.1", 61%Q)])
     = [Ok true; Ok true; Ok true;
        Raise (HTTPException 429 "Rate limit exceeded (3 req / 60s)"); Ok true].
Proof.
  destruct check_rate_limit_sliding_window as (Hcalls & _ & _ & Hscen).
  split.
  - apply (Hcalls 3 60 ∅ _ 0%Q); [apply buckets_ok_empty|].
    simpl. repeat split; vm_compute; discriminate.
  - apply Hscen; vm_compute; try discriminate; reflexivity.
Defined.

(** ** Unified endpoint *)

Section UnifiedEndpoint.

Import Api.

Variable World : Type.
Variable time_time : World -> Q * World.
Variables fetch_lc fetch_cc fetch_duo fetch_cf fetch_hr
  : string -> World -> res pyval * World.


Lemma in_pair_spec p a b : in_pair p a b = true <-> p = a \/ p = b.
Proof.
  unfold in_pair. rewrite orb_true_iff, !String.eqb_eq. reflexivity.
Qed.

Lemma in_pair_false p a b : p <> a -> p <> b -> in_pair p a b = false.
Proof.
  intros Ha Hb. unfold in_pair.
  apply String.eqb_neq in Ha, Hb. now rewrite Ha, Hb.
Qed.

(** Two handlers that agree on every state give the same route. *)
Lemma route_ext (h1 h2 : server World -> res pyval * server World) ip s :
  (forall s', h1 s' = h2 s') ->
  route World time_time h1 ip s = route World time_time h2 ip s.
Proof.
  intros Hext. unfold route.
  destruct (time_time (world World s)) as [now w].
  destruct (check_rate_limit _ _ _ _ _) as [[ok|e] b]; [apply Hext|reflexivity].
Qed.

Lemma api_unified_body platform username s :
  let p := str_lower platform in
  let unified := api_unified World time_time fetch_lc fetch_cc fetch_duo fetch_cf fetch_hr in
  (p = "leetcode" \/ p = "lc" ->
     unified platform username s = api_leetcode World time_time fetch_lc username s)
  /\ (p = "codechef" \/ p = "cc" ->
     unified platform username s = api_codechef World time_time fetch_cc username s)
  /\ (p = "duolingo" \/ p = "duo" ->
     unified platform username s = api_duolingo World time_time fetch_duo username s)
  /\ (p = "codeforces" \/ p = "cf" ->
     unified platform username s = api_cf World time_time fetch_cf username s)
  /\ (p = "hackerrank" \/ p = "hr" ->
     unified platform username s = api_hr World time_time fetch_hr username s)
  /\ (~ In p platform_aliases ->
     unified platform username s = (Raise (HTTPException 404 "Unknown platform."), s)).
Proof.
  intros p unified. unfold unified, api_unified. fold p.
  refine (conj _ (conj _ (conj _ (conj _ (conj _ _))))).
  1-5: intros [-> | ->]; reflexivity.
  intros Hno. simpl in Hno.
  rewrite !in_pair_false; [reflexivity|..]; intros ->; apply Hno; tauto.
Qed.

End UnifiedEndpoint.



(** ** The error monad *)

Lemma bind_Ok_inv {A B} (m : res A) (f : A -> res B) b :
  bind m f = Ok b -> exists a, m = Ok a /\ f a = Ok b.
Proof. destruct m as [a|e]; simpl; [eauto | discriminate]. Qed.

Lemma py_or_Ok_inv a b v :
  py_or a b = Ok v ->
  exists x, a = Ok x /\ (truthy x = true /\ v = x \/ truthy x = false /\ b = Ok v).
Proof.
  unfold py_or. intros H. apply bind_Ok_inv in H as (x & Ha & H).
  exists x. split; [exact Ha|].
  destruct (truthy x); [left | right]; split; congruence.
Qed.

Lemma truthy_dict_nil : truthy (dict []) = false.
Proof. reflexivity. Qed.

(** [x or {}] is truthy or the empty dictionary. *)
Lemma py_or_empty_dict a v :
  py_or a (Ok (dict [])) = Ok v -> truthy v = true \/ v = dict [].
Proof.
  intros H. apply py_or_Ok_inv in H as (x & _ & [[Ht ->] | [_ H]]); [now left|].
  right. congruence.
Qed.

Ltac inv_bind H :=
  let x := fresh "x" in let E := fresh "E" in
  apply bind_Ok_inv in H as (x & E & H).

(** ** Statistics extractor: shape of the result *)

Lemma template_error_set username :
  py_setitem_in (leetcode_template username) "report" "error" (PBool true)
  = Ok (leetcode_template username).
Proof. vm_compute. reflexivity. Qed.

Lemma extract_tail username (has : bool) msg st_t st_e st_m st_h
    acceptance ranking reputation contribution streak tad cal :
  (report <- py_getitem (leetcode_template username) "report";;
   report <- py_update report (dict [
     ("error", PBool (if has then false else true));
     ("errorMessage", msg);
     ("username", PStr username);
     ("totalSolved", PInt st_t);
     ("easySolved", PInt st_e);
     ("mediumSolved", PInt st_m);
     ("hardSolved", PInt st_h);
     ("acceptanceRate", acceptance);
     ("ranking", ranking);
     ("reputation", reputation);
     ("contributionPoints", contribution);
     ("streak", streak);
     ("totalActiveDays", tad);
     ("submissionCalendar", cal)]);;
   py_setitem (leetcode_template username) "report" report)
  = Ok (dict [("message", PStr "LeetCode report fetched successfully");
        ("report", dict [
           ("error", PBool (negb has));
           ("errorMessage", msg);
           ("username", PStr username);
           ("totalSolved", PInt st_t);
           ("easySolved", PInt st_e);
           ("mediumSolved", PInt st_m);
           ("hardSolved", PInt st_h);
           ("acceptanceRate", acceptance);
           ("ranking", ranking);
           ("reputation", reputation);
           ("contributionPoints", contribution);
           ("streak", streak);
           ("totalActiveDays", tad);
           ("submissionCalendar", cal)])]).
Proof. destruct has; vm_compute; reflexivity. Qed.

Lemma bind_Ok {A B} (a : A) (f : A -> res B) : bind (Ok a) f = f a.
Proof. reflexivity. Qed.

Lemma signal_ranking prof cal ranking signal :
  py_or (Ok cal) (py_get prof "ranking") = Ok signal ->
  (if truthy prof then py_get prof "ranking" else Ok PNone) = Ok ranking ->
  truthy prof = true \/ prof = dict [] ->
  truthy signal = truthy cal || truthy ranking.
Proof.
  intros Hs Hr Hp. unfold py_or in Hs. simpl in Hs.
  destruct (truthy cal) eqn:Ec.
  - injection Hs as <-. now rewrite Ec.
  - destruct Hp as [Hp | ->].
    + rewrite Hp in Hr. rewrite Hr in Hs. now injection Hs as <-.
    + simpl in Hr. injection Hr as <-. vm_compute in Hs. now injection Hs as <-.
Qed.

(** What a returning call of the extractor went through and built. *)
Lemma extract_inv json_loads nj u r :
  _extract_stats_from_normalized json_loads nj u = Ok r ->
  r = leetcode_template u \/
  exists mu ac rows st acceptance ranking reputation contribution streak tad cal,
    truthy nj = true /\ py_get nj "matchedUser" = Ok mu /\ truthy mu = true
    /\ find_ac mu = Ok ac /\ py_iter ac = Ok rows
    /\ for_each rows (Counts 0 0 0 0) count_row = Ok st
    /\ r = extract_result u st acceptance ranking reputation contribution streak tad cal.
Proof.
  unfold _extract_stats_from_normalized. rewrite template_error_set, bind_Ok.
  intros H. inv_bind H. rename x into mu.
  destruct (truthy mu) eqn:Hmu; cbv beta iota delta [negb] in H.
  2:{ left. congruence. }
  right.
  destruct (truthy nj) eqn:Hnj; [|injection E as <-; discriminate].
  inv_bind H. rename x into prof. apply py_or_empty_dict in E0 as Hprof.
  inv_bind H. rename x into ac. inv_bind H. rename x into rows.
  inv_bind H. rename x into st. inv_bind H. rename x into cal_data.
  inv_bind H. rename x into user_cal.
  inv_bind H. rename x into streak0. inv_bind H. rename x into tad0.
  inv_bind H. rename x into streak. inv_bind H. rename x into tad.
  inv_bind H. rename x into error_msg. inv_bind H. rename x into acceptance.
  inv_bind H. rename x into ranking. inv_bind H. rename x into reputation.
  inv_bind H. rename x into contribution.
  exists mu, ac, rows, st, acceptance, ranking, reputation, contribution, streak, tad,
    (decode_calendar json_loads cal_data).
  repeat (split; [first [assumption|reflexivity]|]).
  rewrite extract_tail in H. injection H as <-.
  unfold extract_result. fold (has_stats st) in *.
  replace (if truthy error_msg then error_msg else PNone)
    with (error_message st (decode_calendar json_loads cal_data) ranking); [reflexivity|].
  unfold error_message. destruct (has_stats st); simpl in E10.
  - now injection E10 as <-.
  - inv_bind E10. rewrite (signal_ranking _ _ _ _ E15 E12 Hprof) in E10.
    destruct (_ || _); now injection E10 as <-.
Qed.

Lemma report_field_extract_result u st acc rk rep con str tad cal :
  let r := extract_result u st acc rk rep con str tad cal in
  report_field r "error" = Ok (PBool (negb (has_stats st)))
  /\ report_field r "errorMessage" = Ok (error_message st cal rk)
  /\ report_field r "totalSolved" = Ok (PInt (total st))
  /\ report_field r "easySolved" = Ok (PInt (easy st))
  /\ report_field r "mediumSolved" = Ok (PInt (medium st))
  /\ report_field r "hardSolved" = Ok (PInt (hard st))
  /\ report_field r "ranking" = Ok rk
  /\ report_field r "submissionCalendar" = Ok cal.
Proof.
  intros r. subst r. unfold extract_result.
  generalize (has_stats st), (error_message st cal rk). intros b msg.
  destruct st as [t e m h]. simpl total. simpl easy. simpl medium. simpl hard.
  repeat split; vm_compute; reflexivity.
Qed.

Lemma report_field_template u :
  let r := leetcode_template u in
  report_field r "error" = Ok (PBool true)
  /\ report_field r "errorMessage" = Ok (PStr template_message)
  /\ report_field r "totalSolved" = Ok (PInt 0)
  /\ report_field r "easySolved" = Ok (PInt 0)
  /\ report_field r "mediumSolved" = Ok (PInt 0)
  /\ report_field r "hardSolved" = Ok (PInt 0)
  /\ report_field r "ranking" = Ok PNone
  /\ report_field r "submissionCalendar" = Ok (dict []).
Proof. repeat split; vm_compute; reflexivity. Qed.

Lemma messages_distinct :
  msg_stats_unavailable <> msg_profile_not_found
  /\ msg_stats_unavailable <> template_message.
Proof. split; discriminate. Qed.

Lemma extract_ranking_only json_loads u :
  _extract_stats_from_normalized json_loads payload_ranking_only u
  = Ok (extract_result u (Counts 0 0 0 0) (PInt 0) (PInt 4821) (PInt 0) (PInt 0)
          (PInt 0) (PInt 0) (dict [])).
Proof. vm_compute. reflexivity. Qed.



(** ** Statistics extractor: the row loop *)

Lemma py_or_val a b : py_or (Ok a) (Ok b) = Ok (or_val a b).
Proof. unfold py_or, or_val. simpl. now destruct (truthy a). Qed.

Lemma py_get_dict d k : py_get (PDict d) k = Ok (get_val d k).
Proof. reflexivity. Qed.

Lemma row_count_dict d :
  row_count (PDict d)
  = Ok (match py_int (count_source d) with Ok z => z | Raise _ => 0 end).
Proof.
  unfold row_count, count_source. rewrite !py_get_dict, !py_or_val, bind_Ok.
  now destruct (py_int _).
Qed.

Lemma row_count_value row : row_count row = Ok (row_value row).
Proof.
  unfold row_value.
  assert (exists z, row_count row = Ok z) as [z Hz]; [|now rewrite Hz].
  unfold row_count, try_except. destruct (bind _ _); eauto.
Qed.

Lemma classify_set_count diff c st :
  (if str_contains "all" diff || String.eqb diff "" then
     Ok (Counts c (easy st) (medium st) (hard st))
   else if str_contains "easy" diff then
     Ok (Counts (total st) c (medium st) (hard st))
   else if str_contains "medium" diff then
     Ok (Counts (total st) (easy st) c (hard st))
   else if str_contains "hard" diff then
     Ok (Counts (total st) (easy st) (medium st) c)
   else Ok st)
  = Ok (set_count (label_class diff) c st).
Proof.
  unfold label_class.
  generalize (str_contains "all" diff || String.eqb diff ""),
    (str_contains "easy" diff), (str_contains "medium" diff),
    (str_contains "hard" diff).
  intros [] [] [] []; reflexivity.
Qed.

Lemma label_or_empty d s :
  row_label (PDict d) = Some s ->
  py_or (py_get (PDict d) "difficulty") (Ok (PStr "")) = Ok (PStr s).
Proof.
  rewrite py_get_dict, py_or_val. unfold row_label, or_val, get_val.
  destruct (default PNone (d !! "difficulty")) as [|b|z|f|t|l|d'].
  5:{ intros [= <-]. now destruct t. }
  all: destruct (truthy _); [discriminate|]; now intros [= <-].
Qed.

Lemma count_row_set_count st row :
  well_labelled row = true ->
  count_row st row = Ok (set_count (row_class row) (row_value row) st).
Proof.
  intros Hwl. unfold count_row, row_class.
  destruct row as [| | | | |l|d]; try reflexivity.
  change (isinstance_dict (PDict d)) with true. cbv beta iota delta [negb].
  unfold well_labelled in Hwl. change (isinstance_dict (PDict d)) with true in Hwl.
  destruct (row_label (PDict d)) as [s|] eqn:El; [|discriminate Hwl].
  rewrite (label_or_empty d s El), bind_Ok.
  change (py_lower (PStr s)) with (Ok (str_lower s)).
  rewrite bind_Ok, row_count_value, bind_Ok.
  apply classify_set_count.
Qed.

Lemma for_each_snoc {A B} (l : list A) (a : A) (st : B) body :
  for_each (l ++ [a]) st body = bind (for_each l st body) (fun st' => body st' a).
Proof.
  revert st. induction l as [|x l IH]; intros st; simpl.
  - now destruct (body st a).
  - destruct (body st x); simpl; [apply IH|reflexivity].
Qed.

Lemma last_count_snoc c rows row :
  last_count c (rows ++ [row])
  = if has_class c row then row_value row else last_count c rows.
Proof.
  unfold last_count. rewrite List.filter_app. simpl.
  destruct (has_class c row); [now rewrite last_snoc | now rewrite app_nil_r].
Qed.

Lemma count_rows_last rows :
  forallb well_labelled rows = true ->
  for_each rows (Counts 0 0 0 0) count_row
  = Ok (Counts (last_count All rows) (last_count Easy rows)
               (last_count Medium rows) (last_count Hard rows)).
Proof.
  induction rows as [|row rows IH] using rev_ind; intros Hwl; [reflexivity|].
  rewrite forallb_app in Hwl. apply andb_true_iff in Hwl as [Hrows Hrow].
  simpl in Hrow. rewrite andb_true_r in Hrow.
  rewrite for_each_snoc, (IH Hrows), bind_Ok, (count_row_set_count _ _ Hrow).
  rewrite !last_count_snoc. unfold has_class.
  now destruct (row_class row) as [[]|].
Qed.

Lemma find_ac_payload rows :
  find_ac (dict [("submitStatsGlobal", dict [("acSubmissionNum", PList rows)])])
  = Ok (PList rows).
Proof. destruct rows; vm_compute; reflexivity. Qed.

Lemma extract_payload_of_rows json_loads rows st u :
  for_each rows (Counts 0 0 0 0) count_row = Ok st ->
  _extract_stats_from_normalized json_loads (payload_of_rows rows) u
  = Ok (extract_result u st (PInt 0) PNone (PInt 0) (PInt 0) (PInt 0) (PInt 0) (dict [])).
Proof.
  intros Hst. unfold _extract_stats_from_normalized.
  rewrite template_error_set, bind_Ok.
  set (mu := dict [("submitStatsGlobal", dict [("acSubmissionNum", PList rows)])]).
  assert ((if truthy (payload_of_rows rows)
           then py_get (payload_of_rows rows) "matchedUser" else Ok PNone) = Ok mu)
    as -> by (vm_compute; reflexivity).
  rewrite bind_Ok.
  assert (truthy mu = true) as -> by (vm_compute; reflexivity).
  cbv beta iota delta [negb].
  assert (py_or (py_get mu "profile") (Ok (dict [])) = Ok (dict [])) as ->
    by (vm_compute; reflexivity).
  rewrite bind_Ok. unfold mu at 1. rewrite find_ac_payload, bind_Ok.
  simpl py_iter. rewrite bind_Ok, Hst, bind_Ok.
  unfold extract_result, error_message, has_stats.
  destruct st as [t e m h]. simpl total. simpl easy. simpl medium. simpl hard.
  generalize ((0 <? t) || (0 <? e) || (0 <? m) || (0 <? h)). intros b.
  subst mu. destruct b; vm_compute; reflexivity.
Qed.

Lemma report_counts json_loads rows u :
  forallb well_labelled rows = true ->
  exists r, _extract_stats_from_normalized json_loads (payload_of_rows rows) u = Ok r
    /\ forall c, report_field r (field_name c) = Ok (PInt (last_count c rows)).
Proof.
  intros Hwl. eexists. split.
  - apply extract_payload_of_rows, count_rows_last, Hwl.
  - destruct (report_field_extract_result u
      (Counts (last_count All rows) (last_count Easy rows)
              (last_count Medium rows) (last_count Hard rows))
      (PInt 0) PNone (PInt 0) (PInt 0) (PInt 0) (PInt 0) (dict []))
      as (_ & _ & Ht & He & Hm & Hh & _).
    intros []; assumption.
Qed.




(** ** Count parsing: the [submissions] fallback *)

Lemma falsy_int_zero n z : truthy n = false -> py_int n = Ok z -> z = 0.
Proof.
  destruct n as [|b|i|f|s|l|d]; simpl; try discriminate.
  - intros ->. now intros [= <-].
  - intros H [= <-]. apply negb_false_iff, Z.eqb_eq in H. now subst.
  - destruct f; try discriminate. now intros _ [= <-].
  - destruct s; [|discriminate]. intros _. vm_compute. discriminate.
Qed.



(** ** Schema normaliser: closed form *)

Lemma py_in_dict d k :
  py_in k (PDict d) = Ok (match d !! k with Some _ => true | None => false end).
Proof. simpl. now destruct (d !! k). Qed.

Lemma has_data_dict_eq jd :
  has_data_dict (PDict jd)
  = Ok (match data_dict jd with Some _ => true | None => false end).
Proof.
  unfold has_data_dict, data_dict. rewrite py_in_dict. simpl.
  destruct (jd !! "data") as [[]|]; reflexivity.
Qed.

Lemma user_from_data jd :
  (if match data_dict jd with Some _ => true | None => false end
   then py_or (d <- py_getitem (PDict jd) "data";; py_get d "matchedUser")
              (d <- py_getitem (PDict jd) "data";; py_get d "user")
   else Ok PNone)
  = Ok (match data_dict jd with
        | Some d => or_val (get_val d "matchedUser") (get_val d "user")
        | None => PNone
        end).
Proof.
  unfold data_dict. simpl py_getitem.
  destruct (jd !! "data") as [[| | | | | |d]|]; try reflexivity.
  rewrite !bind_Ok, !py_get_dict. apply py_or_val.
Qed.

Lemma user_fallback jd mu :
  (if if truthy mu then false else true
   then py_or (py_or (py_get (PDict jd) "matchedUser") (py_get (PDict jd) "user"))
              (py_get (PDict jd) "profile")
   else Ok mu)
  = Ok (if truthy mu then mu
        else or_val (or_val (get_val jd "matchedUser") (get_val jd "user"))
                    (get_val jd "profile")).
Proof.
  destruct (truthy mu); [reflexivity|].
  now rewrite !py_get_dict, !py_or_val.
Qed.

Lemma self_write (out m : gmap string pyval) k v :
  out !! "matchedUser" = Some (PDict m) -> m !! k = Some v ->
  py_setitem_in (PDict out) "matchedUser" k v = Ok (PDict out).
Proof.
  intros Hout Hm. unfold py_setitem_in. simpl. rewrite Hout. simpl.
  now rewrite (insert_id m k v Hm), (insert_id out _ _ Hout).
Qed.

Lemma take_user_record mu :
  (if truthy mu && isinstance_dict mu then
     out <- py_setitem (dict []) "matchedUser" mu;;
     c <- py_in "submitStatsGlobal" mu;;
     out <- (if c then v <- py_getitem mu "submitStatsGlobal";;
                      py_setitem_in out "matchedUser" "submitStatsGlobal" v
            else Ok out);;
     c <- py_in "submitStats" mu;;
     if c then v <- py_getitem mu "submitStats";;
               py_setitem_in out "matchedUser" "submitStats" v
     else Ok out
   else Ok (dict []))
  = Ok (PDict (opt_insert "matchedUser"
                 (PDict <$> match mu with
                            | PDict m => if truthy (PDict m) then Some m else None
                            | _ => None
                            end) ∅)).
Proof.
  destruct mu as [| | | | | |m]; try (rewrite andb_false_r; reflexivity).
  rewrite andb_true_r. destruct (truthy (PDict m)); [|reflexivity].
  change (py_setitem (dict []) "matchedUser" (PDict m))
    with (Ok (PDict (<["matchedUser" := PDict m]> ∅))).
  rewrite bind_Ok, !py_in_dict, bind_Ok.
  assert ((<["matchedUser" := PDict m]> (∅ : gmap string pyval)) !! "matchedUser"
          = Some (PDict m)) as Hout by apply lookup_insert_eq.
  simpl py_getitem.
  destruct (m !! "submitStatsGlobal") as [v|] eqn:E1.
  - rewrite bind_Ok, (self_write _ m _ v Hout E1), !bind_Ok.
    destruct (m !! "submitStats") as [w|] eqn:E2; [|reflexivity].
    now rewrite bind_Ok, (self_write _ m _ w Hout E2).
  - rewrite !bind_Ok.
    destruct (m !! "submitStats") as [w|] eqn:E2; [|reflexivity].
    now rewrite bind_Ok, (self_write _ m _ w Hout E2).
Qed.

Lemma top_level_overwrite (m : option (gmap string pyval)) (rest : gmap string pyval) k v :
  rest !! "matchedUser" = None ->
  py_setdefault_setitem (PDict (opt_insert "matchedUser" (PDict <$> m) rest))
    "matchedUser" k v
  = Ok (PDict (opt_insert "matchedUser"
                 (PDict <$> Some (<[k := v]> (default ∅ m))) rest)).
Proof.
  intros Hrest. unfold py_setdefault_setitem, py_setdefault.
  destruct m as [m|]; simpl.
  - rewrite lookup_insert_eq. simpl. now rewrite insert_insert_eq.
  - rewrite Hrest. simpl. now rewrite insert_insert_eq.
Qed.

Lemma top_level_fill (m : option (gmap string pyval)) (rest : gmap string pyval) k v :
  rest !! "matchedUser" = None ->
  py_setdefault_setdefault (PDict (opt_insert "matchedUser" (PDict <$> m) rest))
    "matchedUser" k v
  = Ok (PDict (opt_insert "matchedUser" (PDict <$> fill k (Some v) m) rest)).
Proof.
  intros Hrest. unfold py_setdefault_setdefault, py_setdefault, fill.
  destruct m as [m|]; simpl.
  - rewrite lookup_insert_eq. simpl.
    destruct (m !! k); simpl; now rewrite insert_insert_eq.
  - rewrite Hrest. simpl. rewrite lookup_empty. simpl. now rewrite insert_insert_eq.
Qed.

Lemma ranking_from_data jd :
  (if match data_dict jd with Some _ => true | None => false end
   then d <- py_getitem (PDict jd) "data";; py_get d "userContestRanking"
   else Ok PNone)
  = Ok (match data_dict jd with
        | Some d => get_val d "userContestRanking"
        | None => PNone
        end).
Proof.
  unfold data_dict. simpl py_getitem.
  destruct (jd !! "data") as [[| | | | | |d]|]; reflexivity.
Qed.

Lemma ranking_fallback jd ucr :
  (if if truthy ucr then false else true
   then py_or (py_get (PDict jd) "userContestRanking")
              (py_get (PDict jd) "userContestRankingHistory")
   else Ok ucr)
  = Ok (if truthy ucr then ucr
        else or_val (get_val jd "userContestRanking")
                    (get_val jd "userContestRankingHistory")).
Proof.
  destruct (truthy ucr); [reflexivity|].
  now rewrite !py_get_dict, !py_or_val.
Qed.

Lemma store_ranking (m : option (gmap string pyval)) ucr :
  (if truthy ucr
   then py_setitem (PDict (opt_insert "matchedUser" (PDict <$> m) ∅))
          "userContestRanking" ucr
   else Ok (PDict (opt_insert "matchedUser" (PDict <$> m) ∅)))
  = Ok (PDict (opt_insert "matchedUser" (PDict <$> m)
                 (opt_insert "userContestRanking" (truthy_opt ucr) ∅))).
Proof.
  unfold truthy_opt. destruct (truthy ucr); [|reflexivity].
  destruct m as [m|]; simpl; [|reflexivity].
  now rewrite insert_insert_ne.
Qed.

Lemma copy_key_dict jd out k :
  copy_key (PDict jd) (PDict out) k = Ok (PDict (opt_insert k (jd !! k) out)).
Proof.
  unfold copy_key. rewrite py_in_dict, bind_Ok. simpl.
  now destruct (jd !! k).
Qed.

Lemma ranking_rest_no_user ucr :
  opt_insert "userContestRanking" (truthy_opt ucr) ∅ !! "matchedUser" = None.
Proof.
  unfold truthy_opt. destruct (truthy ucr); simpl; [|apply lookup_empty].
  now rewrite lookup_insert_ne.
Qed.

(** On a dictionary the normaliser returns, and returns [norm_map]. *)
Lemma normalize_dict jd :
  _normalize_leetcode_json (PDict jd) = Ok (PDict (norm_map jd)).
Proof.
  unfold _normalize_leetcode_json.
  change (isinstance_dict (PDict jd)) with true.
  cbv beta iota zeta delta [negb].
  rewrite !has_data_dict_eq, bind_Ok.
  rewrite user_from_data, bind_Ok, user_fallback, bind_Ok.
  fold (found_user jd).
  rewrite take_user_record, bind_Ok. fold (user_record jd).
  rewrite !py_in_dict, bind_Ok.
  assert ((if match jd !! "submitStatsGlobal" with Some _ => true | None => false end
           then v <- py_get (PDict jd) "submitStatsGlobal";;
                py_setdefault_setitem
                  (PDict (opt_insert "matchedUser" (PDict <$> user_record jd) ∅))
                  "matchedUser" "submitStatsGlobal" v
           else Ok (PDict (opt_insert "matchedUser" (PDict <$> user_record jd) ∅)))
          = Ok (PDict (opt_insert "matchedUser"
                  (PDict <$> overwrite "submitStatsGlobal" (jd !! "submitStatsGlobal")
                               (user_record jd)) ∅))) as ->.
  { rewrite py_get_dict, bind_Ok. unfold get_val.
    destruct (jd !! "submitStatsGlobal"); [|reflexivity].
    now rewrite top_level_overwrite by apply lookup_empty. }
  rewrite !bind_Ok.
  set (m1 := overwrite "submitStatsGlobal" (jd !! "submitStatsGlobal") (user_record jd)).
  assert ((if match jd !! "submitStats" with Some _ => true | None => false end
           then v <- py_get (PDict jd) "submitStats";;
                py_setdefault_setitem
                  (PDict (opt_insert "matchedUser" (PDict <$> m1) ∅))
                  "matchedUser" "submitStats" v
           else Ok (PDict (opt_insert "matchedUser" (PDict <$> m1) ∅)))
          = Ok (PDict (opt_insert "matchedUser"
                  (PDict <$> overwrite "submitStats" (jd !! "submitStats") m1) ∅))) as ->.
  { rewrite py_get_dict, bind_Ok. unfold get_val.
    destruct (jd !! "submitStats"); [|reflexivity].
    now rewrite top_level_overwrite by apply lookup_empty. }
  rewrite !bind_Ok.
  set (m2 := overwrite "submitStats" (jd !! "submitStats") m1).
  rewrite ranking_from_data, bind_Ok, ranking_fallback, bind_Ok.
  fold (norm_ranking jd).
  rewrite store_ranking, !bind_Ok.
  set (rest := opt_insert "userContestRanking" (truthy_opt (norm_ranking jd)) ∅).
  assert ((if match jd !! "submissionCalendar" with Some _ => true | None => false end
           then v <- py_get (PDict jd) "submissionCalendar";;
                py_setdefault_setdefault
                  (PDict (opt_insert "matchedUser" (PDict <$> m2) rest))
                  "matchedUser" "submissionCalendar" v
           else Ok (PDict (opt_insert "matchedUser" (PDict <$> m2) rest)))
          = Ok (PDict (opt_insert "matchedUser"
                  (PDict <$> fill "submissionCalendar" (jd !! "submissionCalendar") m2)
                  rest))) as ->.
  { rewrite py_get_dict, bind_Ok. unfold get_val.
    destruct (jd !! "submissionCalendar"); [|reflexivity].
    now rewrite top_level_fill by apply ranking_rest_no_user. }
  rewrite bind_Ok.
  unfold for_each. repeat (rewrite copy_key_dict, bind_Ok).
  reflexivity.
Qed.

(** ** Schema normaliser: lookups in the output *)

Lemma opt_insert_lookup_eq k o (m : gmap string pyval) :
  opt_insert k o m !! k = match o with Some v => Some v | None => m !! k end.
Proof. destruct o; simpl; [apply lookup_insert_eq|reflexivity]. Qed.

Lemma opt_insert_lookup_ne k k' o (m : gmap string pyval) :
  k <> k' -> opt_insert k o m !! k' = m !! k'.
Proof. intros Hne. destruct o; simpl; [now apply lookup_insert_ne|reflexivity]. Qed.

Ltac norm_lookup :=
  unfold norm_map;
  repeat first [rewrite opt_insert_lookup_ne by discriminate
               |rewrite opt_insert_lookup_eq];
  rewrite ?lookup_empty.

Lemma norm_map_user jd : norm_map jd !! "matchedUser" = PDict <$> norm_user jd.
Proof. norm_lookup. now destruct (norm_user jd). Qed.

Lemma norm_map_ranking jd :
  norm_map jd !! "userContestRanking" = truthy_opt (norm_ranking jd).
Proof. norm_lookup. now destruct (truthy_opt _). Qed.

Lemma norm_map_loose jd k :
  In k ["acceptanceRate"; "streak"; "activeDays"; "submissionCalendar"] ->
  norm_map jd !! k = jd !! k.
Proof.
  simpl. intros [<- | [<- | [<- | [<- | []]]]]; norm_lookup;
    now destruct (jd !! _).
Qed.

Lemma norm_map_other jd k : ~ In k payload_keys -> norm_map jd !! k = None.
Proof.
  intros Hk. unfold norm_map.
  rewrite !opt_insert_lookup_ne; [apply lookup_empty|..];
    intros <-; apply Hk; simpl; tauto.
Qed.

Lemma truthy_dict_lookup (m : gmap string pyval) k v :
  m !! k = Some v -> truthy (PDict m) = true.
Proof.
  intros Hk. simpl. destruct (map_to_list m) eqn:E; [|reflexivity].
  apply map_to_list_empty_iff in E. subst. now rewrite lookup_empty in Hk.
Qed.

Lemma norm_user_truthy jd m : norm_user jd = Some m -> truthy (PDict m) = true.
Proof.
  unfold norm_user, fill, overwrite, user_record.
  destruct (jd !! "submissionCalendar") as [c|].
  { intros [= <-]. set (m' := default ∅ _).
    destruct (m' !! "submissionCalendar") eqn:E.
    - now apply truthy_dict_lookup with (k := "submissionCalendar") (v := p).
    - apply truthy_dict_lookup with (k := "submissionCalendar") (v := c).
      apply lookup_insert_eq. }
  destruct (jd !! "submitStats") as [s|].
  { intros [= <-]. apply truthy_dict_lookup with (k := "submitStats") (v := s).
    apply lookup_insert_eq. }
  destruct (jd !! "submitStatsGlobal") as [g|].
  { intros [= <-]. apply truthy_dict_lookup with (k := "submitStatsGlobal") (v := g).
    apply lookup_insert_eq. }
  destruct (found_user jd); try discriminate.
  destruct (truthy (PDict d)) eqn:E; [|discriminate]. now intros [= <-].
Qed.

Lemma norm_user_has_calendar jd c m :
  jd !! "submissionCalendar" = Some c -> norm_user jd = Some m ->
  is_Some (m !! "submissionCalendar").
Proof.
  unfold norm_user, fill. intros ->. intros [= <-].
  set (m' := default ∅ _). destruct (m' !! "submissionCalendar") eqn:E.
  - rewrite E. eauto.
  - rewrite lookup_insert_eq. eauto.
Qed.

Lemma norm_user_calendar_some jd c :
  jd !! "submissionCalendar" = Some c -> is_Some (norm_user jd).
Proof. unfold norm_user, fill. intros ->. eauto. Qed.

(** ** Schema normaliser: idempotence *)

Lemma norm_map_data jd : data_dict (norm_map jd) = None.
Proof. unfold data_dict. rewrite norm_map_other; [reflexivity|]. simpl. intuition discriminate. Qed.

Lemma norm_user_idem jd : norm_user (norm_map jd) = norm_user jd.
Proof.
  assert (user_record (norm_map jd) = norm_user jd) as Hrec.
  { unfold user_record, found_user. rewrite norm_map_data. simpl truthy. cbv iota.
    unfold get_val. rewrite norm_map_user.
    rewrite (norm_map_other jd "user") by (simpl; intuition discriminate).
    rewrite (norm_map_other jd "profile") by (simpl; intuition discriminate).
    destruct (norm_user jd) as [m|] eqn:E; [|reflexivity].
    pose proof (norm_user_truthy jd m E) as Ht.
    cbn [fmap option_fmap option_map default]. unfold or_val, id.
    rewrite !Ht. cbv iota.
    change (match map_to_list m with [] => false | _ :: _ => true end)
      with (truthy (PDict m)).
    now rewrite Ht. }
  unfold norm_user at 1. rewrite Hrec.
  rewrite (norm_map_other jd "submitStatsGlobal") by (simpl; intuition discriminate).
  rewrite (norm_map_other jd "submitStats") by (simpl; intuition discriminate).
  rewrite norm_map_loose by (simpl; tauto).
  unfold overwrite. destruct (jd !! "submissionCalendar") as [c|] eqn:Ec; [|reflexivity].
  destruct (norm_user_calendar_some jd c Ec) as [m Hm].
  destruct (norm_user_has_calendar jd c m Ec Hm) as [v Hv].
  rewrite Hm. unfold fill. simpl. now rewrite Hv.
Qed.

Lemma norm_ranking_idem jd :
  truthy_opt (norm_ranking (norm_map jd)) = truthy_opt (norm_ranking jd).
Proof.
  unfold norm_ranking at 1. rewrite norm_map_data. simpl truthy. cbv iota.
  unfold get_val. rewrite norm_map_ranking.
  rewrite (norm_map_other jd "userContestRankingHistory")
    by (simpl; intuition discriminate).
  unfold truthy_opt, or_val. destruct (truthy (norm_ranking jd)) eqn:E; simpl.
  - now rewrite E, E.
  - reflexivity.
Qed.

Lemma norm_map_idem jd : norm_map (norm_map jd) = norm_map jd.
Proof.
  unfold norm_map at 1.
  rewrite norm_user_idem, norm_ranking_idem.
  rewrite !norm_map_loose by (simpl; tauto).
  reflexivity.
Qed.

Lemma normalize_non_dict j :
  isinstance_dict j = false -> _normalize_leetcode_json j = Ok (PDict ∅).
Proof. intros H. unfold _normalize_leetcode_json. now rewrite H. Qed.

Lemma norm_map_empty : norm_map ∅ = ∅.
Proof. vm_compute. reflexivity. Qed.

Lemma normalize_returns j :
  exists out, _normalize_leetcode_json j = Ok (PDict out)
              /\ (isinstance_dict j = false -> out = ∅)
              /\ (forall jd, j = PDict jd -> out = norm_map jd).
Proof.
  destruct j as [| | | | | |jd];
    try (exists ∅; split; [now apply normalize_non_dict|];
         split; [reflexivity|discriminate]).
  exists (norm_map jd). split; [apply normalize_dict|].
  split; [discriminate|]. now intros ? [= <-].
Qed.

(** C2: normalising the normaliser's output gives that output again. *)
Theorem normalize_idempotent (j : pyval) :
  bind (_normalize_leetcode_json j) _normalize_leetcode_json
  = _normalize_leetcode_json j
  /\ exists out, _normalize_leetcode_json j = Ok out
                 /\ _normalize_leetcode_json out = Ok out.
Proof.
  destruct (normalize_returns j) as (out & Hj & Hnd & Hd).
  assert (_normalize_leetcode_json (PDict out) = Ok (PDict out)) as Hout.
  { rewrite normalize_dict. do 2 f_equal.
    destruct j as [| | | | | |jd];
      try (rewrite Hnd by reflexivity; apply norm_map_empty).
    rewrite (Hd jd eq_refl). apply norm_map_idem. }
  split.
  - now rewrite Hj, bind_Ok.
  - eauto.
Qed.

Lemma norm_user_absent jd :
  (forall k, In k user_keys -> jd !! k = None) -> norm_user jd = None.
Proof.
  intros H. unfold norm_user, user_record, found_user, data_dict, get_val.
  rewrite !H by (simpl; tauto). reflexivity.
Qed.

Lemma norm_ranking_absent jd :
  (forall k, In k ranking_keys -> jd !! k = None) ->
  truthy_opt (norm_ranking jd) = None.
Proof.
  intros H. unfold norm_ranking, data_dict, get_val.
  rewrite !H by (simpl; tauto). reflexivity.
Qed.

(** C6: on every value the normaliser returns a dictionary, and the
    empty one when the input is not a dictionary.  For a dictionary input
    the output has no key beyond the six payload keys; a loose field is
    present in the output exactly as it is in the input; no contest
    ranking is set when the input has none of the keys it is read from,
    and no matched user when the input has none of the keys a user record
    is built from. *)
Theorem normalize_total (j : pyval) :
  exists out,
    _normalize_leetcode_json j = Ok (PDict out)
    /\ (isinstance_dict j = false -> out = ∅)
    /\ (forall jd, j = PDict jd ->
          (forall k, ~ In k payload_keys -> out !! k = None)
          /\ (forall k, In k loose_keys -> out !! k = jd !! k)
          /\ ((forall k, In k ranking_keys -> jd !! k = None) ->
                out !! "userContestRanking" = None)
          /\ ((forall k, In k user_keys -> jd !! k = None) ->
                out !! "matchedUser" = None)).
Proof.
  destruct (normalize_returns j) as (out & Hj & Hnd & Hd).
  exists out. split; [exact Hj|]. split; [exact Hnd|].
  intros jd ->. rewrite (Hd jd eq_refl).
  split; [apply norm_map_other|].
  split; [apply norm_map_loose|].
  split.
  - intros H. now rewrite norm_map_ranking, norm_ranking_absent.
  - intros H. now rewrite norm_map_user, norm_user_absent.
Qed.

Lemma normalize_total_witness :
  exists out,
    _normalize_leetcode_json (dict [("streak", PInt 3); ("junk", PList [PNone])])
    = Ok (PDict out)
    /\ out !! "junk" = None
    /\ out !! "streak" = Some (PInt 3)
    /\ out !! "activeDays" = None
    /\ out !! "userContestRanking" = None
    /\ out !! "matchedUser" = None.
Proof.
  destruct (normalize_total (dict [("streak", PInt 3); ("junk", PList [PNone])]))
    as (out & Hj & _ & Hd).
  destruct (Hd _ eq_refl) as (Hother & Hloose & Hrank & Huser).
  exists out. split; [exact Hj|].
  split; [apply Hother; simpl; intuition discriminate|].
  split; [rewrite Hloose by (simpl; tauto); reflexivity|].
  split; [rewrite Hloose by (simpl; tauto); reflexivity|].
  split.
  - apply Hrank. simpl. intros k [<- | [<- | [<- | []]]]; reflexivity.
  - apply Huser. simpl.
    intros k [<- | [<- | [<- | [<- | [<- | [<- | [<- | []]]]]]]]; reflexivity.
Defined.

(** ** Schema normaliser: statistics found at both levels *)

Lemma norm_user_top_level jd k v :
  In k ["submitStatsGlobal"; "submitStats"] ->
  exists m, norm_user (<[k := v]> jd) = Some m /\ m !! k = Some v.
Proof.
  intros Hk. unfold norm_user.
  set (jd' := <[k := v]> jd).
  assert (exists m1, overwrite "submitStats" (jd' !! "submitStats")
            (overwrite "submitStatsGlobal" (jd' !! "submitStatsGlobal")
               (user_record jd')) = Some m1 /\ m1 !! k = Some v) as (m1 & -> & Hm1).
  { simpl in Hk. destruct Hk as [<- | [<- | []]].
    - unfold jd' at 2. rewrite lookup_insert_eq. cbn [overwrite].
      destruct (jd' !! "submitStats"); cbn [overwrite default]; eexists; split;
        try reflexivity.
      + rewrite lookup_insert_ne by discriminate. apply lookup_insert_eq.
      + apply lookup_insert_eq.
    - unfold jd' at 1. rewrite lookup_insert_eq. cbn [overwrite].
      eexists; split; [reflexivity|]. apply lookup_insert_eq. }
  unfold fill. destruct (jd' !! "submissionCalendar"); [|eauto].
  cbn [default from_option id]. eexists. split; [reflexivity|].
  destruct (m1 !! "submissionCalendar"); [exact Hm1|].
  rewrite lookup_insert_ne; [exact Hm1|].
  simpl in Hk. destruct Hk as [<- | [<- | []]]; discriminate.
Qed.

(** C5 fails on the code: a statistics record at top level replaces the
    one the user record already holds under the same key, whatever either
    contains.  With a populated record at the user level and an empty one
    at top level the output keeps the empty one, and the extractor, which
    reports a total of 10 for the user-level record alone, then reports
    none.  The same holds for every raw dictionary: whatever sits under a
    top-level statistics key ends up under that key of the output's user
    record. *)
Theorem normalizer_top_level_overwrites :
  _normalize_leetcode_json raw_both_levels
  = Ok (dict [("matchedUser", dict [("submitStatsGlobal", dict [])])])
  /\ _normalize_leetcode_json raw_user_level
     = Ok (dict [("matchedUser", dict [("submitStatsGlobal", stats_all_10)])])
  /\ (nj <- _normalize_leetcode_json raw_both_levels;;
      r <- _extract_stats_from_normalized no_json nj "alice";;
      report_field r "totalSolved") = Ok (PInt 0)
  /\ (nj <- _normalize_leetcode_json raw_user_level;;
      r <- _extract_stats_from_normalized no_json nj "alice";;
      report_field r "totalSolved") = Ok (PInt 10)
  /\ (forall (jd : gmap string pyval) (v : pyval),
        exists out m,
          _normalize_leetcode_json (PDict (<["submitStatsGlobal" := v]> jd))
          = Ok (PDict out)
          /\ out !! "matchedUser" = Some (PDict m)
          /\ m !! "submitStatsGlobal" = Some v)
  /\ (forall (jd : gmap string pyval) (v : pyval),
        exists out m,
          _normalize_leetcode_json (PDict (<["submitStats" := v]> jd)) = Ok (PDict out)
          /\ out !! "matchedUser" = Some (PDict m)
          /\ m !! "submitStats" = Some v).
Proof.
  split; [vm_compute; reflexivity|].
  split; [vm_compute; reflexivity|].
  split; [vm_compute; reflexivity|].
  split; [vm_compute; reflexivity|].
  split; intros jd v.
  - destruct (norm_user_top_level jd "submitStatsGlobal" v) as (m & Hm & Hv);
      [simpl; tauto|].
    exists (norm_map (<["submitStatsGlobal" := v]> jd)), m.
    split; [apply normalize_dict|]. split; [|exact Hv].
    now rewrite norm_map_user, Hm.
  - destruct (norm_user_top_level jd "submitStats" v) as (m & Hm & Hv);
      [simpl; tauto|].
    exists (norm_map (<["submitStats" := v]> jd)), m.
    split; [apply normalize_dict|]. split; [|exact Hv].
    now rewrite norm_map_user, Hm.
Qed.

(** ** Strategy cascade: what a block can return *)

Lemma returns_only_continue P : returns_only P (Ok Continue).
Proof. intros v H. discriminate H. Qed.

Lemma returns_only_raise P e : returns_only P (Raise e).
Proof. intros v H. discriminate H. Qed.

Lemma returns_only_return (P : pyval -> Prop) v : P v -> returns_only P (Ok (Return v)).
Proof. intros H w [= <-]. exact H. Qed.

Lemma returns_only_bind {A} P (m : res A) (f : A -> res flow) :
  (forall a, m = Ok a -> returns_only P (f a)) -> returns_only P (bind m f).
Proof.
  intros H v Hv. apply bind_Ok_inv in Hv as (a & Ha & Hv). exact (H a Ha v Hv).
Qed.

Lemma returns_only_if P (b : bool) x y :
  (b = true -> returns_only P x) -> (b = false -> returns_only P y) ->
  returns_only P (if b then x else y).
Proof. destruct b; auto. Qed.

Lemma returns_only_try P c h :
  returns_only P c -> returns_only P h -> returns_only P (try_except c h).
Proof.
  intros Hc Hh v. unfold try_except. destruct c as [f|e]; [apply Hc|apply Hh].
Qed.

Lemma returns_only_and_then P r k :
  returns_only P r -> returns_only P k -> returns_only P (and_then r k).
Proof.
  intros Hr Hk. unfold and_then. apply returns_only_bind.
  intros [w|] Hf; [|exact Hk].
  apply returns_only_return. now apply Hr.
Qed.

Lemma returns_only_for_flow {A} P (l : list A) body :
  (forall a, returns_only P (body a)) -> returns_only P (for_flow l body).
Proof.
  intros H. induction l as [|a l IH]; simpl.
  - apply returns_only_continue.
  - apply returns_only_and_then; [apply H|exact IH].
Qed.

Ltac flow_step :=
  match goal with
  | |- returns_only _ (Ok Continue) => apply returns_only_continue
  | |- returns_only _ (Raise _) => apply returns_only_raise
  | |- returns_only _ (try_except _ _) => apply returns_only_try
  | |- returns_only _ (and_then _ _) => apply returns_only_and_then
  | |- returns_only _ (bind _ _) => apply returns_only_bind; intros ? ?
  | |- returns_only _ (if _ then _ else _) => apply returns_only_if; intros ?
  | |- returns_only _ (match ?x with Return _ => _ | Continue => _ end) => destruct x
  | |- returns_only _ (let '(_, _) := ?x in _) => destruct x
  | |- returns_only _ (Ok (Return _)) => apply returns_only_return
  end.

(** ** Strategy cascade: canonical envelopes *)

Lemma canonical_template u : is_canonical (leetcode_template u) = true.
Proof. vm_compute. reflexivity. Qed.

Lemma canonical_extract_result u st acc rk rep con str tad cal :
  is_canonical (extract_result u st acc rk rep con str tad cal) = true.
Proof.
  unfold extract_result.
  generalize (negb (has_stats st)), (error_message st cal rk). intros b msg.
  destruct st as [t e m h]. vm_compute. reflexivity.
Qed.

Lemma canonical_extract json_loads nj u r :
  _extract_stats_from_normalized json_loads nj u = Ok r -> is_canonical r = true.
Proof.
  intros H. apply extract_inv in H as [-> | H].
  - apply canonical_template.
  - destruct H as (mu & ac & rows & st & acc & rk & rep & con & str & tad & cal & H).
    destruct H as (_ & _ & _ & _ & _ & _ & ->). apply canonical_extract_result.
Qed.

Lemma canonical_scraped u soup :
  returns_only (fun v => is_canonical v = true)
    (return_scraped (leetcode_template u) (_scrape_leetcode_html soup u)).
Proof.
  destruct soup as [t e m h rk rep].
  assert (exists v, return_scraped (leetcode_template u)
                      (_scrape_leetcode_html (Page t e m h rk rep) u) = Ok (Return v)
                    /\ is_canonical v = true) as (v & -> & Hv).
  { eexists. split; [vm_compute; reflexivity|]. vm_compute. reflexivity. }
  now apply returns_only_return.
Qed.

Lemma has_key_insert (d : gmap string pyval) k k' v :
  has_key d k' = true -> has_key (<[k := v]> d) k' = true.
Proof.
  unfold has_key. rewrite lookup_insert. case_decide; [reflexivity|].
  now destruct (d !! k').
Qed.

Lemma has_key_union (d e : gmap string pyval) k :
  has_key d k = true -> has_key (e ∪ d) k = true.
Proof.
  unfold has_key. intros H.
  destruct (d !! k) as [v|] eqn:E; [|discriminate].
  destruct ((e ∪ d) !! k) eqn:E'; [reflexivity|].
  apply lookup_union_None in E' as [_ E']. congruence.
Qed.

Lemma is_canonical_inv v :
  is_canonical v = true ->
  exists top rep, v = PDict top /\ has_key top "message" = true
    /\ top !! "report" = Some (PDict rep)
    /\ forallb (has_key rep) report_keys = true.
Proof.
  unfold is_canonical. destruct v as [| | | | | |top]; try discriminate.
  intros H. apply andb_true_iff in H as [Hm Hr].
  destruct (top !! "report") as [[| | | | | |rep]|] eqn:Hrep; try discriminate.
  exists top, rep. repeat split; assumption.
Qed.

Lemma is_canonical_intro (top rep : gmap string pyval) :
  has_key top "message" = true -> top !! "report" = Some (PDict rep) ->
  forallb (has_key rep) report_keys = true ->
  is_canonical (PDict top) = true.
Proof.
  intros Hm Hrep Hr. unfold is_canonical. now rewrite Hm, Hrep, Hr.
Qed.

Lemma forallb_has_key (rep rep' : gmap string pyval) :
  (forall k, has_key rep k = true -> has_key rep' k = true) ->
  forallb (has_key rep) report_keys = true ->
  forallb (has_key rep') report_keys = true.
Proof.
  intros H Hr. apply forallb_forall. intros x Hx. apply H.
  eapply forallb_forall in Hr; eauto.
Qed.

(** Writing into the report, or updating it, keeps an envelope canonical. *)
Lemma canonical_setitem_in r k v r' :
  is_canonical r = true -> py_setitem_in r "report" k v = Ok r' ->
  is_canonical r' = true.
Proof.
  intros H. apply is_canonical_inv in H as (top & rep & -> & Hm & Hrep & Hr).
  unfold py_setitem_in, py_getitem. rewrite Hrep, bind_Ok.
  unfold py_setitem. rewrite bind_Ok. intros [= <-].
  apply is_canonical_intro with (rep := <[k := v]> rep).
  - now apply has_key_insert.
  - apply lookup_insert_eq.
  - revert Hr. apply forallb_has_key. intros. now apply has_key_insert.
Qed.

Lemma canonical_update tpl upd r :
  is_canonical tpl = true ->
  (rep <- py_getitem tpl "report";;
   rep <- py_update rep upd;;
   py_setitem tpl "report" rep) = Ok r ->
  is_canonical r = true.
Proof.
  intros H. apply is_canonical_inv in H as (top & rep & -> & Hm & Hrep & Hr).
  unfold py_getitem. rewrite Hrep, bind_Ok.
  destruct upd as [| | | | | |e]; try discriminate.
  unfold py_update, py_setitem. rewrite bind_Ok. intros [= <-].
  apply is_canonical_intro with (rep := e ∪ rep).
  - now apply has_key_insert.
  - apply lookup_insert_eq.
  - revert Hr. apply forallb_has_key. intros. now apply has_key_union.
Qed.

Lemma canonical_merge_key mr r key r' :
  is_canonical r = true -> merge_key mr r key = Ok r' -> is_canonical r' = true.
Proof.
  intros Hr H. unfold merge_key in H.
  inv_bind H. inv_bind H. inv_bind H.
  destruct x1.
  - inv_bind H. inv_bind H. now apply (canonical_setitem_in r key x2 r').
  - now injection H as <-.
Qed.

Lemma canonical_merge mr keys : forall r r',
  is_canonical r = true -> for_each keys r (merge_key mr) = Ok r' ->
  is_canonical r' = true.
Proof.
  induction keys as [|k keys IH]; intros r r' Hr H; simpl in H.
  - now injection H as <-.
  - inv_bind H. apply (IH x r'); [|exact H].
    now apply (canonical_merge_key mr r k x).
Qed.

(** ** Strategy cascade: the blocks *)

Lemma carries_continue (P Q : pyval -> Prop) st : Q st -> carries P Q (Ok (Continue, st)).
Proof. intros H f st' [= <- <-]. split; [discriminate|exact H]. Qed.

Lemma carries_return (P Q : pyval -> Prop) v st :
  P v -> Q st -> carries P Q (Ok (Return v, st)).
Proof. intros Hv H f st' [= <- <-]. split; [now intros ? [= <-]|exact H]. Qed.

Lemma carries_bind {A} P Q (m : res A) (k : A -> res (flow * pyval)) :
  (forall a, m = Ok a -> carries P Q (k a)) -> carries P Q (bind m k).
Proof.
  intros H f st Hc. apply bind_Ok_inv in Hc as (a & Ha & Hc). exact (H a Ha f st Hc).
Qed.

Lemma carries_if P Q (b : bool) x y :
  (b = true -> carries P Q x) -> (b = false -> carries P Q y) ->
  carries P Q (if b then x else y).
Proof. destruct b; auto. Qed.

Lemma carries_try P Q c h : carries P Q c -> carries P Q h -> carries P Q (try_except c h).
Proof.
  intros Hc Hh f st. unfold try_except. destruct c as [p|e]; [apply Hc|apply Hh].
Qed.

Lemma carries_for_flow_st {A} P Q (l : list A) body :
  (forall st a, Q st -> carries P Q (body st a)) ->
  forall st, Q st -> carries P Q (for_flow_st l st body).
Proof.
  intros H. induction l as [|a l IH]; intros st Hst; simpl.
  - now apply carries_continue.
  - apply carries_bind. intros [[v|] st'] Hb.
    + destruct (H st a Hst _ _ Hb) as [Hv Hst']. apply carries_return; auto.
    + destruct (H st a Hst _ _ Hb) as [_ Hst']. now apply IH.
Qed.

Lemma for_flow_st_returns {A} (l : list A) body :
  (forall st a, returns (body st a)) -> forall st, returns (for_flow_st l st body).
Proof.
  intros H. induction l as [|a l IH]; intros st; simpl; [unfold returns; eauto|].
  destruct (H st a) as [[[v|] st'] ->]; rewrite bind_Ok; [unfold returns; eauto|apply IH].
Qed.

Ltac carry_step :=
  match goal with
  | |- carries _ _ (Ok (Continue, _)) => apply carries_continue
  | |- carries _ _ (Ok (Return _, _)) => apply carries_return
  | |- carries _ _ (try_except _ _) => apply carries_try
  | |- carries _ _ (bind _ _) => apply carries_bind; intros ? ?
  | |- carries _ _ (if _ then _ else _) => apply carries_if; intros ?
  end.

Lemma returns_only_impl (P Q : pyval -> Prop) c :
  (forall v, P v -> Q v) -> returns_only P c -> returns_only Q c.
Proof. intros H Hc v Hv. apply H, Hc, Hv. Qed.

Lemma canonical_truthy v : is_canonical v = true -> truthy v = true.
Proof.
  intros H. apply is_canonical_inv in H as (top & rep & -> & _ & Hrep & _).
  now apply truthy_dict_lookup with (k := "report") (v := PDict rep).
Qed.

Lemma none_or_canonical_truthy v :
  none_or_canonical v = true -> truthy v = true -> is_canonical v = true.
Proof. destruct v; simpl; try discriminate; auto. Qed.

Section CascadeFacts.

Variable json_loads : string -> res pyval.
Variable float_round : spec_float -> Z -> spec_float.
Variable o : upstream.
Variable u : string.

Lemma browser_accept_canonical b normalized :
  returns_only canonical (browser_accept json_loads b normalized u).
Proof.
  unfold browser_accept. repeat flow_step.
  eapply canonical_extract; eassumption.
Qed.

Lemma browser_inner_canonical b :
  returns_only canonical (browser_inner json_loads b u (leetcode_template u)).
Proof.
  unfold browser_inner.
  repeat first [flow_step | apply browser_accept_canonical | apply canonical_scraped].
Qed.

Lemma strategy_browser_canonical :
  returns_only canonical (strategy_browser json_loads o u (leetcode_template u)).
Proof.
  unfold strategy_browser. cbv zeta.
  flow_step; [|flow_step]. flow_step; [|flow_step].
  flow_step. flow_step. flow_step. flow_step.
  intros v [= ->].
  match goal with
  | H : match ?r with Return _ => _ | Continue => _ end = Ok (Return v) |- _ =>
      destruct r as [w|]; [injection H as <-|inv_bind H; discriminate H]
  end.
  match goal with H : try_except _ _ = Ok (Return _) |- _ => revert H end.
  apply returns_only_try.
  - apply browser_inner_canonical.
  - apply returns_only_continue.
Qed.

Lemma strategy_browser_returns tpl :
  returns (strategy_browser json_loads o u tpl).
Proof.
  unfold strategy_browser, returns, try_except.
  destruct (PLAYWRIGHT_AVAILABLE o); [|eauto].
  destruct (bind _ _); eauto.
Qed.

Lemma graphql_attempt_sat i :
  returns_only (fun v => canonical v /\ validated v) (graphql_attempt json_loads o u i).
Proof.
  unfold graphql_attempt. repeat flow_step.
  split; [eapply canonical_extract; eassumption|].
  unfold validated. congruence.
Qed.

Lemma graphql_attempt_returns i : returns (graphql_attempt json_loads o u i).
Proof. unfold graphql_attempt, returns, try_except. destruct (bind _ _); eauto. Qed.

Lemma and_then_returns r k : returns r -> returns k -> returns (and_then r k).
Proof. intros [[v|] ->] [f ->]; unfold returns; simpl; eauto. Qed.

Lemma for_flow_returns {A} (l : list A) body :
  (forall a, returns (body a)) -> returns (for_flow l body).
Proof.
  intros H. induction l as [|a l IH]; simpl; [unfold returns; eauto|].
  now apply and_then_returns.
Qed.

Lemma strategy_graphql_sat :
  returns_only (fun v => canonical v /\ validated v) (strategy_graphql json_loads o u).
Proof. apply returns_only_for_flow, graphql_attempt_sat. Qed.

Lemma strategy_graphql_returns : returns (strategy_graphql json_loads o u).
Proof. apply for_flow_returns, graphql_attempt_returns. Qed.

Lemma scraped_validated soup v :
  return_scraped (leetcode_template u) (_scrape_leetcode_html soup u) = Ok (Return v) ->
  report_has_total v = total_solved_positive (_scrape_leetcode_html soup u).
Proof.
  destruct soup as [t e m h rk rep].
  assert (exists w, return_scraped (leetcode_template u)
                      (_scrape_leetcode_html (Page t e m h rk rep) u) = Ok (Return w)
                    /\ report_has_total w
                       = total_solved_positive
                           (_scrape_leetcode_html (Page t e m h rk rep) u))
    as (w & -> & Hw).
  { eexists. split; [vm_compute; reflexivity|]. vm_compute. reflexivity. }
  now intros [= <-].
Qed.

Lemma strategy_html_sat :
  returns_only (fun v => canonical v /\ validated v)
    (strategy_html o u (leetcode_template u)).
Proof.
  unfold strategy_html. repeat first [flow_step | cbv zeta].
  intros v Hv. split; [eapply canonical_scraped; exact Hv|].
  unfold validated. rewrite (scraped_validated _ _ Hv).
  match goal with
  | H : (if truthy ?s then _ else _) = Ok ?c, Hc : ?c = true |- _ =>
      rewrite Hc in H; destruct (truthy s); [exact H|discriminate H]
  end.
Qed.

Lemma strategy_html_returns tpl : returns (strategy_html o u tpl).
Proof. unfold strategy_html, returns, try_except. destruct (bind _ _); eauto. Qed.

Lemma stats_api_return totalSolved easySolved mediumSolved hardSolved acceptanceRate
    ranking reputation contributionPoints submission_cal :
  exists v,
    (rep <- py_getitem (leetcode_template u) "report";;
     rep <- py_update rep (dict [
       ("error", PBool false);
       ("username", PStr u);
       ("totalSolved", totalSolved);
       ("easySolved", easySolved);
       ("mediumSolved", mediumSolved);
       ("hardSolved", hardSolved);
       ("acceptanceRate", acceptanceRate);
       ("ranking", ranking);
       ("reputation", reputation);
       ("contributionPoints", contributionPoints);
       ("streak", PInt 0);
       ("totalActiveDays", PInt 0);
       ("submissionCalendar", submission_cal)]);;
     tpl <- py_setitem (leetcode_template u) "report" rep;;
     Ok (Return tpl)) = Ok (Return v)
    /\ is_canonical v = true
    /\ report_has_total v = py_gt0 totalSolved.
Proof.
  eexists. split; [vm_compute; reflexivity|].
  split; vm_compute; reflexivity.
Qed.

Lemma stats_api_body_sat j :
  returns_only (fun v => canonical v /\ validated v)
    (stats_api_body json_loads float_round j u (leetcode_template u)).
Proof.
  unfold stats_api_body.
  apply returns_only_bind; intros status Hs.
  apply returns_only_bind; intros c Hc.
  destruct c; [|apply returns_only_continue].
  apply returns_only_bind; intros cal Hcal. cbv zeta.
  apply returns_only_bind; intros totalSolved Ht.
  do 8 (apply returns_only_bind; intros ? ?).
  match goal with
  | |- returns_only _ (bind _ (fun rep => bind (py_update rep (dict [_; _;
         (_, ?t); (_, ?e); (_, ?m); (_, ?h); (_, ?a); (_, ?rk); (_, ?rp); (_, ?cp);
         _; _; (_, ?sc)])) _)) =>
      destruct (stats_api_return t e m h a rk rp cp sc) as (v & -> & Hcan & Hval)
  end.
  apply returns_only_return. split; [exact Hcan|].
  unfold validated. rewrite Hval.
  destruct (py_eq_str status "success"); [|discriminate Hc].
  unfold total_solved_positive in Hc. now rewrite Ht, bind_Ok in Hc.
Qed.

Lemma strategy_stats_api_sat :
  returns_only (fun v => canonical v /\ validated v)
    (strategy_stats_api json_loads float_round o u (leetcode_template u)).
Proof.
  unfold strategy_stats_api.
  repeat first [apply stats_api_body_sat | flow_step].
Qed.

Lemma strategy_stats_api_returns tpl :
  returns (strategy_stats_api json_loads float_round o u tpl).
Proof. unfold strategy_stats_api, returns, try_except. destruct (bind _ _); eauto. Qed.

Lemma mirror_attempt_sat mr base :
  none_or_canonical mr = true ->
  carries (fun v => canonical v /\ validated v) (fun st => none_or_canonical st = true)
    (mirror_attempt json_loads o u mr base).
Proof.
  intros Hmr. unfold mirror_attempt. cbv zeta.
  repeat carry_step; try exact Hmr.
  - split; [eapply canonical_extract; eassumption|]. unfold validated. congruence.
  - match goal with
    | H : _extract_stats_from_normalized _ _ _ = Ok ?r |- none_or_canonical ?r = true =>
        apply canonical_extract in H; destruct r; try discriminate H; exact H
    end.
Qed.

Lemma mirror_attempt_returns mr base : returns (mirror_attempt json_loads o u mr base).
Proof. unfold mirror_attempt, returns, try_except. destruct (bind _ _); eauto. Qed.

Lemma strategy_mirrors_sat :
  carries (fun v => canonical v /\ validated v) (fun st => none_or_canonical st = true)
    (strategy_mirrors json_loads o u).
Proof.
  unfold strategy_mirrors. apply carries_for_flow_st; [|reflexivity].
  intros st a Hst. now apply mirror_attempt_sat.
Qed.

Lemma strategy_mirrors_returns : returns (strategy_mirrors json_loads o u).
Proof. apply for_flow_st_returns. intros st a. apply mirror_attempt_returns. Qed.

Lemma graphql_retry_canonical mr :
  returns_only canonical (graphql_retry json_loads o u mr).
Proof.
  unfold graphql_retry. repeat flow_step.
  - eapply canonical_extract; eassumption.
  - eapply canonical_merge; [|eassumption]. eapply canonical_extract; eassumption.
Qed.

Lemma graphql_retry_returns mr : returns (graphql_retry json_loads o u mr).
Proof. unfold graphql_retry, returns, try_except. destruct (bind _ _); eauto. Qed.

Lemma mirror_without_total_returns mr :
  none_or_canonical mr = true -> returns (mirror_without_total mr).
Proof.
  intros Hmr. unfold mirror_without_total, returns.
  destruct (truthy mr) eqn:Ht; [|eauto].
  apply (none_or_canonical_truthy mr Hmr) in Ht.
  apply is_canonical_inv in Ht as (top & rep & -> & _ & Hrep & _).
  unfold py_getitem. rewrite Hrep, bind_Ok. simpl. eauto.
Qed.

Lemma or_return_ok (P : pyval -> Prop) r k :
  returns r -> returns_only P r -> (exists v, k = Ok v /\ P v) ->
  exists v, or_return r k = Ok v /\ P v.
Proof.
  intros [[w|] ->] Hr Hk; unfold or_return; rewrite bind_Ok; [|exact Hk].
  exists w. split; [reflexivity|]. now apply Hr.
Qed.

Lemma cascade_tail_ok mr :
  none_or_canonical mr = true ->
  exists v,
    (c <- mirror_without_total mr;;
     or_return (if c then graphql_retry json_loads o u mr else Ok Continue)
       (if truthy mr then Ok mr else
        tpl <- py_setitem_in (leetcode_template u) "report" "error" (PBool true);;
        Ok tpl)) = Ok v
    /\ canonical v.
Proof.
  intros Hmr. destruct (mirror_without_total_returns mr Hmr) as [c ->].
  rewrite bind_Ok. apply or_return_ok.
  - destruct c; [apply graphql_retry_returns|unfold returns; eauto].
  - destruct c; [apply graphql_retry_canonical|apply returns_only_continue].
  - destruct (truthy mr) eqn:Ht.
    + exists mr. split; [reflexivity|]. now apply none_or_canonical_truthy.
    + rewrite template_error_set, bind_Ok. eexists. split; [reflexivity|].
      apply canonical_template.
Qed.

Lemma fetch_leetcode_live_ok :
  exists env, fetch_leetcode_live json_loads float_round o u = Ok env /\ canonical env.
Proof.
  unfold fetch_leetcode_live. cbv zeta.
  apply or_return_ok;
    [apply strategy_browser_returns | apply strategy_browser_canonical |].
  apply or_return_ok; [apply strategy_graphql_returns | |].
  { eapply returns_only_impl; [|apply strategy_graphql_sat]. now intros v [H _]. }
  apply or_return_ok; [apply strategy_stats_api_returns | |].
  { eapply returns_only_impl; [|apply strategy_stats_api_sat]. now intros v [H _]. }
  apply or_return_ok; [apply strategy_html_returns | |].
  { eapply returns_only_impl; [|apply strategy_html_sat]. now intros v [H _]. }
  destruct strategy_mirrors_returns as [[f mr] Hm].
  destruct (strategy_mirrors_sat f mr Hm) as [Hf Hmr].
  rewrite Hm, bind_Ok.
  apply or_return_ok.
  - unfold returns; eauto.
  - intros v [= ->]. now apply Hf.
  - now apply cascade_tail_ok.
Qed.

(** When no block returns, the function ends in its last lines. *)
Lemma fetch_leetcode_live_exhausted mr :
  strategy_browser json_loads o u (leetcode_template u) = Ok Continue ->
  strategy_graphql json_loads o u = Ok Continue ->
  strategy_stats_api json_loads float_round o u (leetcode_template u) = Ok Continue ->
  strategy_html o u (leetcode_template u) = Ok Continue ->
  strategy_mirrors json_loads o u = Ok (Continue, mr) ->
  forall env, fetch_leetcode_live json_loads float_round o u = Ok env ->
    (truthy mr = false -> env = leetcode_template u)
    /\ (truthy mr = true -> mirror_without_total mr = Ok false -> env = mr)
    /\ (truthy mr = true -> mirror_without_total mr = Ok true ->
          forall f, graphql_retry json_loads o u mr = Ok f ->
            env = match f with Return r => r | Continue => mr end).
Proof.
  intros H1 H2 H3 H4 H5 env. unfold fetch_leetcode_live. cbv zeta.
  rewrite H1, H2, H3, H4, H5. unfold or_return at 1 2 3 4. rewrite !bind_Ok.
  unfold or_return at 1. rewrite bind_Ok.
  intros Henv. split; [|split].
  - intros Ht. unfold mirror_without_total in Henv. rewrite Ht in Henv.
    rewrite bind_Ok in Henv. unfold or_return in Henv.
    rewrite bind_Ok, template_error_set, bind_Ok in Henv. congruence.
  - intros Ht Hc. rewrite Hc, bind_Ok in Henv. unfold or_return in Henv.
    rewrite bind_Ok, Ht in Henv. congruence.
  - intros Ht Hc f Hf. rewrite Hc, bind_Ok, Hf in Henv. unfold or_return in Henv.
    rewrite bind_Ok in Henv. destruct f; [congruence|]. rewrite Ht in Henv. congruence.
Qed.
End CascadeFacts.

(** ** Strategy cascade: the merge after the GraphQL retry *)

Lemma report_field_dict (top rep : gmap string pyval) k :
  top !! "report" = Some (PDict rep) ->
  report_field (PDict top) k
  = match rep !! k with Some v => Ok v | None => Raise KeyError end.
Proof. intros H. unfold report_field, py_getitem. now rewrite H, bind_Ok. Qed.

Lemma has_key_lookup (d : gmap string pyval) k :
  has_key d k = true -> exists v, d !! k = Some v.
Proof. unfold has_key. destruct (d !! k); [eauto|discriminate]. Qed.

Lemma merge_key_spec mr result key r' :
  is_canonical mr = true -> is_canonical result = true -> In key report_keys ->
  merge_key mr result key = Ok r' ->
  is_canonical r' = true
  /\ (exists mv rv, report_field mr key = Ok mv /\ report_field result key = Ok rv
        /\ report_field r' key = Ok (merged_value mv rv))
  /\ (forall k, k <> key -> report_field r' k = report_field result k).
Proof.
  intros Hmr Hres Hkey H.
  split; [now apply (canonical_merge_key mr result key r')|].
  apply is_canonical_inv in Hmr as (mtop & mrep & -> & _ & Hmrep & Hmk).
  apply is_canonical_inv in Hres as (top & rep & -> & _ & Hrep & Hk).
  destruct (has_key_lookup mrep key) as [mv Hmv].
  { eapply forallb_forall in Hmk; eauto. }
  destruct (has_key_lookup rep key) as [rv Hrv].
  { eapply forallb_forall in Hk; eauto. }
  unfold merge_key, py_getitem, py_get, py_get_default in H.
  rewrite Hmrep, !bind_Ok, Hmv in H. cbn [default from_option id] in H.
  rewrite Hrep, !bind_Ok, Hrv in H. cbn [default from_option id] in H.
  rewrite !(report_field_dict _ _ _ Hmrep), !(report_field_dict _ _ _ Hrep), Hmv, Hrv.
  unfold merged_value. revert H.
  destruct (truthy mv) eqn:Emv, (truthy rv) eqn:Erv; cbn [andb negb];
    rewrite ?bind_Ok; intros H.
  2:{ unfold py_setitem_in, py_getitem, py_setitem in H.
      rewrite Hrep, !bind_Ok in H. injection H as <-.
      assert ((<["report" := PDict (<[key := mv]> rep)]> top) !! "report"
              = Some (PDict (<[key := mv]> rep))) as Hr' by apply lookup_insert_eq.
      split.
      - exists mv, rv. rewrite Emv, Erv. repeat split.
        now rewrite (report_field_dict _ _ _ Hr'), lookup_insert_eq.
      - intros k Hne.
        rewrite (report_field_dict _ _ _ Hr'), (report_field_dict _ _ _ Hrep).
        now rewrite lookup_insert_ne by congruence. }
  all: injection H as <-; split;
    [exists mv, rv; rewrite Emv, ?Erv; repeat split;
     now rewrite (report_field_dict _ _ _ Hrep), Hrv
    |reflexivity].
Qed.

Lemma merge_spec mr result r :
  is_canonical mr = true -> is_canonical result = true ->
  for_each merge_keys result (merge_key mr) = Ok r ->
  is_canonical r = true
  /\ (forall k, In k merge_keys ->
        exists mv rv, report_field mr k = Ok mv /\ report_field result k = Ok rv
          /\ report_field r k = Ok (merged_value mv rv))
  /\ (forall k, ~ In k merge_keys -> report_field r k = report_field result k).
Proof.
  intros Hmr Hres H. unfold merge_keys in *. simpl in H.
  inv_bind H. rename x into r1. inv_bind H. rename x into r2.
  inv_bind H. rename x into r3. injection H as <-.
  destruct (merge_key_spec mr result "ranking" r1 Hmr Hres) as (C1 & M1 & O1);
    [simpl; tauto|exact E|].
  destruct (merge_key_spec mr r1 "reputation" r2 Hmr C1) as (C2 & M2 & O2);
    [simpl; tauto|exact E0|].
  destruct (merge_key_spec mr r2 "contributionPoints" r3 Hmr C2) as (C3 & M3 & O3);
    [simpl; tauto|exact E1|].
  split; [exact C3|]. split.
  - simpl. intros k [<- | [<- | [<- | []]]].
    + destruct M1 as (mv & rv & Hm & Hr & Hv). exists mv, rv.
      repeat split; try assumption.
      now rewrite O3, O2 by discriminate.
    + destruct M2 as (mv & rv & Hm & Hr & Hv). exists mv, rv.
      repeat split; try assumption.
      * now rewrite <- O1 by discriminate.
      * now rewrite O3 by discriminate.
    + destruct M3 as (mv & rv & Hm & Hr & Hv). exists mv, rv.
      repeat split; try assumption.
      now rewrite <- O1, <- O2 by discriminate.
  - simpl. intros k Hk.
    rewrite O3, O2, O1; [reflexivity|..]; intros ->; tauto.
Qed.

Lemma graphql_retry_spec json_loads o u mr :
  returns_only
    (fun r => exists nj result,
       _extract_stats_from_normalized json_loads nj u = Ok result
       /\ (validated result /\ r = result
           \/ for_each merge_keys result (merge_key mr) = Ok r))
    (graphql_retry json_loads o u mr).
Proof.
  unfold graphql_retry. repeat flow_step.
  - do 2 eexists. split; [eassumption|]. left. split; [|reflexivity].
    unfold validated. congruence.
  - do 2 eexists. split; [eassumption|]. right. eassumption.
Qed.

Lemma template_defaults u :
  (forall k, In k numeric_keys -> report_field (leetcode_template u) k = Ok (PInt 0))
  /\ report_field (leetcode_template u) "ranking" = Ok PNone
  /\ report_field (leetcode_template u) "submissionCalendar" = Ok (dict [])
  /\ report_field (leetcode_template u) "error" = Ok (PBool true).
Proof.
  split; [|repeat split; vm_compute; reflexivity].
  simpl. intros k H.
  repeat (destruct H as [<- | H]; [vm_compute; reflexivity|]).
  destruct H.
Qed.

Lemma all_down_template json_loads float_round u :
  fetch_leetcode_live json_loads float_round all_down u = Ok (leetcode_template u).
Proof. vm_compute. reflexivity. Qed.




(** * Further properties *)

(** ** Rate limiter: bound and history *)

Section RateLimiterHistory.

Variables (L P : Z).

Lemma popleft_expired_split now dq :
  exists popped,
    dq = (popped ++ popleft_expired P now dq)%list
    /\ Forall (fun t => (t <= now - inject_Z P)%Q) popped.
Proof.
  induction dq as [|t dq IH]; simpl.
  - exists []. split; [reflexivity|constructor].
  - destruct (Qle_bool t (now - inject_Z P)) eqn:E.
    + destruct IH as (popped & Hdq & Hall). exists (t :: popped). split.
      * simpl. now rewrite <- Hdq.
      * constructor; [now apply Qle_bool_iff|exact Hall].
    + exists []. split; [reflexivity|constructor].
Qed.

Lemma popleft_expired_length now dq :
  (List.length (popleft_expired P now dq) <= List.length dq)%nat.
Proof.
  destruct (popleft_expired_split now dq) as (popped & Hdq & _).
  rewrite Hdq at 2. rewrite length_app. lia.
Qed.

Lemma check_rate_limit_bounded (buckets : gmap string (list Q)) ip now :
  0 <= L -> buckets_bounded L buckets ->
  buckets_bounded L (snd (check_rate_limit L P buckets ip now)).
Proof.
  intros HL Hb. unfold check_rate_limit.
  set (dq := popleft_expired P now (default [] (buckets !! ip))).
  assert (Z.of_nat (List.length dq) <= L) as Hdq.
  { subst dq.
    pose proof (popleft_expired_length now (default [] (buckets !! ip))) as Hl.
    destruct (buckets !! ip) as [d|] eqn:E; simpl in *; [specialize (Hb ip d E)|]; lia. }
  destruct (Z.of_nat (List.length dq) >=? L) eqn:E; simpl;
    intros ip' dq'; rewrite lookup_insert; case_decide; intros Heq; simplify_eq;
    try (now apply (Hb ip')); [exact Hdq|].
  rewrite length_app. simpl. rewrite Z.geb_leb in E. apply Z.leb_gt in E. lia.
Qed.

Lemma check_rate_limit_calls_bounded calls :
  forall (buckets : gmap string (list Q)),
    0 <= L -> buckets_bounded L buckets ->
    buckets_bounded L (snd (check_rate_limit_calls L P buckets calls)).
Proof.
  induction calls as [|[ip now] calls IH]; intros buckets HL Hb; [exact Hb|].
  simpl. pose proof (check_rate_limit_bounded buckets ip now HL Hb) as Hb'.
  destruct (check_rate_limit L P buckets ip now) as [r buckets'].
  specialize (IH buckets' HL Hb').
  now destruct (check_rate_limit_calls L P buckets' calls).
Qed.

Lemma tracks_step (buckets : gmap string (list Q)) hist t ip now :
  (t <= now)%Q -> tracks P t buckets hist ->
  tracks P now (snd (check_rate_limit L P buckets ip now))
    (fun ip' => (hist ip' ++
       accepted_stamps ip' [(ip, now)]
         [fst (check_rate_limit L P buckets ip now)])%list).
Proof.
  intros Hle Htr ip'. destruct (Htr ip') as (dropped & Hh & Hd).
  assert (Forall (fun d => (d <= now - inject_Z P)%Q) dropped) as Hd'.
  { eapply Forall_impl; [exact Hd|]. intros x Hx. simpl in Hx. lra. }
  unfold check_rate_limit.
  destruct (popleft_expired_split now (default [] (buckets !! ip)))
    as (popped & Hdq & Hpop).
  set (dq := popleft_expired P now (default [] (buckets !! ip))) in *.
  destruct (String.eqb_spec ip ip') as [<- | Hne].
  - exists (dropped ++ popped)%list.
    split; [|apply Forall_app; split; assumption].
    destruct (Z.of_nat (List.length dq) >=? L); simpl;
      rewrite ?String.eqb_refl, lookup_insert_eq, Hh, Hdq; simpl;
      now rewrite <- ?app_assoc, ?app_nil_r.
  - exists dropped. split; [|exact Hd'].
    assert (String.eqb ip ip' = false) as Hf by now apply String.eqb_neq.
    destruct (Z.of_nat (List.length dq) >=? L); simpl;
      rewrite ?Hf, lookup_insert_ne by exact Hne;
      now rewrite ?app_nil_r.
Qed.

Lemma tracks_ext t (buckets : gmap string (list Q)) hist hist' :
  (forall ip, hist ip = hist' ip) -> tracks P t buckets hist ->
  tracks P t buckets hist'.
Proof. intros He Ht ip. rewrite <- He. apply Ht. Qed.

Lemma check_rate_limit_calls_tracks calls :
  forall (buckets : gmap string (list Q)) hist t0,
    buckets_ok t0 buckets -> tracks P t0 buckets hist ->
    nondecreasing_from t0 calls ->
    buckets_ok (last_time t0 calls) (snd (check_rate_limit_calls L P buckets calls))
    /\ tracks P (last_time t0 calls) (snd (check_rate_limit_calls L P buckets calls))
         (fun ip => (hist ip ++ accepted_stamps ip calls
                                 (fst (check_rate_limit_calls L P buckets calls)))%list).
Proof.
  induction calls as [|[ip0 now] calls IH]; intros buckets hist t0 Hok Htr Hnd.
  - simpl. split; [exact Hok|].
    eapply tracks_ext; [|exact Htr]. intros ip. now rewrite app_nil_r.
  - destruct Hnd as [Hle Hnd]. simpl.
    pose proof (check_rate_limit_ok L P buckets ip0 t0 now Hle Hok) as Hok'.
    pose proof (tracks_step buckets hist t0 ip0 now Hle Htr) as Htr'.
    destruct (check_rate_limit L P buckets ip0 now) as [r buckets'].
    simpl fst in Htr'. simpl snd in Htr', Hok'.
    destruct (IH buckets' _ now Hok' Htr' Hnd) as [Hok2 Htr2].
    destruct (check_rate_limit_calls L P buckets' calls) as [rs buckets''].
    simpl fst in *. simpl snd in *. split; [exact Hok2|].
    eapply tracks_ext; [|exact Htr2]. intros ip. simpl.
    rewrite <- app_assoc. f_equal.
    destruct r; [|reflexivity]. now destruct (String.eqb ip0 ip).
Qed.

Lemma filter_outside_window now (dropped : list Q) :
  Forall (fun d => (d <= now - inject_Z P)%Q) dropped ->
  List.filter (in_window P now) dropped = [].
Proof.
  induction 1 as [|d dropped Hd _ IH]; [reflexivity|].
  simpl. unfold in_window at 1. apply Qle_bool_iff in Hd. now rewrite Hd.
Qed.
End RateLimiterHistory.

(** X1: with a limit that is not negative, no sequence of calls, at
    whatever clock readings, makes a bucket longer than the limit. *)
Theorem rate_buckets_never_exceed_limit (L P : Z) (buckets : gmap string (list Q))
    (calls : list (string * Q)) :
  0 <= L -> buckets_bounded L buckets ->
  buckets_bounded L (snd (check_rate_limit_calls L P buckets calls)).
Proof. intros HL Hb. now apply check_rate_limit_calls_bounded. Qed.

Lemma buckets_bounded_empty L : buckets_bounded L ∅.
Proof. intros ip dq H. now rewrite lookup_empty in H. Qed.

Lemma rate_buckets_never_exceed_limit_witness :
  buckets_bounded 2 (snd (check_rate_limit_calls 2 60 ∅
    [("10.0.0.1", 5%Q); ("10.0.0.1", 3%Q); ("10.0.0.1", 4%Q); ("10.0.0.2", 1%Q)])).
Proof.
  apply rate_buckets_never_exceed_limit; [lia|apply buckets_bounded_empty].
Defined.

(** X2: started with no buckets and run at clock readings that never go
    back, the limiter lets a call in exactly when fewer than the limit of
    the same client's earlier accepted calls lie in the window that ends
    at the call; rejected calls do not count. *)
Theorem admission_by_history (L P : Z) (calls : list (string * Q)) (ip : string)
    (now t0 : Q) :
  nondecreasing_from t0 calls -> (last_time t0 calls <= now)%Q ->
  let run := check_rate_limit_calls L P ∅ calls in
  fst (check_rate_limit L P (snd run) ip now)
  = if Z.of_nat (List.length
         (List.filter (in_window P now) (accepted_stamps ip calls (fst run)))) <? L
    then Ok true
    else Raise (HTTPException 429 (rate_limit_detail L P)).
Proof.
  intros Hnd Hle run.
  destruct (check_rate_limit_calls_tracks L P calls ∅ (fun _ => []) t0) as [Hok Htr];
    [apply buckets_ok_empty | | exact Hnd |].
  { intros ip'. exists []. rewrite lookup_empty. split; [reflexivity|constructor]. }
  fold run in Hok, Htr.
  rewrite (check_rate_limit_sliding_window_spec L P (snd run) ip _ now Hok).
  destruct (Htr ip) as (dropped & Hh & Hd). simpl in Hh. rewrite Hh.
  rewrite List.filter_app, filter_outside_window, app_nil_l.
  - unfold sliding_window_spec. now destruct (_ <? _).
  - eapply Forall_impl; [exact Hd|]. intros x Hx. simpl in Hx. lra.
Qed.

Lemma admission_by_history_witness :
  let calls := [("10.0.0.1", 0%Q); ("10.0.0.1", 1%Q); ("10.0.0.1", 2%Q);
                ("10.0.0.2", 2%Q); ("10.0.0.1", 30%Q)] in
  let run := check_rate_limit_calls 2 60 ∅ calls in
  fst (check_rate_limit 2 60 (snd run) "10.0.0.1" 61)
  = if Z.of_nat (List.length
         (List.filter (in_window 60 61) (accepted_stamps "10.0.0.1" calls (fst run)))) <? 2
    then Ok true
    else Raise (HTTPException 429 (rate_limit_detail 2 60)).
Proof.
  intros calls run.
  apply (admission_by_history 2 60 calls "10.0.0.1" 61 0).
  - simpl. repeat split; vm_compute; discriminate.
  - vm_compute. discriminate.
Defined.

(** ** Rate limiter: clients are independent *)

Section RateLimiterClients.

Variables (L P : Z).

Lemma check_rate_limit_other (buckets : gmap string (list Q)) ip ip' now :
  ip <> ip' ->
  snd (check_rate_limit L P buckets ip now) !! ip' = buckets !! ip'.
Proof.
  intros Hne. unfold check_rate_limit.
  destruct (_ >=? _); simpl; now rewrite lookup_insert_ne.
Qed.

Lemma check_rate_limit_same (b1 b2 : gmap string (list Q)) ip now :
  b1 !! ip = b2 !! ip ->
  fst (check_rate_limit L P b1 ip now) = fst (check_rate_limit L P b2 ip now)
  /\ snd (check_rate_limit L P b1 ip now) !! ip
     = snd (check_rate_limit L P b2 ip now) !! ip.
Proof.
  intros He. unfold check_rate_limit. rewrite He.
  destruct (_ >=? _); simpl; now rewrite !lookup_insert_eq.
Qed.

Lemma check_rate_limit_calls_of calls ip :
  forall b1 b2 : gmap string (list Q),
    b1 !! ip = b2 !! ip ->
    snd (check_rate_limit_calls L P b1 calls) !! ip
    = snd (check_rate_limit_calls L P b2 (calls_of ip calls)) !! ip.
Proof.
  induction calls as [|[ip0 now] calls IH]; intros b1 b2 He; [exact He|].
  unfold calls_of. simpl.
  destruct (String.eqb ip0 ip) eqn:E.
  - apply String.eqb_eq in E. subst ip0. simpl.
    destruct (check_rate_limit_same b1 b2 ip now He) as [_ He'].
    destruct (check_rate_limit L P b1 ip now) as [r1 b1'].
    destruct (check_rate_limit L P b2 ip now) as [r2 b2'].
    simpl in He'. specialize (IH b1' b2' He'). fold (calls_of ip calls).
    destruct (check_rate_limit_calls L P b1' calls).
    now destruct (check_rate_limit_calls L P b2' (calls_of ip calls)).
  - apply String.eqb_neq in E.
    pose proof (check_rate_limit_other b1 ip0 ip now E) as Ho.
    destruct (check_rate_limit L P b1 ip0 now) as [r1 b1'].
    simpl in Ho. rewrite <- Ho in He. specialize (IH b1' b2 He).
    fold (calls_of ip calls).
    now destruct (check_rate_limit_calls L P b1' calls).
Qed.

End RateLimiterClients.

(** X3: whether a client is let in depends on that client's own calls
    only: dropping every other client's calls from the run, at whatever
    clock readings they were made, changes neither the client's bucket
    nor the answer to its next call. *)
Theorem rate_limit_clients_independent (L P : Z) (buckets : gmap string (list Q))
    (calls : list (string * Q)) (ip : string) (now : Q) :
  snd (check_rate_limit_calls L P buckets calls) !! ip
  = snd (check_rate_limit_calls L P buckets (calls_of ip calls)) !! ip
  /\ fst (check_rate_limit L P (snd (check_rate_limit_calls L P buckets calls)) ip now)
     = fst (check_rate_limit L P
              (snd (check_rate_limit_calls L P buckets (calls_of ip calls))) ip now).
Proof.
  pose proof (check_rate_limit_calls_of L P calls ip buckets buckets eq_refl) as He.
  split; [exact He|]. now apply check_rate_limit_same.
Qed.

(** X4: once every timestamp recorded for a client is a full period old,
    the client's next call is let in, whatever the order of the bucket,
    provided the limit is positive; the bucket then holds that call
    alone. *)
Theorem rate_limit_recovers (L P : Z) (buckets : gmap string (list Q))
    (ip : string) (now : Q) :
  0 < L ->
  Forall (fun t => (t <= now - inject_Z P)%Q) (default [] (buckets !! ip)) ->
  check_rate_limit L P buckets ip now = (Ok true, <[ip := [now]]> buckets).
Proof.
  intros HL Hall.
  apply (check_rate_limit_accepts L P buckets ip now []).
  - now apply popleft_expired_all.
  - simpl. lia.
Qed.

Lemma rate_limit_recovers_witness :
  check_rate_limit 2 60 {[ "10.0.0.1" := [5%Q; 1%Q] ]} "10.0.0.1" 65
  = (Ok true, <["10.0.0.1" := [65%Q]]> {[ "10.0.0.1" := [5%Q; 1%Q] ]}).
Proof.
  apply rate_limit_recovers; [lia|].
  rewrite lookup_singleton_eq. simpl.
  repeat constructor; vm_compute; discriminate.
Defined.

(** ** TTL cache: what a [get] answers after any history *)

Lemma holds_writes_mono t t' (data : gmap string (pyval * Q)) written :
  (t <= t')%Q -> holds_writes t data written -> holds_writes t' data written.
Proof.
  intros Hle H key. destruct (H key) as [He|(Hn & v & exp & Hw & Hlt)].
  - now left.
  - right. split; [exact Hn|]. exists v, exp. split; [exact Hw|lra].
Qed.

Lemma holds_writes_step t (data : gmap string (pyval * Q)) written op :
  holds_writes t data written ->
  holds_writes t (cache_step data op t)
    (fun key => last_write key (written key) [(op, t)]).
Proof.
  intros H key. destruct op as [k|k v ttl|]; simpl.
  - (* get *)
    unfold TTLCache.get.
    destruct (data !! k) as [[v exp]|] eqn:Ek; [|exact (H key)].
    destruct (py_time_gt t exp) eqn:Egt; [|exact (H key)].
    simpl. destruct (decide (k = key)) as [->|Hne].
    + rewrite lookup_delete_eq. right. split; [reflexivity|].
      destruct (H key) as [He|(Hn & _)]; [|congruence].
      exists v, exp. split; [congruence|].
      unfold py_time_gt in Egt. apply negb_true_iff in Egt.
      destruct (Qlt_le_dec exp t) as [Hlt|Hle]; [exact Hlt|].
      apply Qle_bool_iff in Hle. congruence.
    + rewrite lookup_delete_ne by exact Hne. exact (H key).
  - (* set *)
    unfold TTLCache.set. destruct (String.eqb k key) eqn:E.
    + apply String.eqb_eq in E. subst k. left. apply lookup_insert_eq.
    + apply String.eqb_neq in E. rewrite lookup_insert_ne by exact E. exact (H key).
  - (* clear *)
    left. apply lookup_empty.
Qed.

Lemma last_write_cons key acc op t ops :
  last_write key acc ((op, t) :: ops) = last_write key (last_write key acc [(op, t)]) ops.
Proof. now destruct op. Qed.

Lemma cache_run_holds_writes ops :
  forall t0 (data : gmap string (pyval * Q)) written,
    readings_from t0 ops -> holds_writes t0 data written ->
    holds_writes (last_reading t0 ops) (cache_run data ops)
      (fun key => last_write key (written key) ops).
Proof.
  induction ops as [|[op t] ops IH]; intros t0 data written Hr H; [exact H|].
  destruct Hr as [Hle Hr]. simpl cache_run. simpl last_reading.
  pose proof (holds_writes_step t data written op
                (holds_writes_mono t0 t data written Hle H)) as Hs.
  specialize (IH t _ _ Hr Hs).
  intros key. specialize (IH key). cbv beta in IH.
  now rewrite last_write_cons.
Qed.



(** ** Cached fetches *)

Section CachedFetch.

Variable World : Type.
Variable time_time : World -> Q * World.


(** A lookup adds nothing, touches no other key and leaves the buckets. *)
Lemma cache_get_shrinks key (s : Api.server World) :
  Api.cache World (snd (Api.cache_get World time_time key s)) ⊆ Api.cache World s
  /\ (forall key', key' <> key -> Api.cache World (snd (Api.cache_get World time_time key s)) !! key' = Api.cache World s !! key')
  /\ Api.rate_buckets World (snd (Api.cache_get World time_time key s)) = Api.rate_buckets World s.
Proof.
  unfold Api.cache_get.
  destruct (Api.cache World s !! key) as [[v exp]|] eqn:Ek; [|now split].
  destruct (time_time (Api.world World s)) as [now w].
  unfold TTLCache.get. rewrite Ek.
  destruct (py_time_gt now exp); simpl; [|now split].
  split; [apply delete_subseteq|]. split; [|reflexivity].
  intros key' Hne. now apply lookup_delete_ne.
Qed.

Lemma cache_get_hit key (s : Api.server World) v exp now w :
  Api.cache World s !! key = Some (v, exp) -> time_time (Api.world World s) = (now, w) ->
  (now <= exp)%Q ->
  Api.cache_get World time_time key s = (v, Api.Server World (Api.cache World s) (Api.rate_buckets World s) w).
Proof.
  intros Hk Ht Hle. unfold Api.cache_get. rewrite Hk, Ht.
  now rewrite (ttl_get_fresh _ _ _ _ _ Hk Hle).
Qed.

Lemma cache_set_stores key data (s : Api.server World) t w :
  time_time (Api.world World s) = (t, w) ->
  Api.cache_set World time_time key data s
  = Api.Server World (<[key := (data, (t + inject_Z CACHE_TTL)%Q)]> (Api.cache World s)) (Api.rate_buckets World s) w.
Proof. intros Ht. unfold Api.cache_set. now rewrite Ht. Qed.

Lemma get_cached_or_fetch_hit key fn arg (s : Api.server World) v exp now w :
  Api.cache World s !! key = Some (v, exp) -> Api.is_not_none v = true ->
  time_time (Api.world World s) = (now, w) -> (now <= exp)%Q ->
  Api.get_cached_or_fetch World time_time key fn arg s = (Ok v, Api.Server World (Api.cache World s) (Api.rate_buckets World s) w).
Proof.
  intros Hk Hv Ht Hle. unfold Api.get_cached_or_fetch.
  rewrite (cache_get_hit key s v exp now w Hk Ht Hle). now rewrite Hv.
Qed.

Lemma get_cached_or_fetch_miss key fn arg (s s0 : Api.server World) :
  Api.cache_get World time_time key s = (PNone, s0) ->
  Api.get_cached_or_fetch World time_time key fn arg s
  = match fn arg (Api.world World s0) with
    | (Ok data, w) => (Ok data, Api.cache_set World time_time key data (Api.Server World (Api.cache World s0) (Api.rate_buckets World s0) w))
    | (Raise e, w) => (Raise e, Api.Server World (Api.cache World s0) (Api.rate_buckets World s0) w)
    end.
Proof.
  intros Hg. unfold Api.get_cached_or_fetch. rewrite Hg. simpl.
  destruct (fn arg (Api.world World s0)) as [[data|e] w]; reflexivity.
Qed.

Lemma get_cached_or_fetch_frame key fn arg (s : Api.server World) key' :
  key' <> key ->
  Api.cache World (snd (Api.get_cached_or_fetch World time_time key fn arg s)) !! key' = Api.cache World s !! key'.
Proof.
  intros Hne. unfold Api.get_cached_or_fetch.
  destruct (cache_get_shrinks key s) as (_ & Hf & _). specialize (Hf key' Hne).
  destruct (Api.cache_get World time_time key s) as [val s0]. simpl in Hf.
  destruct (Api.is_not_none val); [exact Hf|].
  destruct (fn arg (Api.world World s0)) as [[data|e] w]; simpl; [|exact Hf].
  unfold Api.cache_set. simpl.
  destruct (time_time w) as [t w']. simpl. unfold TTLCache.set.
  now rewrite lookup_insert_ne by congruence.
Qed.

Lemma get_cached_or_fetch_buckets key fn arg (s : Api.server World) :
  Api.rate_buckets World (snd (Api.get_cached_or_fetch World time_time key fn arg s)) = Api.rate_buckets World s.
Proof.
  unfold Api.get_cached_or_fetch.
  destruct (cache_get_shrinks key s) as (_ & _ & Hb).
  destruct (Api.cache_get World time_time key s) as [val s0]. simpl in Hb.
  destruct (Api.is_not_none val); [exact Hb|].
  destruct (fn arg (Api.world World s0)) as [[data|e] w]; simpl; [|exact Hb].
  unfold Api.cache_set. simpl. now destruct (time_time w).
Qed.

Lemma get_cached_or_fetch_raise key fn arg (s s1 : Api.server World) e :
  Api.get_cached_or_fetch World time_time key fn arg s = (Raise e, s1) ->
  Api.cache World s1 ⊆ Api.cache World s /\ Api.rate_buckets World s1 = Api.rate_buckets World s.
Proof.
  unfold Api.get_cached_or_fetch.
  destruct (cache_get_shrinks key s) as (Hsub & _ & Hb).
  destruct (Api.cache_get World time_time key s) as [val s0]. simpl in Hsub, Hb.
  destruct (Api.is_not_none val); [discriminate|].
  destruct (fn arg (Api.world World s0)) as [[data|e'] w]; [discriminate|].
  intros [= _ <-]. now split.
Qed.

End CachedFetch.

(** X6: while an entry that is not [None] has not expired, the cached
    value is returned as it is; the fetcher is not called, the clock is
    read once, and neither the cache nor the buckets change. *)
Theorem cached_value_served (World : Type) (time_time : World -> Q * World)
    (fn : string -> World -> res pyval * World) (key arg : string)
    (s : Api.server World) (v : pyval) (exp now : Q) (w : World) :
  Api.cache World s !! key = Some (v, exp) -> v <> PNone ->
  time_time (Api.world World s) = (now, w) -> (now <= exp)%Q ->
  Api.get_cached_or_fetch World time_time key fn arg s
  = (Ok v, Api.Server World (Api.cache World s) (Api.rate_buckets World s) w).
Proof.
  intros Hk Hv Ht Hle. apply get_cached_or_fetch_hit with (exp := exp) (now := now);
    try assumption.
  now destruct v.
Qed.

Lemma cached_value_served_witness :
  let clock := fun t : Q => (t, (t + 1)%Q) in
  let fn := fun (_ : string) (t : Q) => (Raise UpstreamError : res pyval, t) in
  let s := Api.Server Q {[ "cf:tourist" := (PInt 7, 100%Q) ]} ∅ 40%Q in
  Api.get_cached_or_fetch Q clock "cf:tourist" fn "tourist" s
  = (Ok (PInt 7), Api.Server Q (Api.cache Q s) (Api.rate_buckets Q s) 41%Q).
Proof.
  intros clock fn s.
  apply (cached_value_served Q clock fn "cf:tourist" "tourist" s (PInt 7) 100%Q 40%Q 41%Q).
  - reflexivity.
  - discriminate.
  - reflexivity.
  - vm_compute. discriminate.
Defined.



(** X8: when a cached fetch raises, the exception is the fetcher's and
    nothing was stored: every entry of the cache afterwards was there
    before, and the buckets are unchanged. *)
Theorem failed_fetch_not_cached (World : Type) (time_time : World -> Q * World)
    (fn : string -> World -> res pyval * World) (key arg : string)
    (s s1 : Api.server World) (e : pyexc) :
  Api.get_cached_or_fetch World time_time key fn arg s = (Raise e, s1) ->
  (exists s0 w, fn arg (Api.world World s0) = (Raise e, w))
  /\ Api.cache World s1 ⊆ Api.cache World s
  /\ Api.rate_buckets World s1 = Api.rate_buckets World s.
Proof.
  intros H. split; [|now apply (get_cached_or_fetch_raise World time_time key fn arg s s1 e)].
  unfold Api.get_cached_or_fetch in H.
  destruct (Api.cache_get World time_time key s) as [val s0].
  destruct (Api.is_not_none val); [discriminate|].
  destruct (fn arg (Api.world World s0)) as [[data|e'] w] eqn:Ef; [discriminate|].
  exists s0, w. now injection H as -> _.
Qed.

Lemma failed_fetch_not_cached_witness :
  let clock := fun t : Q => (t, (t + 1)%Q) in
  let fn := fun (_ : string) (t : Q) => (Raise UpstreamError : res pyval, (t + 5)%Q) in
  let s := Api.Server Q {[ "hr:amy" := (PInt 1, 10%Q) ]} ∅ 40%Q in
  let s1 := Api.Server Q ∅ ∅ 46%Q in
  (exists s0 w, fn "amy" (Api.world Q s0) = (Raise UpstreamError, w))
  /\ Api.cache Q s1 ⊆ Api.cache Q s
  /\ Api.rate_buckets Q s1 = Api.rate_buckets Q s.
Proof.
  intros clock fn s s1.
  apply (failed_fetch_not_cached Q clock fn "hr:amy" "amy" s s1 UpstreamError).
  vm_compute. reflexivity.
Defined.

(** ** Handlers, routes and cache administration *)

Lemma key_prefix_inj p q u u' :
  key_prefix p +:+ u = key_prefix q +:+ u' -> p = q /\ u = u'.
Proof.
  destruct p, q; intros H; cbv in H; split; congruence.
Qed.

Section Endpoints.

Import Api.

Variable World : Type.
Variable time_time : World -> Q * World.
Variables fetch_lc fetch_cc fetch_duo fetch_cf fetch_hr
  : string -> World -> res pyval * World.

Lemma handler_of_cached p username s :
  handler_of World time_time fetch_lc fetch_cc fetch_duo fetch_cf fetch_hr p username s
  = get_cached_or_fetch World time_time (key_prefix p +:+ username)
      (fetcher_of World fetch_lc fetch_cc fetch_duo fetch_cf fetch_hr p) username s.
Proof. now destruct p. Qed.

Lemma api_unified_cases platform username s :
  api_unified World time_time fetch_lc fetch_cc fetch_duo fetch_cf fetch_hr
    platform username s
  = (Raise (HTTPException 404 "Unknown platform."), s)
  \/ exists p,
       api_unified World time_time fetch_lc fetch_cc fetch_duo fetch_cf fetch_hr
         platform username s
       = handler_of World time_time fetch_lc fetch_cc fetch_duo fetch_cf fetch_hr
           p username s.
Proof.
  unfold api_unified.
  destruct (in_pair _ "leetcode" "lc"); [right; now exists LeetCode|].
  destruct (in_pair _ "codechef" "cc"); [right; now exists CodeChef|].
  destruct (in_pair _ "duolingo" "duo"); [right; now exists Duolingo|].
  destruct (in_pair _ "codeforces" "cf"); [right; now exists Codeforces|].
  destruct (in_pair _ "hackerrank" "hr"); [right; now exists HackerRank|].
  now left.
Qed.

Lemma api_unified_buckets platform username s :
  rate_buckets World
    (snd (api_unified World time_time fetch_lc fetch_cc fetch_duo fetch_cf fetch_hr
            platform username s))
  = rate_buckets World s.
Proof.
  destruct (api_unified_cases platform username s) as [-> | [p ->]]; [reflexivity|].
  rewrite handler_of_cached. apply get_cached_or_fetch_buckets.
Qed.

End Endpoints.

(** X9: a handler reads and writes one cache entry, the one of its own
    source and user: a request for user [u] of source [p] leaves the
    entry of every other pair of source and user as it was, also when the
    two users have the same name or the two names overlap with a prefix. *)
Theorem handlers_keep_other_entries (World : Type) (time_time : World -> Q * World)
    (fetch_lc fetch_cc fetch_duo fetch_cf fetch_hr : string -> World -> res pyval * World)
    (p q : source) (u u' : string) (s : Api.server World) :
  (p, u) <> (q, u') ->
  Api.cache World
    (snd (handler_of World time_time fetch_lc fetch_cc fetch_duo fetch_cf fetch_hr p u s))
    !! (key_prefix q +:+ u')
  = Api.cache World s !! (key_prefix q +:+ u').
Proof.
  intros Hne. rewrite handler_of_cached.
  apply get_cached_or_fetch_frame. intros He.
  apply key_prefix_inj in He as [-> ->]. now apply Hne.
Qed.

Lemma handlers_keep_other_entries_witness :
  let clock := fun t : Q => (t, (t + 1)%Q) in
  let fetch := fun (tag u : string) (t : Q) => (Ok (PStr (tag +:+ u)), t) in
  let s := Api.Server Q {[ "cc:f:x" := (PInt 7, 100%Q) ]} ∅ 0%Q in
  Api.cache Q
    (snd (handler_of Q clock (fetch "lc") (fetch "cc") (fetch "duo") (fetch "cf")
            (fetch "hr") Codeforces "x" s))
    !! (key_prefix CodeChef +:+ "f:x")
  = Api.cache Q s !! (key_prefix CodeChef +:+ "f:x").
Proof.
  intros clock fetch s.
  apply (handlers_keep_other_entries Q clock (fetch "lc") (fetch "cc") (fetch "duo")
           (fetch "cf") (fetch "hr") Codeforces CodeChef "x" "f:x" s).
  discriminate.
Defined.

(** X10: a request of a client whose bucket already holds [RATE_LIMIT]
    timestamps inside the window is answered with status 429 and the
    detail "Rate limit exceeded (30 req / 60s)"; the handler is not run,
    the cache is not touched, and the request is not added to the
    bucket. *)
Theorem rate_limited_request_stops (World : Type) (time_time : World -> Q * World)
    (handler : Api.server World -> res pyval * Api.server World)
    (ip : string) (s : Api.server World) (t now : Q) (w : World) :
  time_time (Api.world World s) = (now, w) ->
  buckets_ok t (Api.rate_buckets World s) ->
  let recent := List.filter (in_window RATE_PERIOD now)
                  (default [] (Api.rate_buckets World s !! ip)) in
  RATE_LIMIT <= Z.of_nat (List.length recent) ->
  Api.route World time_time handler ip s
  = (Raise (HTTPException 429 "Rate limit exceeded (30 req / 60s)"),
     Api.Server World (Api.cache World s)
       (<[ip := recent]> (Api.rate_buckets World s)) w).
Proof.
  intros Ht Hok recent Hfull. unfold Api.route. rewrite Ht.
  rewrite (check_rate_limit_sliding_window_spec _ _ _ ip t now Hok).
  unfold sliding_window_spec. fold recent.
  destruct (_ <? _) eqn:E; [apply Z.ltb_lt in E; lia|].
  reflexivity.
Qed.

Lemma rate_limited_request_stops_witness :
  let clock := fun t : Q => (t, (t + 1)%Q) in
  let handler := fun s : Api.server Q => (Ok (PInt 1), s) in
  let s := Api.Server Q ∅ {[ "10.0.0.1" := replicate 30 5%Q ]} 10%Q in
  Api.route Q clock handler "10.0.0.1" s
  = (Raise (HTTPException 429 "Rate limit exceeded (30 req / 60s)"),
     Api.Server Q ∅ (<["10.0.0.1" := replicate 30 5%Q]> {[ "10.0.0.1" := replicate 30 5%Q ]})
       11%Q).
Proof.
  intros clock handler s.
  apply (rate_limited_request_stops Q clock handler "10.0.0.1" s 5%Q 10%Q 11%Q).
  - reflexivity.
  - intros ip dq H. unfold s in H. simpl in H.
    apply lookup_singleton_Some in H as [_ <-].
    split.
    + vm_compute. repeat constructor; discriminate.
    + vm_compute. repeat constructor; discriminate.
  - vm_compute. discriminate.
Defined.

(** X11: every request to the unified endpoint that the limiter lets in
    is counted against the client, whatever the handler then does: a
    cached answer, a fetch, an exception of the fetcher and the 404 for an
    unknown platform all leave the request's timestamp at the end of the
    client's bucket. *)
Theorem admitted_request_counted (World : Type) (time_time : World -> Q * World)
    (fetch_lc fetch_cc fetch_duo fetch_cf fetch_hr : string -> World -> res pyval * World)
    (platform username ip : string) (s : Api.server World) (now : Q) (w : World) :
  time_time (Api.world World s) = (now, w) ->
  fst (check_rate_limit RATE_LIMIT RATE_PERIOD (Api.rate_buckets World s) ip now)
  = Ok true ->
  Api.rate_buckets World
    (snd (Api.get_report World time_time fetch_lc fetch_cc fetch_duo fetch_cf fetch_hr
            platform username ip s)) !! ip
  = Some (popleft_expired RATE_PERIOD now (default [] (Api.rate_buckets World s !! ip))
            ++ [now])%list.
Proof.
  intros Ht Hin. unfold Api.get_report, Api.route. rewrite Ht.
  unfold check_rate_limit in *.
  destruct (_ >=? _); [discriminate Hin|].
  rewrite api_unified_buckets. simpl. apply lookup_insert_eq.
Qed.

Lemma admitted_request_counted_witness :
  let clock := fun t : Q => (t, (t + 1)%Q) in
  let fetch := fun (tag u : string) (t : Q) => (Ok (PStr (tag +:+ u)), t) in
  let s := Api.Server Q ∅ {[ "10.0.0.1" := [1%Q; 50%Q] ]} 70%Q in
  Api.rate_buckets Q
    (snd (Api.get_report Q clock (fetch "lc") (fetch "cc") (fetch "duo") (fetch "cf")
            (fetch "hr") "spoj" "amy" "10.0.0.1" s)) !! "10.0.0.1"
  = Some (popleft_expired RATE_PERIOD 70
            (default [] (Api.rate_buckets Q s !! "10.0.0.1")) ++ [70%Q])%list.
Proof.
  intros clock fetch s.
  apply (admitted_request_counted Q clock (fetch "lc") (fetch "cc") (fetch "duo")
           (fetch "cf") (fetch "hr") "spoj" "amy" "10.0.0.1" s 70%Q 71%Q).
  - reflexivity.
  - vm_compute. reflexivity.
Defined.


(** ** Strategy cascade: an invariant of every block *)

Section CascadeInvariant.

Variable json_loads : string -> res pyval.
Variable float_round : spec_float -> Z -> spec_float.
Variable o : upstream.
Variable u : string.

(** What the blocks hand to [return], for a property [P] that the
    template, the extractor's results, the scraped and the statistics-API
    reports have and that the merge keeps. *)
Variable P : pyval -> Prop.
Hypothesis P_template : P (leetcode_template u).
Hypothesis P_extract : forall nj r,
  _extract_stats_from_normalized json_loads nj u = Ok r -> P r.
Hypothesis P_scraped : forall soup v,
  total_solved_positive (_scrape_leetcode_html soup u) = Ok true ->
  return_scraped (leetcode_template u) (_scrape_leetcode_html soup u) = Ok (Return v) ->
  P v.
Hypothesis P_stats_api : forall j,
  returns_only P (stats_api_body json_loads float_round j u (leetcode_template u)).
Hypothesis P_merge : forall mr result r,
  P mr -> P result ->
  for_each merge_keys result (merge_key mr) = Ok r -> P r.

Lemma scraped_inv soup c :
  (if truthy (_scrape_leetcode_html soup u)
   then total_solved_positive (_scrape_leetcode_html soup u) else Ok false) = Ok c ->
  c = true ->
  returns_only P (return_scraped (leetcode_template u) (_scrape_leetcode_html soup u)).
Proof.
  intros Hc -> v Hv. apply (P_scraped soup v); [|exact Hv].
  destruct (truthy _); [exact Hc|discriminate Hc].
Qed.

Lemma browser_accept_inv b normalized :
  returns_only P (browser_accept json_loads b normalized u).
Proof.
  unfold browser_accept. repeat flow_step.
  eapply P_extract; eassumption.
Qed.

Lemma browser_inner_inv b :
  returns_only P (browser_inner json_loads b u (leetcode_template u)).
Proof.
  unfold browser_inner. cbv zeta.
  repeat first [apply browser_accept_inv | flow_step];
    try (eapply scraped_inv; eassumption).
Qed.

Lemma strategy_browser_inv :
  returns_only P (strategy_browser json_loads o u (leetcode_template u)).
Proof.
  unfold strategy_browser. cbv zeta.
  flow_step; [|flow_step]. flow_step; [|flow_step].
  flow_step. flow_step. flow_step. flow_step.
  intros v [= ->].
  match goal with
  | H : match ?r with Return _ => _ | Continue => _ end = Ok (Return v) |- _ =>
      destruct r as [w|]; [injection H as <-|inv_bind H; discriminate H]
  end.
  match goal with H : try_except _ _ = Ok (Return _) |- _ => revert H end.
  apply returns_only_try.
  - apply browser_inner_inv.
  - apply returns_only_continue.
Qed.

Lemma strategy_graphql_inv : returns_only P (strategy_graphql json_loads o u).
Proof.
  apply returns_only_for_flow. intros i.
  unfold graphql_attempt. repeat flow_step.
  eapply P_extract; eassumption.
Qed.

Lemma strategy_stats_api_inv :
  returns_only P (strategy_stats_api json_loads float_round o u (leetcode_template u)).
Proof.
  unfold strategy_stats_api.
  repeat first [apply P_stats_api | flow_step].
Qed.

Lemma strategy_html_inv : returns_only P (strategy_html o u (leetcode_template u)).
Proof.
  unfold strategy_html. repeat first [flow_step | cbv zeta].
  eapply scraped_inv; eassumption.
Qed.

Lemma strategy_mirrors_inv :
  carries P (fun st => st = PNone \/ P st) (strategy_mirrors json_loads o u).
Proof.
  unfold strategy_mirrors. apply carries_for_flow_st; [|now left].
  intros st a Hst. unfold mirror_attempt. cbv zeta.
  repeat carry_step; try exact Hst.
  - eapply P_extract; eassumption.
  - right. eapply P_extract; eassumption.
Qed.

Lemma graphql_retry_inv mr : P mr -> returns_only P (graphql_retry json_loads o u mr).
Proof.
  intros Hmr. unfold graphql_retry. repeat flow_step.
  - eapply P_extract; eassumption.
  - eapply P_merge; [exact Hmr| |eassumption]. eapply P_extract; eassumption.
Qed.

Lemma fetch_leetcode_live_inv env :
  fetch_leetcode_live json_loads float_round o u = Ok env -> P env.
Proof.
  unfold fetch_leetcode_live. cbv zeta. unfold or_return.
  intros H.
  inv_bind H. destruct x as [v|]; [injection H as <-; now apply strategy_browser_inv|].
  inv_bind H. destruct x as [v|]; [injection H as <-; now apply strategy_graphql_inv|].
  inv_bind H. destruct x as [v|]; [injection H as <-; now apply strategy_stats_api_inv|].
  inv_bind H. destruct x as [v|]; [injection H as <-; now apply strategy_html_inv|].
  inv_bind H. destruct x as [f mr].
  destruct (strategy_mirrors_inv f mr) as [Hf Hmr]; [assumption|].
  rewrite bind_Ok in H.
  destruct f as [v|]; [injection H as <-; now apply Hf|].
  inv_bind H. inv_bind H.
  destruct x0 as [v|].
  { injection H as <-.
    destruct x; [|discriminate].
    destruct Hmr as [-> | Hmr]; [discriminate|].
    now apply (graphql_retry_inv mr Hmr). }
  destruct (truthy mr) eqn:Ht.
  - injection H as <-. destruct Hmr as [-> | Hmr]; [discriminate Ht|exact Hmr].
  - rewrite template_error_set, bind_Ok in H. injection H as <-. exact P_template.
Qed.

End CascadeInvariant.

(** ** Strategy cascade: every report is for the requested user *)

Lemma some_count_positive_total v :
  report_has_total v = Ok true -> some_count_positive v = true.
Proof.
  intros H. unfold some_count_positive, count_keys. cbn [existsb].
  apply orb_true_iff. left.
  unfold report_has_total, total_solved_positive in H. unfold field_positive, report_field.
  destruct (py_getitem v "report") as [rep|]; [|discriminate H].
  rewrite bind_Ok in *.
  destruct rep as [| | | | | |d]; try discriminate H.
  unfold py_get_default in H. unfold py_getitem.
  cbv [default from_option id] in H. unfold bind in H. unfold bind.
  destruct (d !! "totalSolved") as [t|]; [now rewrite H|discriminate H].
Qed.

Lemma report_for_template u : report_for u (leetcode_template u).
Proof. repeat split; vm_compute; reflexivity. Qed.

Lemma report_for_extract_result u st acc rk rep con str tad cal :
  report_for u (extract_result u st acc rk rep con str tad cal).
Proof.
  split; [apply canonical_extract_result|].
  unfold some_count_positive, count_keys, field_positive. cbn [existsb].
  destruct (report_field_extract_result u st acc rk rep con str tad cal)
    as (He & _ & Ht & Hea & Hm & Hh & _).
  rewrite Ht, Hea, Hm, Hh, He, !bind_Ok. cbn [py_gt0].
  split; [|split].
  - unfold extract_result. generalize (negb (has_stats st)), (error_message st cal rk).
    intros b msg. vm_compute. reflexivity.
  - unfold extract_result. generalize (negb (has_stats st)), (error_message st cal rk).
    intros b msg. vm_compute. reflexivity.
  - unfold has_stats. do 3 f_equal.
    destruct (0 <? total st), (0 <? easy st), (0 <? medium st), (0 <? hard st);
      reflexivity.
Qed.

Lemma report_for_extract json_loads nj u r :
  _extract_stats_from_normalized json_loads nj u = Ok r -> report_for u r.
Proof.
  intros H. apply extract_inv in H as [-> | H].
  - apply report_for_template.
  - destruct H as (mu & ac & rows & st & acc & rk & rep & con & str & tad & cal & H).
    destruct H as (_ & _ & _ & _ & _ & _ & ->). apply report_for_extract_result.
Qed.

Lemma report_for_scraped u soup v :
  total_solved_positive (_scrape_leetcode_html soup u) = Ok true ->
  return_scraped (leetcode_template u) (_scrape_leetcode_html soup u) = Ok (Return v) ->
  report_for u v /\ flag_off_message_kept v.
Proof.
  destruct soup as [t e m h rk rep]. intros Hpos.
  assert (report_has_total
            (dict [("message", PStr "LeetCode report fetched successfully");
                   ("report", dict [
                      ("error", PBool false);
                      ("errorMessage", PStr template_message);
                      ("username", PStr u);
                      ("totalSolved", PInt t);
                      ("easySolved", PInt e);
                      ("mediumSolved", PInt m);
                      ("hardSolved", PInt h);
                      ("acceptanceRate", PInt 0);
                      ("ranking", rk);
                      ("reputation", rep);
                      ("contributionPoints", PInt 0);
                      ("streak", PInt 0);
                      ("totalActiveDays", PInt 0);
                      ("submissionCalendar", dict [])])]) = Ok true) as Hv.
  { rewrite <- Hpos. vm_compute. reflexivity. }
  apply some_count_positive_total in Hv.
  intros H.
  assert (v = dict [("message", PStr "LeetCode report fetched successfully");
                   ("report", dict [
                      ("error", PBool false);
                      ("errorMessage", PStr template_message);
                      ("username", PStr u);
                      ("totalSolved", PInt t);
                      ("easySolved", PInt e);
                      ("mediumSolved", PInt m);
                      ("hardSolved", PInt h);
                      ("acceptanceRate", PInt 0);
                      ("ranking", rk);
                      ("reputation", rep);
                      ("contributionPoints", PInt 0);
                      ("streak", PInt 0);
                      ("totalActiveDays", PInt 0);
                      ("submissionCalendar", dict [])])]) as ->.
  { vm_compute in H. injection H as <-. vm_compute. reflexivity. }
  split.
  - unfold report_for. rewrite Hv. repeat split; vm_compute; reflexivity.
  - repeat split; vm_compute; reflexivity.
Qed.

Lemma stats_api_return_for u totalSolved easySolved mediumSolved hardSolved
    acceptanceRate ranking reputation contributionPoints submission_cal :
  py_gt0 totalSolved = Ok true ->
  exists v,
    (rep <- py_getitem (leetcode_template u) "report";;
     rep <- py_update rep (dict [
       ("error", PBool false);
       ("username", PStr u);
       ("totalSolved", totalSolved);
       ("easySolved", easySolved);
       ("mediumSolved", mediumSolved);
       ("hardSolved", hardSolved);
       ("acceptanceRate", acceptanceRate);
       ("ranking", ranking);
       ("reputation", reputation);
       ("contributionPoints", contributionPoints);
       ("streak", PInt 0);
       ("totalActiveDays", PInt 0);
       ("submissionCalendar", submission_cal)]);;
     tpl <- py_setitem (leetcode_template u) "report" rep;;
     Ok (Return tpl)) = Ok (Return v)
    /\ report_for u v /\ flag_off_message_kept v.
Proof.
  intros Hpos. eexists. split; [vm_compute; reflexivity|].
  match goal with |- report_for _ ?v /\ _ =>
    assert (some_count_positive v = true) as Hv
  end.
  { apply some_count_positive_total. rewrite <- Hpos. vm_compute. reflexivity. }
  split.
  - unfold report_for. rewrite Hv. repeat split; vm_compute; reflexivity.
  - repeat split; vm_compute; reflexivity.
Qed.

Lemma stats_api_body_for json_loads float_round j u :
  returns_only (fun v => report_for u v /\ flag_off_message_kept v)
    (stats_api_body json_loads float_round j u (leetcode_template u)).
Proof.
  unfold stats_api_body.
  apply returns_only_bind; intros status Hs.
  apply returns_only_bind; intros c Hc.
  destruct c; [|apply returns_only_continue].
  apply returns_only_bind; intros cal Hcal. cbv zeta.
  apply returns_only_bind; intros totalSolved Ht.
  do 8 (apply returns_only_bind; intros ? ?).
  assert (py_gt0 totalSolved = Ok true) as Hpos.
  { destruct (py_eq_str status "success"); [|discriminate Hc].
    unfold total_solved_positive in Hc. now rewrite Ht, bind_Ok in Hc. }
  match goal with
  | |- returns_only _ (bind _ (fun rep => bind (py_update rep (dict [_; _;
         (_, ?t); (_, ?e); (_, ?m); (_, ?h); (_, ?a); (_, ?rk); (_, ?rp); (_, ?cp);
         _; _; (_, ?sc)])) _)) =>
      destruct (stats_api_return_for u t e m h a rk rp cp sc Hpos) as (v & -> & Hv)
  end.
  now apply returns_only_return.
Qed.

Lemma merge_key_message mr result key r :
  merge_key mr result key = Ok r ->
  py_getitem r "message" = py_getitem result "message".
Proof.
  unfold merge_key. intros H. inv_bind H. inv_bind H. inv_bind H.
  destruct x1; [|now injection H as <-].
  inv_bind H. inv_bind H.
  unfold py_setitem_in in H. inv_bind H. inv_bind H.
  destruct result as [| | | | | |top]; try discriminate H.
  injection H as <-. unfold py_getitem. now rewrite lookup_insert_ne.
Qed.

Lemma report_for_merge u mr result r :
  report_for u mr -> report_for u result ->
  for_each merge_keys result (merge_key mr) = Ok r -> report_for u r.
Proof.
  intros (Cmr & _) (Cres & Hmsg & Hname & Herr) H.
  destruct (merge_spec mr result r Cmr Cres H) as (Cr & _ & Hother).
  assert (forall k, In k count_keys -> field_positive r k = field_positive result k) as Hc.
  { intros k Hk. unfold field_positive. rewrite Hother; [reflexivity|].
    unfold merge_keys. simpl in Hk |- *. intuition (subst; discriminate). }
  assert (some_count_positive r = some_count_positive result) as Hs.
  { unfold some_count_positive, count_keys. cbn [existsb].
    rewrite !Hc by (simpl; tauto). reflexivity. }
  split; [exact Cr|]. split; [|split].
  - rewrite <- Hmsg. unfold merge_keys in H. simpl in H.
    inv_bind H. inv_bind H. inv_bind H. injection H as <-.
    rewrite (merge_key_message _ _ _ _ E1), (merge_key_message _ _ _ _ E0).
    apply (merge_key_message _ _ _ _ E).
  - rewrite Hother; [exact Hname|]. unfold merge_keys. simpl. intuition discriminate.
  - rewrite Hs, Hother; [exact Herr|]. unfold merge_keys. simpl. intuition discriminate.
Qed.


(** X14: a report returned by the statistics-API strategy or by the
    HTML strategy has its error flag off and yet carries the template's
    error message unchanged; its streak and active days are 0.  A
    statistics API that answers with five solved problems gives such a
    report. *)
Theorem success_keeps_template_message (json_loads : string -> res pyval)
    (float_round : spec_float -> Z -> spec_float) (o : upstream) (u : string) :
  returns_only flag_off_message_kept
    (strategy_stats_api json_loads float_round o u (leetcode_template u))
  /\ returns_only flag_off_message_kept (strategy_html o u (leetcode_template u))
  /\ exists env,
       fetch_leetcode_live json_loads float_round stats_api_up u = Ok env
       /\ flag_off_message_kept env
       /\ report_field env "totalSolved" = Ok (PInt 5).
Proof.
  split; [|split].
  3:{ eexists. split; [vm_compute; reflexivity|].
      repeat split; vm_compute; reflexivity. }
  - unfold strategy_stats_api.
    repeat first [ flow_step
                 | eapply returns_only_impl; [|apply stats_api_body_for];
                   now intros v [_ Hv] ].
  - unfold strategy_html. repeat first [flow_step | cbv zeta].
    intros v Hv.
    match goal with
    | H : (if truthy ?s then _ else _) = Ok ?c, Hc : ?c = true |- _ =>
        rewrite Hc in H; destruct (truthy s); [|discriminate H];
        now destruct (report_for_scraped _ _ _ H Hv)
    end.
Qed.

(** ** Strategy cascade: the mirror candidate *)

Section MirrorCandidate.

Variable json_loads : string -> res pyval.
Variable o : upstream.
Variable u : string.

Lemma mirror_attempt_keeps st base f st' :
  truthy st = true ->
  mirror_attempt json_loads o u st base = Ok (f, st') -> st' = st.
Proof.
  intros Ht. revert f st'.
  assert (carries (fun _ => True) (fun st' => st' = st)
            (mirror_attempt json_loads o u st base)) as H.
  { unfold mirror_attempt. cbv zeta. rewrite Ht. cbn [negb].
    repeat carry_step; auto; discriminate. }
  intros f st' Hc. now destruct (H f st' Hc).
Qed.

Lemma mirror_loop_keeps l : forall st f st',
  truthy st = true ->
  for_flow_st l st (mirror_attempt json_loads o u) = Ok (f, st') -> st' = st.
Proof.
  induction l as [|base l IH]; intros st f st' Ht H; simpl in H.
  - now injection H as _ <-.
  - inv_bind H. destruct x as [[v|] st1].
    + injection H as _ <-. now apply (mirror_attempt_keeps st base (Return v)).
    + pose proof (mirror_attempt_keeps st base Continue st1 Ht E) as ->.
      now apply (IH st f st').
Qed.

Lemma for_flow_st_app {A} (l1 l2 : list A) st body :
  for_flow_st (l1 ++ l2) st body
  = (p <- for_flow_st l1 st body;;
     match p with
     | (Return v, st') => Ok (Return v, st')
     | (Continue, st') => for_flow_st l2 st' body
     end).
Proof.
  revert st. induction l1 as [|a l1 IH]; intros st; simpl; [reflexivity|].
  destruct (body st a) as [[[v|] st1]|e]; simpl; [reflexivity|apply IH|reflexivity].
Qed.

End MirrorCandidate.

(** X15: the candidate the mirror loop ends with is the report taken
    from the first mirror, in list order, that gave a matched user without
    a positive total; a later mirror never replaces it, whatever it
    answers. *)
Theorem mirrors_keep_first_candidate (json_loads : string -> res pyval)
    (o : upstream) (u : string) (pre post : list string) (base : string) (c : pyval) :
  LEETCODE_MIRRORS = (pre ++ base :: post)%list ->
  for_flow_st pre PNone (mirror_attempt json_loads o u) = Ok (Continue, PNone) ->
  mirror_attempt json_loads o u PNone base = Ok (Continue, c) ->
  truthy c = true ->
  fmap_res snd (strategy_mirrors json_loads o u) = Ok c.
Proof.
  intros Hl Hpre Hb Hc.
  destruct (strategy_mirrors_returns json_loads o u) as [[f st'] H].
  rewrite H. unfold fmap_res. rewrite bind_Ok. simpl. f_equal.
  unfold strategy_mirrors in H.
  rewrite Hl, for_flow_st_app, Hpre, bind_Ok in H. simpl in H.
  rewrite Hb, bind_Ok in H.
  now apply (mirror_loop_keeps json_loads o u post c f st').
Qed.

Lemma mirrors_keep_first_candidate_witness :
  fmap_res snd (strategy_mirrors no_json two_mirrors_up "alice")
  = Ok (extract_result "alice" (Counts 0 0 0 0) (PInt 0) (PInt 4821) (PInt 0) (PInt 0)
          (PInt 7) (PInt 0) (dict [])).
Proof.
  apply (mirrors_keep_first_candidate no_json two_mirrors_up "alice"
           ["https://alfa-leetcode-api.onrender.com"]
           ["https://leetcode-api.faisal.sh"; "https://leetcode-stats-api.herokuapp.com"]
           "https://leetcode-api-faisalshohag.vercel.app").
  - reflexivity.
  - vm_compute. reflexivity.
  - vm_compute. reflexivity.
  - vm_compute. reflexivity.
Defined.

(** ** Schema normaliser: the user record *)

Lemma truthy_dict_nonempty (m : gmap string pyval) : truthy (PDict m) = true -> m <> ∅.
Proof. intros H ->. discriminate H. Qed.

Lemma nonempty_dict_truthy (m : gmap string pyval) : m <> ∅ -> truthy (PDict m) = true.
Proof.
  intros H. simpl. destruct (map_to_list m) eqn:E; [|reflexivity].
  apply map_to_list_empty_iff in E. contradiction.
Qed.

(** X16: whatever its input, the normaliser returns a dictionary in
    which [matchedUser], when present, is a dictionary that is not empty,
    and [userContestRanking], when present, is truthy. *)
Theorem normalized_user_is_record (j : pyval) :
  exists out,
    _normalize_leetcode_json j = Ok (PDict out)
    /\ (forall mu, out !! "matchedUser" = Some mu ->
          exists m, mu = PDict m /\ m <> ∅)
    /\ (forall r, out !! "userContestRanking" = Some r -> truthy r = true).
Proof.
  destruct (normalize_returns j) as (out & Hj & Hnd & Hd).
  exists out. split; [exact Hj|].
  destruct j as [| | | | | |jd];
    try (rewrite Hnd by reflexivity; split; intros ?; rewrite lookup_empty;
         discriminate).
  rewrite (Hd jd eq_refl). split.
  - intros mu. rewrite norm_map_user.
    destruct (norm_user jd) as [m|] eqn:E; [|discriminate].
    intros [= <-]. exists m. split; [reflexivity|].
    apply truthy_dict_nonempty. now apply (norm_user_truthy jd).
  - intros r. rewrite norm_map_ranking. unfold truthy_opt.
    destruct (truthy (norm_ranking jd)) eqn:E; [|discriminate].
    now intros [= <-].
Qed.

Lemma user_record_top (jd m : gmap string pyval) :
  jd !! "data" = None -> jd !! "matchedUser" = Some (PDict m) -> m <> ∅ ->
  user_record jd = Some m.
Proof.
  intros Hd Hm Hne. pose proof (nonempty_dict_truthy m Hne) as Ht.
  unfold user_record, found_user, data_dict. rewrite Hd.
  change (truthy PNone) with false. cbv iota.
  unfold get_val at 1. rewrite Hm. cbn [default from_option id].
  unfold or_val at 2. rewrite Ht. unfold or_val. rewrite Ht. now rewrite Ht.
Qed.

(** X17: a record found under the top-level [matchedUser] is taken over
    field by field: every field other than [submitStatsGlobal],
    [submitStats] and [submissionCalendar] is as in the input, and the
    record's own [submissionCalendar] is kept even when the top level has
    one too; a top-level calendar is used only when the record has none. *)
Theorem user_record_passes_through (jd m : gmap string pyval) :
  jd !! "data" = None -> jd !! "matchedUser" = Some (PDict m) -> m <> ∅ ->
  exists out m',
    _normalize_leetcode_json (PDict jd) = Ok (PDict out)
    /\ out !! "matchedUser" = Some (PDict m')
    /\ (forall k, ~ In k stat_keys -> m' !! k = m !! k)
    /\ m' !! "submissionCalendar"
       = match m !! "submissionCalendar" with
         | Some c => Some c
         | None => jd !! "submissionCalendar"
         end.
Proof.
  intros Hd Hm Hne.
  exists (norm_map jd). rewrite normalize_dict, norm_map_user.
  unfold norm_user. rewrite (user_record_top jd m Hd Hm Hne).
  set (m1 := overwrite "submitStats" _ _).
  assert (exists m2, m1 = Some m2
            /\ (forall k, k <> "submitStatsGlobal" -> k <> "submitStats" ->
                  m2 !! k = m !! k)) as (m2 & -> & H2).
  { unfold m1, overwrite.
    destruct (jd !! "submitStatsGlobal") as [g|], (jd !! "submitStats") as [s|];
      cbn [default from_option id]; eexists; (split; [reflexivity|]);
      intros k Hg Hs; rewrite ?lookup_insert_ne by congruence; reflexivity. }
  unfold fill.
  destruct (jd !! "submissionCalendar") as [c|] eqn:Ec; cbn [default from_option id].
  - destruct (m2 !! "submissionCalendar") as [c'|] eqn:Ec2.
    + exists m2. split; [reflexivity|]. split; [reflexivity|]. split.
      * intros k Hk. apply H2; intros ->; apply Hk; simpl; tauto.
      * rewrite Ec2. rewrite H2 in Ec2 by discriminate. now rewrite Ec2.
    + exists (<["submissionCalendar" := c]> m2).
      split; [reflexivity|]. split; [reflexivity|]. split.
      * intros k Hk. rewrite lookup_insert_ne by (intros <-; apply Hk; simpl; tauto).
        apply H2; intros ->; apply Hk; simpl; tauto.
      * rewrite lookup_insert_eq. rewrite H2 in Ec2 by discriminate. now rewrite Ec2.
  - exists m2. split; [reflexivity|]. split; [reflexivity|]. split.
    + intros k Hk. apply H2; intros ->; apply Hk; simpl; tauto.
    + rewrite H2 by discriminate. now destruct (m !! "submissionCalendar").
Qed.

Lemma user_record_passes_through_witness :
  let m : gmap string pyval :=
    {[ "username" := PStr "amy"; "submissionCalendar" := PStr "{}" ]} in
  let jd : gmap string pyval :=
    {[ "matchedUser" := PDict m; "submissionCalendar" := PStr "{1: 2}" ]} in
  exists out m',
    _normalize_leetcode_json (PDict jd) = Ok (PDict out)
    /\ out !! "matchedUser" = Some (PDict m')
    /\ (forall k, ~ In k stat_keys -> m' !! k = m !! k)
    /\ m' !! "submissionCalendar"
       = match m !! "submissionCalendar" with
         | Some c => Some c
         | None => jd !! "submissionCalendar"
         end.
Proof.
  intros m jd. apply (user_record_passes_through jd m).
  - reflexivity.
  - reflexivity.
  - intros H. apply (f_equal (fun x : gmap string pyval => x !! "username")) in H.
    vm_compute in H. discriminate H.
Defined.

Lemma found_user_drop_top (jd d : gmap string pyval) :
  jd !! "data" = Some (PDict d) ->
  truthy (or_val (get_val d "matchedUser") (get_val d "user")) = true ->
  found_user (drop_top_user jd) = found_user jd.
Proof.
  intros Hd Ht. unfold found_user, data_dict, drop_top_user.
  rewrite !lookup_delete_ne by discriminate. rewrite Hd. now rewrite Ht.
Qed.

(** X18: when the [data] envelope is a dictionary that names a user
    (a truthy [matchedUser], or else a truthy [user]), the top-level
    [matchedUser], [user] and [profile] are not read: the output is the
    same with and without them. *)
Theorem data_envelope_preferred (jd d : gmap string pyval) :
  jd !! "data" = Some (PDict d) ->
  truthy (or_val (get_val d "matchedUser") (get_val d "user")) = true ->
  _normalize_leetcode_json (PDict (drop_top_user jd))
  = _normalize_leetcode_json (PDict jd).
Proof.
  intros Hd Ht. rewrite !normalize_dict. do 2 f_equal.
  unfold norm_map, norm_user, user_record.
  rewrite (found_user_drop_top jd d Hd Ht).
  unfold norm_ranking, data_dict, get_val, drop_top_user.
  rewrite !lookup_delete_ne by discriminate. reflexivity.
Qed.

Lemma data_envelope_preferred_witness :
  let jd : gmap string pyval :=
    {[ "data" := dict [("matchedUser", dict [("username", PStr "amy")])];
       "matchedUser" := dict [("username", PStr "bob")];
       "streak" := PInt 3 ]} in
  _normalize_leetcode_json (PDict (drop_top_user jd))
  = _normalize_leetcode_json (PDict jd).
Proof.
  intros jd.
  apply (data_envelope_preferred jd {[ "matchedUser" := dict [("username", PStr "amy")] ]}).
  - vm_compute. reflexivity.
  - vm_compute. reflexivity.
Defined.

(** ** Statistics extractor: where each field comes from *)

Lemma or_val_assoc a b c : or_val (or_val a b) c = or_val a (or_val b c).
Proof. unfold or_val. destruct (truthy a) eqn:Ea; [now rewrite Ea|reflexivity]. Qed.

Lemma falsy_dict_empty (d : gmap string pyval) : truthy (PDict d) = false -> d = ∅.
Proof.
  simpl. destruct (map_to_list d) eqn:E; [|discriminate].
  intros _. now apply map_to_list_empty_iff.
Qed.

Lemma or_empty_section m k :
  dict_or_falsy (get_val m k) = true ->
  or_val (get_val m k) (dict []) = PDict (section_of m k)
  /\ (truthy (PDict (section_of m k)) = false -> section_of m k = ∅).
Proof.
  intros H. split; [|apply falsy_dict_empty].
  unfold section_of, or_val, dict_or_falsy in *.
  destruct (get_val m k) as [|b|z|f|s|l|d]; cbn [isinstance_dict orb] in H.
  1-6: apply negb_true_iff in H; now rewrite H.
  destruct (truthy (PDict d)) eqn:Ht; [reflexivity|].
  now rewrite (falsy_dict_empty d Ht).
Qed.

Lemma section_get_truthy (d : gmap string pyval) k :
  (if truthy (PDict d) then py_get (PDict d) k else Ok PNone) = Ok (get_val d k).
Proof.
  destruct (truthy (PDict d)) eqn:Ht; [reflexivity|].
  now rewrite (falsy_dict_empty d Ht).
Qed.

Lemma section_get_default_truthy (d : gmap string pyval) k :
  (if truthy (PDict d) then py_get_default (PDict d) k (PInt 0) else Ok (PInt 0))
  = Ok (default (PInt 0) (d !! k)).
Proof.
  destruct (truthy (PDict d)) eqn:Ht; [reflexivity|].
  now rewrite (falsy_dict_empty d Ht).
Qed.

Lemma section_or_truthy (d : gmap string pyval) k :
  (if truthy (PDict d) then py_or (py_get (PDict d) k) (Ok (PInt 0)) else Ok (PInt 0))
  = Ok (or_val (get_val d k) (PInt 0)).
Proof.
  destruct (truthy (PDict d)) eqn:Ht.
  - now rewrite py_get_dict, py_or_val.
  - now rewrite (falsy_dict_empty d Ht).
Qed.

Lemma fallback_chain a b c :
  (if negb (truthy (or_val a (PInt 0)))
   then Ok (or_val (or_val b c) (PInt 0))
   else Ok (or_val a (PInt 0)))
  = Ok (first_truthy [a; b; c] (PInt 0)).
Proof.
  unfold first_truthy. simpl fold_right. rewrite or_val_assoc.
  unfold or_val. destruct (truthy a) eqn:Ea; simpl; now rewrite ?Ea.
Qed.

Lemma message_choice (has : bool) cal rk :
  (error_msg <-
     (if negb has
      then signal <- py_or (Ok cal) (py_get (PDict rk) "ranking");;
           (if truthy signal then Ok (PStr msg_stats_unavailable)
            else Ok (PStr msg_profile_not_found))
      else Ok PNone);;
   Ok (if truthy error_msg then error_msg else PNone))
  = Ok (if has then PNone
        else if truthy cal || truthy (get_val rk "ranking")
             then PStr msg_stats_unavailable
             else PStr msg_profile_not_found).
Proof.
  destruct has; [reflexivity|]. cbn [negb].
  rewrite py_get_dict, py_or_val, !bind_Ok.
  unfold or_val. destruct (truthy cal) eqn:Ec; [now rewrite Ec|].
  cbn [orb]. now destruct (truthy (get_val rk "ranking")).
Qed.



(** ** Statistics extractor: where the statistics array is looked for *)

Lemma section_truthy m k :
  dict_or_falsy (get_val m k) = true ->
  truthy (get_val m k) = truthy (PDict (section_of m k))
  /\ (truthy (get_val m k) = true -> get_val m k = PDict (section_of m k)).
Proof.
  unfold dict_or_falsy, section_of.
  destruct (get_val m k) as [|b|z|f|s|l|d]; cbn [isinstance_dict orb]; intros H.
  1-6: apply negb_true_iff in H; rewrite H; split; [reflexivity|discriminate].
  split; reflexivity.
Qed.

Lemma section_absent (m : gmap string pyval) k : m !! k = None -> section_of m k = ∅.
Proof. intros H. unfold section_of, get_val. now rewrite H. Qed.

(** X20: when [submitStatsGlobal] and [submitStats] of the user are
    dictionaries or falsy, the statistics array is the [acSubmissionNum]
    of [submitStatsGlobal] if that is truthy, else the one of
    [submitStats] if that is truthy, else the empty list. *)
Theorem find_ac_prefers_global (m : gmap string pyval) :
  dict_or_falsy (get_val m "submitStatsGlobal") = true ->
  dict_or_falsy (get_val m "submitStats") = true ->
  find_ac (PDict m)
  = Ok (first_truthy
          [get_val (section_of m "submitStatsGlobal") "acSubmissionNum";
           get_val (section_of m "submitStats") "acSubmissionNum"] (PList [])).
Proof.
  intros Hg Hs.
  destruct (section_truthy m "submitStatsGlobal" Hg) as [Tg Eg].
  destruct (section_truthy m "submitStats" Hs) as [Ts Es].
  destruct (or_empty_section m "submitStatsGlobal" Hg) as [Og Zg].
  destruct (or_empty_section m "submitStats" Hs) as [Os Zs].
  set (G := section_of m "submitStatsGlobal") in *.
  set (S := section_of m "submitStats") in *.
  unfold find_ac, first_truthy. cbn [fold_right].
  rewrite !py_get_dict, !py_or_val, or_val_assoc, Os, Og.
  assert (or_val (get_val m "submitStatsGlobal") (PDict S)
          = PDict (if truthy (PDict G) then G else S)) as ->.
  { unfold or_val. rewrite Tg. destruct (truthy (PDict G)) eqn:E; [|reflexivity].
    apply Eg. now rewrite Tg. }
  rewrite !bind_Ok, py_get_dict, py_or_val, bind_Ok, py_in_dict, bind_Ok.
  rewrite !py_get_dict, !py_or_val.
  assert (m !! "submitStats" = None -> get_val S "acSubmissionNum" = PNone) as Hno.
  { intros H. unfold S. now rewrite (section_absent m _ H). }
  assert (truthy (PDict G) = false -> get_val G "acSubmissionNum" = PNone) as HG0.
  { intros H. now rewrite (Zg H). }
  set (acG := get_val G "acSubmissionNum") in *.
  set (acS := get_val S "acSubmissionNum") in *.
  destruct (truthy (PDict G)) eqn:EG.
  - fold acG. unfold or_val.
    destruct (truthy acG) eqn:Ea, (truthy acS) eqn:Eb, (m !! "submitStats") eqn:Em;
      rewrite ?(Hno eq_refl) in *;
      try (cbn in Eb; discriminate Eb);
      repeat first [ rewrite Ea | rewrite Eb | rewrite bind_Ok
                   | progress cbn [negb andb truthy] ];
      reflexivity.
  - rewrite (HG0 eq_refl). fold acS. unfold or_val.
    destruct (truthy acS) eqn:Eb, (m !! "submitStats") eqn:Em;
      rewrite ?(Hno eq_refl) in *;
      try (cbn in Eb; discriminate Eb);
      repeat first [ rewrite Eb | rewrite bind_Ok
                   | progress cbn [negb andb truthy] ];
      reflexivity.
Qed.

Lemma find_ac_prefers_global_witness :
  let m : gmap string pyval :=
    {[ "submitStatsGlobal" := dict [("acSubmissionNum", PList [])];
       "submitStats" := dict [("acSubmissionNum", PList [PInt 1])] ]} in
  find_ac (PDict m)
  = Ok (first_truthy
          [get_val (section_of m "submitStatsGlobal") "acSubmissionNum";
           get_val (section_of m "submitStats") "acSubmissionNum"] (PList [])).
Proof.
  intros m. apply (find_ac_prefers_global m); vm_compute; reflexivity.
Defined.

(** ** Filling a report *)

#[local] Set Warnings "-clear-no-such-hyp".

Section ReportSteps.

Import Report.

Lemma writes_lift {A} W (c : res A) : writes W (lift c).
Proof. intros r. simpl. repeat split; auto. Qed.

Lemma writes_sret {A} W (a : A) : writes W (sret a).
Proof. intros r. simpl. repeat split; auto. Qed.

Lemma writes_current W k : writes W (current k).
Proof. intros r. simpl. repeat split; auto. Qed.

Lemma writes_assign W k v : In k W -> writes W (assign k v).
Proof.
  intros Hk r. simpl. repeat split.
  - intros k' Hk'. apply lookup_insert_ne. intros ->. contradiction.
  - intros k' Hs. rewrite lookup_insert. case_decide; [eauto|exact Hs].
  - intros k'. rewrite lookup_insert. case_decide; [subst; now right|now left].
Qed.

Lemma writes_sbind {A B} W (m : step A) (f : A -> step B) :
  writes W m -> (forall a, writes W (f a)) -> writes W (sbind m f).
Proof.
  intros Hm Hf r. unfold sbind. destruct (Hm r) as (H1 & H2 & H3).
  destruct (m r) as [[a|e] r']; simpl in *; [|repeat split; assumption].
  destruct (Hf a r') as (F1 & F2 & F3). repeat split.
  - intros k Hk. now rewrite F1, H1.
  - intros k Hs. now apply F2, H2.
  - intros k Hs. destruct (F3 k Hs) as [Hr|Hw]; [now apply H3|now right].
Qed.

Lemma writes_suppress W (c : step unit) : writes W c -> writes W (suppress c).
Proof. intros Hc r. exact (Hc r). Qed.

Lemma writes_if {A} W (b : bool) (x y : step A) :
  writes W x -> writes W y -> writes W (if b then x else y).
Proof. now destruct b. Qed.

Lemma writes_mono {A} W W' (m : step A) :
  (forall k, In k W -> In k W') -> writes W m -> writes W' m.
Proof.
  intros Hsub Hm r. destruct (Hm r) as (H1 & H2 & H3). repeat split.
  - intros k Hk. apply H1. intros Hw. apply Hk, Hsub, Hw.
  - exact H2.
  - intros k Hs. destruct (H3 k Hs); [now left|right; now apply Hsub].
Qed.

End ReportSteps.

Ltac in_list := simpl; repeat first [left; reflexivity | right].

Ltac writes_step :=
  match goal with
  | |- Report.writes _ (Report.sbind _ _) =>
      apply writes_sbind; [|intros ?]
  | |- Report.writes _ (Report.lift _) => apply writes_lift
  | |- Report.writes _ (Report.sret _) => apply writes_sret
  | |- Report.writes _ (Report.current _) => apply writes_current
  | |- Report.writes _ (Report.assign _ _) => apply writes_assign; in_list
  | |- Report.writes _ (Report.suppress _) => apply writes_suppress
  | |- Report.writes _ (if _ then _ else _) => apply writes_if
  | |- Report.writes _ (Codeforces.copy_field _ _ _ _) =>
      unfold Codeforces.copy_field
  end.

(** ** Codeforces fetcher *)

Section CodeforcesFacts.

Import Report Codeforces.

Variable float_sub : pyval -> pyval -> res pyval.
Variable round_mean : list pyval -> res pyval.
Variable repr_other : pyval -> string.

Lemma user_info_block_writes o : writes profile_keys (user_info_block o).
Proof. unfold user_info_block. repeat writes_step. Qed.

Lemma contest_details_writes contests :
  writes ["avgChange"; "lastContest"] (contest_details float_sub round_mean contests).
Proof. unfold contest_details. repeat writes_step. Qed.

Lemma rating_block_writes o :
  writes contest_keys (rating_block float_sub round_mean o).
Proof.
  unfold rating_block.
  repeat first [ writes_step
               | eapply writes_mono; [|apply contest_details_writes];
                 intros k Hk; simpl in Hk |- *; tauto ].
Qed.

Lemma status_block_writes o : writes solved_keys (status_block repr_other o).
Proof. unfold status_block. repeat writes_step. Qed.

Lemma body_writes o :
  writes (profile_keys ++ contest_keys ++ solved_keys)
    (suppress (_ <~ user_info_block o;;
               _ <~ rating_block float_sub round_mean o;;
               status_block repr_other o)).
Proof.
  apply writes_suppress.
  apply writes_sbind; [|intros ?; apply writes_sbind; [|intros ?]].
  - eapply writes_mono; [|apply user_info_block_writes].
    intros k Hk. apply in_or_app. now left.
  - eapply writes_mono; [|apply rating_block_writes].
    intros k Hk. apply in_or_app. right. apply in_or_app. now left.
  - eapply writes_mono; [|apply status_block_writes].
    intros k Hk. apply in_or_app. right. apply in_or_app. now right.
Qed.

Lemma template_keys u k :
  is_Some (report_template u !! k) <-> In k report_keys.
Proof.
  split.
  - intros [v Hv]. unfold report_template in Hv.
    apply elem_of_list_to_map_2, list_elem_of_In in Hv. simpl in Hv.
    repeat (destruct Hv as [Hv | Hv]; [injection Hv as <- _; in_list|]).
    destruct Hv.
  - simpl. intros H.
    repeat (destruct H as [<- | H]; [vm_compute; eauto|]). destruct H.
Qed.

(** What the second block leaves when [user.rating] answers with a
    list of contests. *)
Lemma rating_block_counts o r (j2 : gmap string pyval) l :
  user_rating_get o = Ok (HttpResponse 200 (Ok (PDict j2))) ->
  j2 !! "status" = Some (PStr "OK") -> j2 !! "result" = Some (PList l) -> l <> [] ->
  snd (rating_block float_sub round_mean o r)
  = snd (contest_details float_sub round_mean (PList l)
           (<["totalContests" := PInt (Z.of_nat (List.length l))]> r)).
Proof.
  intros Hget Hs Hr Hl. unfold rating_block, suppress. cbn [snd].
  unfold sbind at 1. unfold lift at 1. rewrite Hget. cbn [status_code json].
  change (200 =? 200) with true. cbv iota.
  unfold sbind at 1. unfold lift at 1.
  assert (has_result (PDict j2) = Ok true) as ->.
  { unfold has_result. rewrite !py_get_dict, bind_Ok. unfold get_val. rewrite Hs, Hr.
    cbn [default from_option id]. destruct l; [contradiction|reflexivity]. }
  unfold sbind at 1. unfold lift at 1.
  unfold py_getitem. rewrite Hr.
  unfold sbind at 1. unfold lift at 1. cbn [py_len].
  unfold sbind at 1. unfold assign at 1.
  destruct l as [|a l']; [contradiction|reflexivity].
Qed.

Lemma contest_details_raise l r e :
  rating_changes float_sub l = Raise e ->
  snd (contest_details float_sub round_mean (PList l) r) = r.
Proof.
  intros H. unfold contest_details, sbind, lift. cbn [py_iter]. now rewrite H.
Qed.

Lemma add_solved_acc s sub s' :
  add_solved repr_other s sub = Ok s' ->
  exists d, add_solved repr_other ∅ sub = Ok d /\ s' = d ∪ s
            /\ (d = ∅ \/ (exists id, d = {[id]}) /\ accepted sub = true).
Proof.
  clear float_sub round_mean.
  unfold add_solved, accepted.
  destruct (py_get sub "verdict") as [verdict|]; [|discriminate].
  rewrite !bind_Ok.
  destruct (py_eq_str verdict "OK").
  2:{ intros [= <-]. exists ∅. split; [reflexivity|]. split; [set_solver|now left]. }
  destruct (py_get_default sub "problem" (dict [])) as [problem|]; [|discriminate].
  rewrite !bind_Ok.
  destruct (py_get_default problem "contestId" (PStr "")) as [c|]; [|discriminate].
  rewrite !bind_Ok.
  destruct (py_get_default problem "index" (PStr "")) as [i|]; [|discriminate].
  rewrite !bind_Ok. cbv zeta.
  destruct (negb _).
  - intros [= <-]. eexists. split; [reflexivity|]. split; [set_solver|].
    right. split; [|reflexivity]. eexists. apply union_empty_r_L.
  - intros [= <-]. exists ∅. split; [reflexivity|]. split; [set_solver|now left].
Qed.

Lemma solved_fold subs : forall s s',
  for_each subs s (add_solved repr_other) = Ok s' ->
  (forall id, id ∈ s' <->
     id ∈ s \/ exists sub, In sub subs /\ add_solved repr_other ∅ sub = Ok {[id]})
  /\ (size s' <= size s + List.length (List.filter accepted subs))%nat.
Proof.
  clear float_sub round_mean.
  induction subs as [|sub subs IH]; intros s s' H; simpl in H.
  - injection H as <-. split; [|simpl; lia].
    intros id. split; [now left|]. intros [H|(sub & [] & _)]. exact H.
  - inv_bind H. rename x into s1.
    destruct (add_solved_acc s sub s1 E) as (d & Hd & -> & Hcase).
    destruct (IH _ _ H) as [Hin Hsize]. split.
    + intros id. rewrite Hin. split.
      * intros [Hu | (sub' & Hsub' & Ha)].
        -- apply elem_of_union in Hu as [Hd' | Hs]; [|now left].
           right. exists sub. split; [now left|].
           destruct Hcase as [-> | [[id' ->] _]]; [set_solver|].
           apply elem_of_singleton in Hd'. now subst.
        -- right. exists sub'. split; [now right|exact Ha].
      * intros [Hs | (sub' & [<- | Hsub'] & Ha)].
        -- left. set_solver.
        -- left. rewrite Hd in Ha. injection Ha as ->. set_solver.
        -- right. eauto.
    + simpl. destruct Hcase as [-> | [[id ->] Hacc]].
      * replace (∅ ∪ s) with s in Hsize by set_solver.
        destruct (accepted sub); simpl; lia.
      * rewrite Hacc. simpl.
        assert (size ({[id]} ∪ s) <= 1 + size s)%nat.
        { rewrite size_union_alt, size_singleton.
          assert (size (s ∖ {[id]}) <= size s)%nat by (apply subseteq_size; set_solver).
          lia. }
        lia.
Qed.

Lemma status_block_counts o r (j3 : gmap string pyval) subs solved :
  user_status_get o = Ok (HttpResponse 200 (Ok (PDict j3))) ->
  j3 !! "status" = Some (PStr "OK") -> j3 !! "result" = Some (PList subs) ->
  for_each subs ∅ (add_solved repr_other) = Ok solved ->
  snd (status_block repr_other o r)
  = <["problemsSolved" := PInt (Z.of_nat (size solved))]> r.
Proof.
  intros Hget Hs Hr Hf. unfold status_block, suppress, sbind, lift, assign. cbn [snd].
  rewrite Hget. cbn [status_code json]. change (200 =? 200) with true. cbv iota.
  rewrite py_get_dict. unfold get_val. rewrite Hs. cbn [default from_option id].
  change (py_eq_str (PStr "OK") "OK") with true. cbv iota.
  unfold py_get_default. rewrite Hr. cbn [default from_option id py_iter].
  now rewrite Hf.
Qed.

Lemma fetch_after_user_info o u :
  fst (user_info_block o (report_template u)) = Ok tt ->
  fetch_codeforces_live float_sub round_mean repr_other o u
  = envelope
      (snd (status_block repr_other o
              (snd (rating_block float_sub round_mean o
                      (snd (user_info_block o (report_template u))))))).
Proof.
  intros H. unfold fetch_codeforces_live. f_equal.
  unfold suppress at 1. cbn [snd]. unfold sbind at 1.
  destruct (user_info_block o (report_template u)) as [[[]|e] r1]; [|discriminate H].
  cbn [snd]. unfold sbind at 1.
  unfold rating_block at 1. unfold suppress at 1. reflexivity.
Qed.

End CodeforcesFacts.

(** X21: whatever the three calls answer, the report of the Codeforces
    fetcher has exactly the twenty fields of the template, and its
    [username] and [profileUrl] are the template's. *)
Theorem codeforces_report_shape (float_sub : pyval -> pyval -> res pyval)
    (round_mean : list pyval -> res pyval) (repr_other : pyval -> string)
    (o : Codeforces.upstream) (u : string) :
  exists report,
    Codeforces.fetch_codeforces_live float_sub round_mean repr_other o u
    = Codeforces.envelope report
    /\ Codeforces.shaped u report.
Proof.
  eexists. split; [reflexivity|].
  destruct (body_writes float_sub round_mean repr_other o (Codeforces.report_template u))
    as (H1 & H2 & H3).
  split.
  - intros k. rewrite <- (template_keys u k). split.
    + intros Hs. destruct (H3 k Hs) as [Hr|Hw]; [exact Hr|].
      apply template_keys. revert Hw. simpl.
      intros H. repeat (destruct H as [<- | H]; [in_list|]). destruct H.
    + apply H2.
  - intros k Hk. apply H1. simpl in Hk. simpl.
    intros H. destruct Hk as [<- | [<- | []]];
      repeat (destruct H as [H | H]; [discriminate H|]); exact H.
Qed.

(** X22: when the [user.info] call raises, answers with an HTTP error
    status, or has no JSON dictionary as its body, the fetcher returns the
    bare template: the two other calls are not made, whatever they would
    answer. *)
Theorem codeforces_needs_user_info (float_sub : pyval -> pyval -> res pyval)
    (round_mean : list pyval -> res pyval) (repr_other : pyval -> string)
    (o : Codeforces.upstream) (u : string) :
  Codeforces.user_info_unusable o = true ->
  Codeforces.fetch_codeforces_live float_sub round_mean repr_other o u
  = Codeforces.codeforces_template u.
Proof.
  intros H. unfold Codeforces.fetch_codeforces_live, Codeforces.codeforces_template.
  f_equal. unfold Report.suppress. cbn [snd].
  assert (exists e, Codeforces.user_info_block o (Codeforces.report_template u)
                    = (Raise e, Codeforces.report_template u)) as [e He].
  { unfold Codeforces.user_info_unusable in H.
    unfold Codeforces.user_info_block, Report.sbind, Report.lift.
    destruct (Codeforces.user_info_get o) as [resp|e]; [|eauto].
    unfold raise_for_status.
    destruct ((400 <=? status_code resp) && (status_code resp <? 600)); [eauto|].
    cbn [orb] in H.
    destruct (json resp) as [[| | | | | |d]|e]; try discriminate H; eauto. }
  unfold Report.sbind at 1. now rewrite He.
Qed.

Lemma codeforces_needs_user_info_witness :
  let o := Codeforces.Upstream
             (Ok (HttpResponse 503 (Raise ValueError)))
             (Ok (HttpResponse 200
                    (Ok (dict [("status", PStr "OK");
                               ("result", PList [dict [("oldRating", PInt 0)]])]))))
             (Raise UpstreamError) in
  Codeforces.fetch_codeforces_live (fun _ _ => Raise TypeError) (fun _ => Raise TypeError)
    (fun _ => "") o "tourist"
  = Codeforces.codeforces_template "tourist".
Proof.
  intros o. apply codeforces_needs_user_info. reflexivity.
Defined.

(** X23: when the [user.info] block has not raised and [user.rating]
    answers 200 with status "OK" and a list of contests that is not
    empty, [totalContests] is the length of that list, whatever the
    entries are; when an entry then makes the list of rating changes
    raise, [avgChange] and [lastContest] stay at the template's 0 and
    [None]. *)
Theorem codeforces_counts_contests (float_sub : pyval -> pyval -> res pyval)
    (round_mean : list pyval -> res pyval) (repr_other : pyval -> string)
    (o : Codeforces.upstream) (u : string) (j2 : gmap string pyval) (l : list pyval) :
  fst (Codeforces.user_info_block o (Codeforces.report_template u)) = Ok tt ->
  Codeforces.user_rating_get o = Ok (HttpResponse 200 (Ok (PDict j2))) ->
  j2 !! "status" = Some (PStr "OK") -> j2 !! "result" = Some (PList l) -> l <> [] ->
  exists report,
    Codeforces.fetch_codeforces_live float_sub round_mean repr_other o u
    = Codeforces.envelope report
    /\ report !! "totalContests" = Some (PInt (Z.of_nat (List.length l)))
    /\ (forall e, Codeforces.rating_changes float_sub l = Raise e ->
          report !! "avgChange" = Some (PInt 0)
          /\ report !! "lastContest" = Some PNone).
Proof.
  intros H1 Hget Hs Hr Hl.
  rewrite (fetch_after_user_info float_sub round_mean repr_other o u H1).
  eexists. split; [reflexivity|].
  set (r1 := snd (Codeforces.user_info_block o (Codeforces.report_template u))).
  destruct (status_block_writes repr_other o
              (snd (Codeforces.rating_block float_sub round_mean o r1))) as (S1 & _ & _).
  rewrite !S1 by (simpl; intuition discriminate).
  rewrite (rating_block_counts float_sub round_mean o r1 j2 l Hget Hs Hr Hl).
  split.
  - destruct (contest_details_writes float_sub round_mean (PList l)
                (<["totalContests" := PInt (Z.of_nat (List.length l))]> r1))
      as (C1 & _ & _).
    rewrite C1 by (simpl; intuition discriminate). apply lookup_insert_eq.
  - intros e He. rewrite (contest_details_raise float_sub round_mean l _ e He).
    rewrite !lookup_insert_ne by discriminate.
    destruct (user_info_block_writes o (Codeforces.report_template u)) as (U1 & _ & _).
    fold r1 in U1. rewrite !U1 by (simpl; intuition discriminate).
    split; reflexivity.
Qed.

Lemma codeforces_counts_contests_witness :
  let l := [dict [("oldRating", PInt 1500); ("newRating", PInt 1520)]; PInt 7] in
  let o := Codeforces.Upstream
             (Ok (HttpResponse 200 (Ok (dict [("status", PStr "FAILED")]))))
             (Ok (HttpResponse 200
                    (Ok (dict [("status", PStr "OK"); ("result", PList l)]))))
             (Raise UpstreamError) in
  exists report,
    Codeforces.fetch_codeforces_live (fun _ _ => Raise TypeError)
      (fun _ => Raise TypeError) (fun _ => "") o "tourist"
    = Codeforces.envelope report
    /\ report !! "totalContests" = Some (PInt (Z.of_nat (List.length l)))
    /\ (forall e, Codeforces.rating_changes (fun _ _ => Raise TypeError) l = Raise e ->
          report !! "avgChange" = Some (PInt 0)
          /\ report !! "lastContest" = Some PNone).
Proof.
  intros l o.
  apply (codeforces_counts_contests _ _ _ o "tourist"
           {[ "status" := PStr "OK"; "result" := PList l ]} l).
  - reflexivity.
  - vm_compute. reflexivity.
  - reflexivity.
  - reflexivity.
  - discriminate.
Defined.

(** X24: when the [user.info] block has not raised and [user.status]
    answers 200 with status "OK" and a list of submissions that the loop
    gets through, [problemsSolved] is the number of distinct problem ids:
    an id is counted exactly when some submission in the list gives it,
    however often and in whatever order, so the count is at most the
    number of accepted submissions. *)
Theorem codeforces_counts_distinct_problems (float_sub : pyval -> pyval -> res pyval)
    (round_mean : list pyval -> res pyval) (repr_other : pyval -> string)
    (o : Codeforces.upstream) (u : string) (j3 : gmap string pyval)
    (subs : list pyval) (solved : gset string) :
  fst (Codeforces.user_info_block o (Codeforces.report_template u)) = Ok tt ->
  Codeforces.user_status_get o = Ok (HttpResponse 200 (Ok (PDict j3))) ->
  j3 !! "status" = Some (PStr "OK") -> j3 !! "result" = Some (PList subs) ->
  for_each subs ∅ (Codeforces.add_solved repr_other) = Ok solved ->
  (exists report,
     Codeforces.fetch_codeforces_live float_sub round_mean repr_other o u
     = Codeforces.envelope report
     /\ report !! "problemsSolved" = Some (PInt (Z.of_nat (size solved))))
  /\ (forall id, id ∈ solved <->
        exists sub, In sub subs
                    /\ Codeforces.add_solved repr_other ∅ sub = Ok {[id]})
  /\ (size solved <= List.length (List.filter Codeforces.accepted subs))%nat.
Proof.
  intros H1 Hget Hs Hr Hf.
  destruct (solved_fold repr_other subs ∅ solved Hf) as [Hin Hsize].
  split; [|split].
  - rewrite (fetch_after_user_info float_sub round_mean repr_other o u H1).
    eexists. split; [reflexivity|].
    rewrite (status_block_counts repr_other o _ j3 subs solved Hget Hs Hr Hf).
    apply lookup_insert_eq.
  - intros id. rewrite Hin. split; [|now right].
    intros [He|H]; [|exact H]. now apply not_elem_of_empty in He.
  - rewrite size_empty in Hsize. exact Hsize.
Qed.

Lemma codeforces_counts_distinct_problems_witness :
  let sub := fun (verdict : string) (c : Z) (i : string) =>
    dict [("verdict", PStr verdict);
          ("problem", dict [("contestId", PInt c); ("index", PStr i)])] in
  let subs := [sub "OK" 4 "A"; sub "WRONG_ANSWER" 4 "B"; sub "OK" 4 "A"; sub "OK" 71 "A"] in
  let o := Codeforces.Upstream
             (Ok (HttpResponse 200 (Ok (dict [("status", PStr "FAILED")]))))
             (Raise UpstreamError)
             (Ok (HttpResponse 200
                    (Ok (dict [("status", PStr "OK"); ("result", PList subs)])))) in
  let solved : gset string := {[ "4A"; "71A" ]} in
  (exists report,
     Codeforces.fetch_codeforces_live (fun _ _ => Raise TypeError)
       (fun _ => Raise TypeError) (fun _ => "") o "tourist"
     = Codeforces.envelope report
     /\ report !! "problemsSolved" = Some (PInt (Z.of_nat (size solved))))
  /\ (forall id, id ∈ solved <->
        exists sub, In sub subs
                    /\ Codeforces.add_solved (fun _ => "") ∅ sub = Ok {[id]})
  /\ (size solved <= List.length (List.filter Codeforces.accepted subs))%nat.
Proof.
  intros sub subs o solved.
  apply (codeforces_counts_distinct_problems _ _ _ o "tourist"
           {[ "status" := PStr "OK"; "result" := PList subs ]} subs solved).
  - reflexivity.
  - vm_compute. reflexivity.
  - reflexivity.
  - reflexivity.
  - vm_compute. reflexivity.
Defined.

(** ** Duolingo fetcher *)

Ltac duo_step :=
  first [ writes_step
        | match goal with
          | |- Report.writes _ (Duolingo.fill_field _ _ _ _) => unfold Duolingo.fill_field
          | |- Report.writes _ (match ?x with Some _ => _ | None => _ end) => destruct x
          | |- Report.writes _ (let '(_, _) := ?x in _) => destruct x
          end ].

Section DuolingoFacts.

Import Report Duolingo.

Variable dict_items : gmap string pyval -> list (string * pyval).

Lemma avatar_of_writes W j : writes W (avatar_of j).
Proof. intros r. simpl. repeat split; auto. Qed.

Lemma json_path_writes j u : writes report_keys (json_path dict_items j u).
Proof. unfold json_path. repeat first [apply avatar_of_writes | duo_step]. Qed.

Lemma profile_path_writes o : writes ["avatarUrl"; "name"] (profile_path o).
Proof. unfold profile_path. repeat duo_step. Qed.

Lemma fetch_writes o u :
  writes report_keys
    (suppress
       (r <~ lift (users_get o);;
        if status_code r =? 200 then
          j <~ lift (json r);; json_path dict_items j u
        else profile_path o)).
Proof.
  repeat first [ apply json_path_writes
               | eapply writes_mono; [|apply profile_path_writes];
                 intros k Hk; simpl in Hk |- *; tauto
               | duo_step ].
Qed.

Lemma get_or_else_dict (jd : gmap string pyval) keys d :
  get_or_else (PDict jd) keys (Ok d) = Ok (first_truthy (get_val jd <$> keys) d).
Proof.
  unfold get_or_else, first_truthy.
  induction keys as [|k keys IH]; [reflexivity|].
  cbn [fold_right fmap list_fmap]. now rewrite IH, py_get_dict, py_or_val.
Qed.

Lemma get_or_dict (jd : gmap string pyval) keys d :
  get_or (PDict jd) keys d = Ok (first_truthy (get_val jd <$> keys) d).
Proof. apply get_or_else_dict. Qed.

Lemma first_truthy_or l d : truthy_or d (first_truthy l d).
Proof.
  unfold first_truthy. induction l as [|a l IH]; [now right|].
  cbn [fold_right]. unfold or_val at 1.
  destruct (truthy a) eqn:E; [now left|exact IH].
Qed.

Lemma language_entry_intro language level xp crowns fluency_score :
  truthy_or (PInt 0) level -> truthy_or (PInt 0) xp ->
  truthy_or (PInt 0) crowns -> truthy_or (PInt 0) fluency_score ->
  language_entry (dict [("language", language);
                        ("level", level);
                        ("xp", xp);
                        ("crowns", crowns);
                        ("fluency_score", fluency_score)]).
Proof.
  intros Hl Hx Hc Hf. eexists. split; [reflexivity|]. split.
  - intros k. split.
    + intros [v Hv]. apply elem_of_list_to_map_2, list_elem_of_In in Hv.
      simpl in Hv.
      repeat (destruct Hv as [Hv | Hv]; [injection Hv as <- _; in_list|]).
      destruct Hv.
    + simpl. intros H.
      repeat (destruct H as [<- | H]; [vm_compute; eauto|]). destruct H.
  - intros k x Hk Hv. simpl in Hk.
    destruct Hk as [<- | [<- | [<- | [<- | []]]]];
      vm_compute in Hv; injection Hv as <-; assumption.
Qed.

(** What one dictionary-valued item adds to [languages]. *)
Lemma add_language_dict langs code (info : gmap string pyval) :
  exists entry,
    add_language langs (code, PDict info) = Ok (langs ++ [entry])%list
    /\ language_entry entry.
Proof.
  unfold add_language. cbn [isinstance_dict].
  rewrite !get_or_dict, !bind_Ok.
  eexists. split; [reflexivity|].
  apply language_entry_intro; apply first_truthy_or.
Qed.

Lemma add_language_other langs code info :
  isinstance_dict info = false -> add_language langs (code, info) = Ok langs.
Proof. intros H. unfold add_language. now rewrite H. Qed.

Lemma languages_fold items : forall langs,
  Forall language_entry langs ->
  exists langs',
    for_each items langs add_language = Ok langs'
    /\ Forall language_entry langs'
    /\ List.length langs'
       = (List.length langs
          + List.length (List.filter (fun it => isinstance_dict (snd it)) items))%nat.
Proof.
  induction items as [|[code info] items IH]; intros langs Hl.
  - exists langs. simpl. repeat split; [exact Hl|lia].
  - cbn [for_each List.filter snd].
    destruct (isinstance_dict info) eqn:E.
    + destruct info as [| | | | | |d]; try discriminate E.
      destruct (add_language_dict langs code d) as (entry & -> & He).
      rewrite bind_Ok.
      destruct (IH (langs ++ [entry])%list) as (langs' & Hf & Hall & Hlen).
      { apply Forall_app. split; [exact Hl|]. now constructor. }
      exists langs'. split; [exact Hf|]. split; [exact Hall|].
      rewrite Hlen, length_app. simpl. lia.
    + rewrite (add_language_other langs code info E), bind_Ok.
      apply IH, Hl.
Qed.

(** The language data the loop goes through. *)
Lemma languages_of_dict (jd : gmap string pyval) :
  let language_data :=
    first_truthy [get_val jd "language_data"; get_val jd "languages"] (PList []) in
  exists langs,
    languages_of dict_items (PDict jd) = Ok langs
    /\ Forall language_entry langs
    /\ (forall d, language_data = PDict d ->
          List.length langs
          = List.length (List.filter (fun it => isinstance_dict (snd it)) (dict_items d)))
    /\ (isinstance_dict language_data = false -> langs = []).
Proof.
  intros language_data. unfold languages_of.
  rewrite get_or_dict, bind_Ok. cbn [fmap list_fmap]. fold language_data.
  clearbody language_data.
  destruct language_data as [|b|z|f|s|l|d];
    try (exists []; split; [reflexivity|]; split; [constructor|];
         split; [discriminate|reflexivity]).
  destruct (languages_fold (dict_items d) [] (List.Forall_nil _))
    as (langs & Hf & Hall & Hlen).
  exists langs. split; [exact Hf|]. split; [exact Hall|]. split.
  - intros d' [= <-]. exact Hlen.
  - discriminate.
Qed.

(** The report the API branch leaves. *)
Lemma json_path_run (jd : gmap string pyval) u r avatar langs :
  r !! "avatarUrl" = Some avatar ->
  languages_of dict_items (PDict jd) = Ok langs ->
  json_path dict_items (PDict jd) u r
  = (Ok tt,
     <["fromLanguage" := first_truthy [get_val jd "fromLanguage"] PNone]>
     (<["learningLanguage" := first_truthy [get_val jd "learningLanguage"] PNone]>
     (<["creationDate" := first_truthy [get_val jd "creationDate"] PNone]>
     (<["avatarUrl" := first_truthy [get_val jd "avatar"; get_val jd "picture";
                                     get_val jd "avatar_url"] avatar]>
     (<["languages" := PList langs]>
     (<["bio" := first_truthy [get_val jd "bio"] PNone]>
     (<["country" := first_truthy [get_val jd "country"] PNone]>
     (<["name" := first_truthy [get_val jd "name"; get_val jd "fullname"] PNone]>
     (<["totalXp" := first_truthy [get_val jd "totalXp"; get_val jd "total_xp"] (PInt 0)]>
     (<["streak" := first_truthy [get_val jd "site_streak"; get_val jd "streak"] (PInt 0)]>
     (<["username" := default (PStr u) (jd !! "username")]> r))))))))))).
Proof.
  intros Ha Hl. unfold json_path, fill_field, avatar_of.
  rewrite !get_or_dict, Hl. cbn [fmap list_fmap py_get_default].
  unfold sbind, lift, assign.
  unfold py_getitem. rewrite !lookup_insert_ne by discriminate. rewrite Ha.
  now rewrite get_or_else_dict.
Qed.

Lemma template_avatar u : report_template u !! "avatarUrl" = Some PNone.
Proof. vm_compute. reflexivity. Qed.

Lemma duolingo_template_keys u k :
  is_Some (report_template u !! k) <-> In k report_keys.
Proof.
  split.
  - intros [v Hv]. unfold report_template in Hv.
    apply elem_of_list_to_map_2, list_elem_of_In in Hv. simpl in Hv.
    repeat (destruct Hv as [Hv | Hv]; [injection Hv as <- _; in_list|]).
    destruct Hv.
  - simpl. intros H.
    repeat (destruct H as [<- | H]; [vm_compute; eauto|]). destruct H.
Qed.

(** The run when the users API answers 200 with a dictionary. *)
Lemma fetch_api_answer o u r (jd : gmap string pyval) :
  users_get o = Ok r -> status_code r = 200 -> json r = Ok (PDict jd) ->
  fetch_duolingo_live dict_items o u
  = envelope (snd (json_path dict_items (PDict jd) u (report_template u))).
Proof.
  intros Hget Hs Hj. unfold fetch_duolingo_live. f_equal.
  unfold suppress. cbn [snd]. unfold sbind at 1. unfold lift at 1.
  rewrite Hget, Hs. change (200 =? 200) with true. cbv iota.
  unfold sbind at 1. unfold lift at 1. now rewrite Hj.
Qed.

End DuolingoFacts.

(** X25: whatever the two requests answer, the report of the Duolingo
    fetcher has exactly the eleven fields of the template. *)
Theorem duolingo_report_shape (dict_items : gmap string pyval -> list (string * pyval))
    (o : Duolingo.upstream) (u : string) :
  exists report,
    Duolingo.fetch_duolingo_live dict_items o u = Duolingo.envelope report
    /\ forall k, is_Some (report !! k) <-> In k Duolingo.report_keys.
Proof.
  eexists. split; [reflexivity|].
  destruct (fetch_writes dict_items o u (Duolingo.report_template u)) as (_ & H2 & H3).
  intros k. rewrite <- (duolingo_template_keys u k). split.
  - intros Hs. destruct (H3 k Hs) as [Hr|Hw]; [exact Hr|].
    now apply duolingo_template_keys.
  - apply H2.
Qed.

(** X26: once the users API has answered with status 200, the profile
    page plays no part: the result is the same whatever the page request
    would give, and it is the bare template when the body is no JSON
    dictionary. *)
Theorem duolingo_api_answer_is_final
    (dict_items : gmap string pyval -> list (string * pyval))
    (o : Duolingo.upstream) (u : string) (r : http_response) :
  Duolingo.users_get o = Ok r -> status_code r = 200 ->
  (forall page,
     Duolingo.fetch_duolingo_live dict_items (Duolingo.Upstream (Ok r) page) u
     = Duolingo.fetch_duolingo_live dict_items o u)
  /\ ((forall jd, json r <> Ok (PDict jd)) ->
        Duolingo.fetch_duolingo_live dict_items o u = Duolingo.duolingo_template u).
Proof.
  intros Hget Hs. split.
  - intros page. unfold Duolingo.fetch_duolingo_live. f_equal.
    unfold Report.suppress. cbn [snd]. unfold Report.sbind at 1 3. unfold Report.lift at 1 3.
    cbn [Duolingo.users_get]. rewrite Hget, Hs. reflexivity.
  - intros Hno. unfold Duolingo.fetch_duolingo_live, Duolingo.duolingo_template. f_equal.
    unfold Report.suppress. cbn [snd]. unfold Report.sbind at 1. unfold Report.lift at 1.
    rewrite Hget, Hs. change (200 =? 200) with true. cbv iota.
    unfold Report.sbind at 1. unfold Report.lift at 1.
    destruct (json r) as [j|e]; [|reflexivity].
    destruct j as [| | | | | |jd]; try reflexivity.
    now destruct (Hno jd).
Qed.

Lemma duolingo_api_answer_is_final_witness :
  let r := HttpResponse 200 (Ok (PList [PStr "amy"])) in
  let o := Duolingo.Upstream (Ok r)
             (Ok (200, Duolingo.ProfilePage (Some (PStr "a.png")) (Some "Amy"))) in
  (forall page,
     Duolingo.fetch_duolingo_live map_to_list (Duolingo.Upstream (Ok r) page) "amy"
     = Duolingo.fetch_duolingo_live map_to_list o "amy")
  /\ ((forall jd, json r <> Ok (PDict jd)) ->
        Duolingo.fetch_duolingo_live map_to_list o "amy"
        = Duolingo.duolingo_template "amy").
Proof.
  intros r o. apply (duolingo_api_answer_is_final map_to_list o "amy" r); reflexivity.
Defined.

(** X27: when the users API answers 200 with a JSON dictionary, no falsy
    value of the body reaches the report: [streak] and [totalXp] are
    truthy or 0, and [name], [country], [bio], [avatarUrl], [creationDate],
    [learningLanguage] and [fromLanguage] are truthy or [None].  Only
    [username] is taken as it is: the body's value when the key is there,
    even a falsy one, else the requested name. *)
Theorem duolingo_fields_clean (dict_items : gmap string pyval -> list (string * pyval))
    (o : Duolingo.upstream) (u : string) (r : http_response)
    (jd : gmap string pyval) :
  Duolingo.users_get o = Ok r -> status_code r = 200 -> json r = Ok (PDict jd) ->
  exists report,
    Duolingo.fetch_duolingo_live dict_items o u = Duolingo.envelope report
    /\ report !! "username" = Some (default (PStr u) (jd !! "username"))
    /\ (forall k, In k ["streak"; "totalXp"] ->
          exists v, report !! k = Some v /\ Duolingo.truthy_or (PInt 0) v)
    /\ (forall k, In k ["name"; "country"; "bio"; "avatarUrl"; "creationDate";
                        "learningLanguage"; "fromLanguage"] ->
          exists v, report !! k = Some v /\ Duolingo.truthy_or PNone v).
Proof.
  intros Hget Hs Hj.
  rewrite (fetch_api_answer dict_items o u r jd Hget Hs Hj).
  destruct (languages_of_dict dict_items jd) as (langs & Hl & _).
  rewrite (json_path_run dict_items jd u _ PNone langs (template_avatar u) Hl).
  cbn [snd]. eexists. split; [reflexivity|]. split; [|split].
  - rewrite !lookup_insert_ne by discriminate. apply lookup_insert_eq.
  - cbn [In]. intros k [<- | [<- | []]]; eexists;
      (split; [rewrite ?lookup_insert_ne by discriminate; apply lookup_insert_eq|]);
      apply first_truthy_or.
  - cbn [In]. intros k [<- | [<- | [<- | [<- | [<- | [<- | [<- | []]]]]]]]; eexists;
      (split; [rewrite ?lookup_insert_ne by discriminate; apply lookup_insert_eq|]);
      apply first_truthy_or.
Qed.

Lemma duolingo_fields_clean_witness :
  let jd : gmap string pyval :=
    {[ "username" := PNone; "streak" := PInt 0; "site_streak" := PStr "";
       "name" := PStr ""; "fullname" := PStr "Amy" ]} in
  let r := HttpResponse 200 (Ok (PDict jd)) in
  let o := Duolingo.Upstream (Ok r) (Raise UpstreamError) in
  exists report,
    Duolingo.fetch_duolingo_live map_to_list o "amy" = Duolingo.envelope report
    /\ report !! "username" = Some (default (PStr "amy") (jd !! "username"))
    /\ (forall k, In k ["streak"; "totalXp"] ->
          exists v, report !! k = Some v /\ Duolingo.truthy_or (PInt 0) v)
    /\ (forall k, In k ["name"; "country"; "bio"; "avatarUrl"; "creationDate";
                        "learningLanguage"; "fromLanguage"] ->
          exists v, report !! k = Some v /\ Duolingo.truthy_or PNone v).
Proof.
  intros jd r o.
  apply (duolingo_fields_clean map_to_list o "amy" r jd); reflexivity.
Defined.

(** X28: when the users API answers 200 with a JSON dictionary,
    [languages] is built from [language_data], or from [languages] when
    that is falsy: if the value is a dictionary, the list has one entry
    for each of its items whose value is a dictionary, each entry with
    the five fields [language], [level], [xp], [crowns] and
    [fluency_score], the four numbers truthy or 0; if it is anything
    else, a list of language codes for one, the list is empty. *)
Theorem duolingo_languages (dict_items : gmap string pyval -> list (string * pyval))
    (o : Duolingo.upstream) (u : string) (r : http_response)
    (jd : gmap string pyval) :
  Duolingo.users_get o = Ok r -> status_code r = 200 -> json r = Ok (PDict jd) ->
  let language_data :=
    first_truthy [get_val jd "language_data"; get_val jd "languages"] (PList []) in
  exists report langs,
    Duolingo.fetch_duolingo_live dict_items o u = Duolingo.envelope report
    /\ report !! "languages" = Some (PList langs)
    /\ Forall Duolingo.language_entry langs
    /\ (forall d, language_data = PDict d ->
          List.length langs
          = List.length (List.filter (fun it => isinstance_dict (snd it)) (dict_items d)))
    /\ (isinstance_dict language_data = false -> langs = []).
Proof.
  intros Hget Hs Hj language_data.
  rewrite (fetch_api_answer dict_items o u r jd Hget Hs Hj).
  destruct (languages_of_dict dict_items jd) as (langs & Hl & Hall & Hlen & Hno).
  rewrite (json_path_run dict_items jd u _ PNone langs (template_avatar u) Hl).
  cbn [snd]. eexists. exists langs. split; [reflexivity|]. split.
  - rewrite !lookup_insert_ne by discriminate. apply lookup_insert_eq.
  - split; [exact Hall|]. split; [exact Hlen|exact Hno].
Qed.

Lemma duolingo_languages_witness :
  let jd : gmap string pyval :=
    {[ "language_data" := dict [];
       "languages" := dict [("es", dict [("language_name", PStr "Spanish");
                                         ("level", PInt 0)]);
                            ("fr", PStr "French")] ]} in
  let r := HttpResponse 200 (Ok (PDict jd)) in
  let o := Duolingo.Upstream (Ok r) (Raise UpstreamError) in
  let language_data :=
    first_truthy [get_val jd "language_data"; get_val jd "languages"] (PList []) in
  exists report langs,
    Duolingo.fetch_duolingo_live map_to_list o "amy" = Duolingo.envelope report
    /\ report !! "languages" = Some (PList langs)
    /\ Forall Duolingo.language_entry langs
    /\ (forall d, language_data = PDict d ->
          List.length langs
          = List.length (List.filter (fun it => isinstance_dict (snd it)) (map_to_list d)))
    /\ (isinstance_dict language_data = false -> langs = []).
Proof.
  intros jd r o.
  apply (duolingo_languages map_to_list o "amy" r jd); reflexivity.
Defined.

(** ** CodeChef fetcher: the rating section *)

Lemma star_label_reached n :
  CodeChef.star_label n
  = nth (CodeChef.stars_reached n) CodeChef.star_labels "".
Proof.
  unfold CodeChef.star_label, CodeChef.stars_reached, CodeChef.star_thresholds.
  cbn [List.filter]. rewrite !Z.geb_leb.
  destruct (Z.leb_spec 3000 n), (Z.leb_spec 2500 n), (Z.leb_spec 2200 n),
    (Z.leb_spec 2000 n), (Z.leb_spec 1800 n), (Z.leb_spec 1600 n),
    (Z.leb_spec 1400 n); try lia; reflexivity.
Qed.

Lemma stars_reached_mono n m :
  n <= m -> (CodeChef.stars_reached n <= CodeChef.stars_reached m)%nat.
Proof.
  intros H. unfold CodeChef.stars_reached.
  induction CodeChef.star_thresholds as [|t l IH]; [reflexivity|].
  cbn [List.filter].
  destruct (Z.leb_spec t n), (Z.leb_spec t m); cbn [List.length]; lia.
Qed.


